(** * AI Talent Matcher: the CV evaluation pipeline

    A shallow embedding of [api_evaluator.py] (class [CVEvaluator]), of the
    part of [main.py] that persists the report and of the candidate loop of
    [pdf_generator.py], followed by the properties of the pipeline.

    Conventions.
    - A Python [str] is a Rocq [string]; a character is a code point below 256.
    - The values handled by the pipeline are the ones [json.loads] builds:
      [None], booleans, integers, strings, lists and dictionaries with string
      keys.  JSON numbers with a fraction or an exponent (Python floats) are
      outside the embedding.
    - What the code obtains from outside the repository (the PDF reader, the
      completion endpoint, [json.loads], [pathlib], the clock, the PDF
      renderer) is a field of the record [externals]. *)

From Stdlib Require Import ZArith String Ascii List Bool Lia DecimalString.
From Stdlib Require Import Permutation Sorted.
Import ListNotations.

Set Warnings "-register-all".

Open Scope string_scope.
Open Scope Z_scope.

(** ** Python strings *)

Module PyStr.

Definition nl : string := String "010"%char EmptyString.
Definition dq : string := String "034"%char EmptyString.

Definition code (c : ascii) : N := N_of_ascii c.

(** [s.startswith(p)] *)
Definition startswith (s p : string) : bool := String.prefix p s.

(** [s[n:]] for [n >= 0] *)
Fixpoint drop (n : nat) (s : string) : string :=
  match n, s with
  | O, _ => s
  | S _, EmptyString => EmptyString
  | S n', String _ s' => drop n' s'
  end.

(** [s[:n]] for [n >= 0] *)
Fixpoint take (n : nat) (s : string) : string :=
  match n, s with
  | O, _ => EmptyString
  | S _, EmptyString => EmptyString
  | S n', String c s' => String c (take n' s')
  end.

(** [s[:-n]] for [n > 0] *)
Definition drop_end (n : nat) (s : string) : string :=
  take (String.length s - n) s.

(** [s.endswith(p)] *)
Definition endswith (s p : string) : bool :=
  (String.length p <=? String.length s)%nat
  && String.eqb (drop (String.length s - String.length p) s) p.

(** The characters [str.strip()] removes, among code points below 256. *)
Definition is_space (c : ascii) : bool :=
  let n := code c in
  ((9 <=? n) && (n <=? 13) || (28 <=? n) && (n <=? 32)
   || (n =? 133) || (n =? 160))%N.

Fixpoint lstrip (s : string) : string :=
  match s with
  | EmptyString => EmptyString
  | String c s' => if is_space c then lstrip s' else s
  end.

Fixpoint rstrip (s : string) : string :=
  match s with
  | EmptyString => EmptyString
  | String c s' =>
      match rstrip s' with
      | EmptyString => if is_space c then EmptyString else String c EmptyString
      | r => String c r
      end
  end.

(** [s.strip()] *)
Definition strip (s : string) : string := rstrip (lstrip s).

(** [s.replace(a, b)] for one-character [a] and [b] *)
Fixpoint replace (a b : ascii) (s : string) : string :=
  match s with
  | EmptyString => EmptyString
  | String c s' => String (if Ascii.eqb c a then b else c) (replace a b s')
  end.

(** [p in s] *)
Fixpoint isin (p s : string) : bool :=
  String.prefix p s
  || match s with
     | EmptyString => false
     | String _ s' => isin p s'
     end.

Fixpoint has_char (a : ascii) (s : string) : bool :=
  match s with
  | EmptyString => false
  | String c s' => Ascii.eqb c a || has_char a s'
  end.

(** [sep.join(parts)] *)
Definition join (sep : string) (parts : list string) : string :=
  String.concat sep parts.

(** [str(z)] for an integer *)
Definition of_Z (z : Z) : string := NilZero.string_of_int (Z.to_int z).

(** [t] occurs in [s] as a contiguous piece. *)
Definition contains (s t : string) : Prop :=
  exists pre post, s = pre ++ t ++ post.

End PyStr.

(** ** Python values *)

Inductive pyval : Type :=
| PNone
| PBool (b : bool)
| PInt (z : Z)
| PStr (s : string)
| PList (items : list pyval)
| PDict (entries : list (string * pyval)).

Inductive exn : Type :=
| JSONDecodeError
| RequestException
| KeyError
| IndexError
| TypeError
| AttributeError
| UnboundLocalError
| ValueError
| RenderError.

Inductive outcome (A : Type) : Type :=
| Returned (a : A)
| Raised (e : exn).
Arguments Returned {A} a.
Arguments Raised {A} e.

Definition bind {A B : Type} (m : outcome A) (k : A -> outcome B) : outcome B :=
  match m with
  | Returned a => k a
  | Raised e => Raised e
  end.

Notation "'do' x <- m ; k" := (bind m (fun x => k))
  (at level 10, x name, m at level 100, k at level 200).

Fixpoint mapM {A B : Type} (f : A -> outcome B) (l : list A) : outcome (list B) :=
  match l with
  | [] => Returned []
  | x :: rest =>
      do y <- f x;
      do ys <- mapM f rest;
      Returned (y :: ys)
  end.

Module Py.

(** A dictionary is the list of its entries in insertion order; keys are
    unique in every dictionary the pipeline builds or parses. *)
Fixpoint lookup (k : string) (d : list (string * pyval)) : option pyval :=
  match d with
  | [] => None
  | (k', v) :: rest => if String.eqb k k' then Some v else lookup k rest
  end.

(** [d[k] = v]: an existing key keeps its position, a new one goes last. *)
Fixpoint store (k : string) (v : pyval) (d : list (string * pyval))
  : list (string * pyval) :=
  match d with
  | [] => [(k, v)]
  | (k', v') :: rest =>
      if String.eqb k k' then (k', v) :: rest else (k', v') :: store k v rest
  end.

Definition keys (d : list (string * pyval)) : list string := map fst d.

(** [bool(v)] *)
Definition truthy (v : pyval) : bool :=
  match v with
  | PNone => false
  | PBool b => b
  | PInt z => negb (z =? 0)
  | PStr s => negb (String.eqb s EmptyString)
  | PList l => match l with [] => false | _ => true end
  | PDict d => match d with [] => false | _ => true end
  end.

(** [v[k]] for a string [k] *)
Definition getitem (v : pyval) (k : string) : outcome pyval :=
  match v with
  | PDict d => match lookup k d with
               | Some x => Returned x
               | None => Raised KeyError
               end
  | _ => Raised TypeError
  end.

(** [v[0]] *)
Definition getitem0 (v : pyval) : outcome pyval :=
  match v with
  | PList (x :: _) => Returned x
  | PList [] => Raised IndexError
  | PStr (String c _) => Returned (PStr (String c EmptyString))
  | PStr EmptyString => Raised IndexError
  | PDict _ => Raised KeyError
  | _ => Raised TypeError
  end.

(** [v[:n]]; on a dictionary the slice is not a usable key (TypeError up to
    Python 3.11, KeyError from 3.12 on: the embedding keeps the former). *)
Definition slice_to (n : nat) (v : pyval) : outcome pyval :=
  match v with
  | PStr s => Returned (PStr (PyStr.take n s))
  | PList l => Returned (PList (firstn n l))
  | _ => Raised TypeError
  end.

(** [v[k] = x] for a string [k] *)
Definition setitem (v : pyval) (k : string) (x : pyval) : outcome pyval :=
  match v with
  | PDict d => Returned (PDict (store k x d))
  | _ => Raised TypeError
  end.

(** [d.get(k, default)] on a dictionary *)
Definition get (v : pyval) (k : string) (default : pyval) : outcome pyval :=
  match v with
  | PDict d => Returned (match lookup k d with Some x => x | None => default end)
  | _ => Raised AttributeError
  end.

(** Booleans are integers. *)
Definition num_of (v : pyval) : option Z :=
  match v with
  | PInt z => Some z
  | PBool true => Some 1
  | PBool false => Some 0
  | _ => None
  end.

(** [a == b] *)
Fixpoint eq (a b : pyval) {struct a} : bool :=
  match a, b with
  | PNone, PNone => true
  | PStr s, PStr t => String.eqb s t
  | PList xs, PList ys =>
      (fix go (xs ys : list pyval) {struct xs} : bool :=
         match xs, ys with
         | [], [] => true
         | x :: xs', y :: ys' => eq x y && go xs' ys'
         | _, _ => false
         end) xs ys
  | PDict d, PDict e =>
      (List.length d =? List.length e)%nat
      && (fix go (d : list (string * pyval)) : bool :=
            match d with
            | [] => true
            | (k, v) :: d' =>
                match lookup k e with
                | Some w => eq v w
                | None => false
                end && go d'
            end) d
  | PInt x, PInt y => x =? y
  | PInt x, PBool y => x =? (if y then 1 else 0)
  | PBool x, PInt y => (if x then 1 else 0) =? y
  | PBool x, PBool y => Bool.eqb x y
  | _, _ => false
  end.

(** [a < b]; [None] stands for the TypeError of unorderable operands. *)
Fixpoint lt (a b : pyval) {struct a} : option bool :=
  match a, b with
  | PStr s, PStr t => Some (String.ltb s t)
  | PList xs, PList ys =>
      (fix go (xs ys : list pyval) {struct xs} : option bool :=
         match xs, ys with
         | [], [] => Some false
         | [], _ :: _ => Some true
         | _ :: _, [] => Some false
         | x :: xs', y :: ys' => if eq x y then go xs' ys' else lt x y
         end) xs ys
  | _, _ =>
      match num_of a, num_of b with
      | Some x, Some y => Some (x <? y)
      | _, _ => None
      end
  end.

Definition hex_digit (n : N) : ascii :=
  ascii_of_N (if (n <? 10)%N then 48 + n else 87 + n)%N.

Definition hex2 (n : N) : string :=
  String (hex_digit (n / 16)) (String (hex_digit (n mod 16)) EmptyString).

Definition backslash : ascii := "092"%char.
Definition squote : ascii := "039"%char.
Definition dquote : ascii := "034"%char.

(** The quote [repr] puts around a string. *)
Definition repr_quote (s : string) : ascii :=
  if PyStr.has_char squote s && negb (PyStr.has_char dquote s)
  then dquote else squote.

Definition repr_char (q c : ascii) : string :=
  let n := N_of_ascii c in
  if Ascii.eqb c q || Ascii.eqb c backslash then String backslash (String c EmptyString)
  else if (n =? 9)%N then String backslash "t"
  else if (n =? 10)%N then String backslash "n"
  else if (n =? 13)%N then String backslash "r"
  else if ((n <? 32) || (n =? 127) || (128 <=? n) && (n <=? 160) || (n =? 173))%N
       then String backslash (String "x" (hex2 n))
  else String c EmptyString.

Fixpoint repr_chars (q : ascii) (s : string) : string :=
  match s with
  | EmptyString => EmptyString
  | String c s' => repr_char q c ++ repr_chars q s'
  end.

Definition repr_str (s : string) : string :=
  let q := repr_quote s in
  String q (repr_chars q s ++ String q EmptyString).

(** [repr(v)] *)
Fixpoint repr (v : pyval) : string :=
  match v with
  | PNone => "None"
  | PBool true => "True"
  | PBool false => "False"
  | PInt z => PyStr.of_Z z
  | PStr s => repr_str s
  | PList l =>
      "[" ++ PyStr.join ", "
               ((fix go (l : list pyval) : list string :=
                   match l with
                   | [] => []
                   | x :: l' => repr x :: go l'
                   end) l) ++ "]"
  | PDict d =>
      "{" ++ PyStr.join ", "
               ((fix go (d : list (string * pyval)) : list string :=
                   match d with
                   | [] => []
                   | (k, x) :: d' => (repr_str k ++ ": " ++ repr x) :: go d'
                   end) d) ++ "}"
  end.

(** [str(v)], which is what an f-string field without a format spec gives. *)
Definition str (v : pyval) : string :=
  match v with
  | PStr s => s
  | _ => repr v
  end.

End Py.

(** ** The world outside the repository *)

(** What one POST to the completion endpoint gives back to the caller. *)
Inductive response : Type :=
| RequestFails            (* [requests.post] or [raise_for_status] raised a RequestException *)
| BodyNotJson             (* [response.json()] raised its JSONDecodeError, which
                             the handler of [json.JSONDecodeError] catches *)
| Body (result : pyval).  (* [response.json()] returned [result] *)

(** The request sent with one POST.  The sampling temperature (0.3 for an
    evaluation, 0.4 for the summary) is a float constant and is left out. *)
Record request : Type := {
  req_url : string;
  req_authorization : string;
  req_model : string;
  req_system : string;
  req_user : string;
  req_max_tokens : Z;
  req_timeout : Z
}.

Record externals : Type := {
  (** PyPDF2 on the file at a path: the text of each page, or [None] where
      opening, parsing or extracting raises. *)
  read_pdf : string -> option (list string);
  (** [Path(p).stem] *)
  path_stem : string -> string;
  (** [json.loads]; [None] stands for JSONDecodeError. *)
  json_loads : string -> option pyval;
  (** The endpoint: what the n-th POST of the run (counted from 0) gives. *)
  endpoint : nat -> response;
  (** [datetime.now().strftime("%d %B %Y")] *)
  today : string;
  (** [datetime.now().strftime("%Y%m%d_%H%M%S")] *)
  timestamp : string;
  (** [open(p, "r", encoding="utf-8").read()], [None] where it raises. *)
  read_text : string -> option string;
  (** reportlab: whether building the PDF of a report succeeds. *)
  pdf_builds : pyval -> bool
}.

(** The requests posted so far, oldest first. *)
Definition world : Type := list request.

Definition post (X : externals) (w : world) (r : request) : world * response :=
  ((w ++ [r])%list, endpoint X (List.length w)).

(** ** api_evaluator.py *)

Record CVEvaluator : Type := {
  api_key : string;
  api_url : string;
  job_description : option string
}.

Definition init (key : string) (description : option string) : CVEvaluator :=
  {| api_key := key;
     api_url := "https://api.deepseek.com/v1/chat/completions";
     job_description := description |}.

Definition unlines (ls : list string) : string :=
  fold_right (fun l acc => l ++ PyStr.nl ++ acc) EmptyString ls.

Definition quoted (s : string) : string := PyStr.dq ++ s ++ PyStr.dq.

Section Evaluator.

Variable X : externals.
Variable self : CVEvaluator.

Definition extract_text_from_pdf (pdf_path : string) : option string :=
  match read_pdf X pdf_path with
  | Some pages => Some (fold_left (fun text page => text ++ page) pages EmptyString)
  | None => None
  end.

Definition job_description_line : string :=
  match job_description self with
  | Some d => if String.eqb d EmptyString then EmptyString
              else "- Job Description: " ++ d
  | None => EmptyString
  end.

Definition create_evaluation_prompt
  (cv_text candidate_name job_title company department : string) : string :=
  unlines [
    "You are an expert HR analyst evaluating candidate CVs for a specific role.";
    EmptyString;
    "**JOB DETAILS:**";
    "- Role: " ++ job_title;
    "- Company: " ++ company;
    "- Department: " ++ department;
    job_description_line;
    EmptyString;
    "**CANDIDATE CV:**";
    cv_text;
    EmptyString;
    "**YOUR TASK:**";
    "Evaluate this candidate against the role requirements and provide a structured assessment.";
    EmptyString;
    "**SCORING SYSTEM (Total: 100 points):**";
    "- Core Skills Match: 35 points (How well technical/functional skills align with role)";
    "- Experience Relevance: 25 points (Relevance of past work to this position)";
    "- Experience Level: 15 points (Years of experience and seniority level)";
    "- Education and Certifications: 5 points (Academic background and professional certifications)";
    "- Soft Skills and Competencies: 10 points (Leadership, communication, problem-solving)";
    "- Bonus Fit Indicators: 10 points (Cultural fit, additional value-adds, achievements)";
    EmptyString;
    "**IMPORTANT:** Be lenient in scoring. Most qualified candidates should score 65-85. Only truly exceptional candidates score 90+. Only severely mismatched candidates score below 50.";
    EmptyString;
    "**OUTPUT FORMAT (You MUST respond with valid JSON only):**";
    "{";
    "  " ++ quoted "candidate_name" ++ ": " ++ quoted candidate_name ++ ",";
    "  " ++ quoted "match_score" ++ ": <number>,";
    "  " ++ quoted "rating_summary" ++ ": " ++ quoted "<exactly 50 words>" ++ ",";
    "  " ++ quoted "strengths" ++ ": [";
    "    " ++ quoted "<strength 1>" ++ ",";
    "    " ++ quoted "<strength 2>" ++ ",";
    "    " ++ quoted "<strength 3>" ++ ",";
    "    " ++ quoted "<strength 4>";
    "  ],";
    "  " ++ quoted "potential_gaps" ++ ": [";
    "    " ++ quoted "<gap 1>" ++ ",";
    "    " ++ quoted "<gap 2>";
    "  ]";
    "}";
    EmptyString;
    "**RULES:**";
    "1. Respond ONLY with valid JSON. No markdown, no explanations, just JSON.";
    "2. Rating summary must be EXACTLY 50 words (" ++ String "177"%char "3 words acceptable) explaining the scoring logic.";
    "3. Provide exactly 4 strengths and 2 potential gaps.";
    "4. Be specific and reference actual experience from the CV.";
    "5. Be lenient - focus on potential and transferable skills.";
    "6. Match score should reflect overall evaluation across all criteria."
  ].

Definition headers_authorization : string := "Bearer " ++ api_key self.

Definition evaluation_payload (prompt : string) : request :=
  {| req_url := api_url self;
     req_authorization := headers_authorization;
     req_model := "deepseek-chat";
     req_system := "You are an expert HR analyst. You always respond with valid JSON only.";
     req_user := prompt;
     req_max_tokens := 2000;
     req_timeout := 60 |}.

(** [result['choices'][0]['message']['content']] *)
Definition message_content (result : pyval) : outcome pyval :=
  do choices <- Py.getitem result "choices";
  do first <- Py.getitem0 choices;
  do message <- Py.getitem first "message";
  Py.getitem message "content".

(** The clean-up of the response: the three [if]s and the [strip]. *)
Definition clean_up (content : string) : string :=
  let content := if PyStr.startswith content "```json"
                 then PyStr.drop 7 content else content in
  let content := if PyStr.startswith content "```"
                 then PyStr.drop 3 content else content in
  let content := if PyStr.endswith content "```"
                 then PyStr.drop_end 3 content else content in
  PyStr.strip content.

(** The body of the [try] of one attempt.  The local [content] outlives the
    attempt (the last handler prints it), so it is threaded through:
    [None] is the unbound local.  A [content] that is not a string raises
    at [startswith] and leaves the function, so its binding is never read. *)
Definition try_attempt (resp : response) (content : option string)
  : option string * outcome pyval :=
  match resp with
  | RequestFails => (content, Raised RequestException)
  | BodyNotJson => (content, Raised JSONDecodeError)
  | Body result =>
      match message_content result with
      | Raised e => (content, Raised e)
      | Returned (PStr c) =>
          let cleaned := clean_up c in
          (Some cleaned,
           match json_loads X cleaned with
           | Some evaluation => Returned evaluation
           | None => Raised JSONDecodeError
           end)
      | Returned _ => (content, Raised AttributeError)
      end
  end.

(** The [for attempt in range(max_retries)] loop over the attempts left.
    [Some o] is a [return] or a [raise] out of the loop, [None] is the loop
    running to its end. *)
Fixpoint retry_loop (prompt : string) (max_retries : Z) (attempts : list nat)
  (content : option string) (w : world) : world * option (outcome pyval) :=
  match attempts with
  | [] => (w, None)
  | attempt :: rest =>
      let (w1, resp) := post X w (evaluation_payload prompt) in
      let last := Z.of_nat attempt =? max_retries - 1 in
      match try_attempt resp content with
      | (_, Returned evaluation) => (w1, Some (Returned evaluation))
      | (content1, Raised JSONDecodeError) =>
          if last then
            match content1 with
            | Some _ => (w1, Some (Raised JSONDecodeError))
            | None => (w1, Some (Raised UnboundLocalError))
            end
          else retry_loop prompt max_retries rest content1 w1
      | (content1, Raised RequestException) =>
          if last then (w1, Some (Raised RequestException))
          else retry_loop prompt max_retries rest content1 w1
      | (_, Raised e) => (w1, Some (Raised e))
      end
  end.

Definition call_deepseek_api (prompt : string) (max_retries : Z) (w : world)
  : world * outcome pyval :=
  match retry_loop prompt max_retries (seq 0 (Z.to_nat max_retries)) None w with
  | (w1, Some o) => (w1, o)
  | (w1, None) => (w1, Returned PNone)
  end.

Definition summary_payload (prompt : string) : request :=
  {| req_url := api_url self;
     req_authorization := headers_authorization;
     req_model := "deepseek-chat";
     req_system := "You are an expert HR analyst providing clear, concise summaries.";
     req_user := prompt;
     req_max_tokens := 200;
     req_timeout := 60 |}.

(** One element of the list joined into [candidates_info]. *)
Definition candidate_info (eval : pyval) : outcome string :=
  do name <- Py.getitem eval "candidate_name";
  do score <- Py.getitem eval "match_score";
  do summary <- Py.getitem eval "rating_summary";
  do head <- Py.slice_to 100 summary;
  Returned ("- " ++ Py.str name ++ ": " ++ Py.str score ++ "/100 - " ++ Py.str head).

Definition summary_prompt (candidates_info job_title : string) : string :=
  PyStr.join PyStr.nl [
    "Based on the following candidate evaluations for the " ++ job_title
      ++ " role, write a concise 80-word overall summary comparing all candidates and providing a final recommendation.";
    EmptyString;
    "CANDIDATES:";
    candidates_info;
    EmptyString;
    "Provide an 80-word summary that:";
    "1. Compares the candidates";
    "2. Highlights the top candidate and why";
    "3. Notes key differentiators";
    "4. Provides a clear recommendation";
    EmptyString;
    "Respond with ONLY the 80-word summary text, no JSON, no formatting."
  ].

Definition sole_candidate_summary (candidate : pyval) : outcome string :=
  do name <- Py.getitem candidate "candidate_name";
  do score <- Py.getitem candidate "match_score";
  Returned (Py.str name ++ " is the only candidate evaluated with a match score of "
              ++ Py.str score ++ "/100.").

Definition fallback_summary (top_candidate : pyval) : outcome string :=
  do name <- Py.getitem top_candidate "candidate_name";
  do score <- Py.getitem top_candidate "match_score";
  Returned (Py.str name ++ " ranks highest with a score of " ++ Py.str score
              ++ "/100, demonstrating the strongest alignment with role requirements across all evaluation criteria.").

(** The body of the [try] of the summary call. *)
Definition try_summary (resp : response) : outcome string :=
  match resp with
  | RequestFails => Raised RequestException
  | BodyNotJson => Raised JSONDecodeError
  | Body result =>
      do content <- message_content result;
      match content with
      | PStr c => Returned (PyStr.strip c)
      | _ => Raised AttributeError
      end
  end.

Definition generate_overall_summary (evaluations : list pyval) (job_title : string)
  (w : world) : world * outcome string :=
  match evaluations with
  | [] => (w, Returned "No candidates were evaluated.")
  | [candidate] => (w, sole_candidate_summary candidate)
  | top_candidate :: _ =>
      match mapM candidate_info evaluations with
      | Raised e => (w, Raised e)
      | Returned infos =>
          let prompt := summary_prompt (PyStr.join PyStr.nl infos) job_title in
          let (w1, resp) := post X w (summary_payload prompt) in
          match try_summary resp with
          | Returned summary => (w1, Returned summary)
          | Raised _ => (w1, fallback_summary top_candidate)
          end
      end
  end.

(** *** list.sort(key=..., reverse=True)

    CPython computes every key first, reverses the list, sorts it with a
    stable ascending sort that only ever asks [<] of two keys, and reverses
    the result.  The ascending sort is given here as the insertion of each
    element, left to right, behind the elements that are not greater.  On
    keys that [<] orders totally this is the result of every stable sort;
    where a comparison raises, CPython may meet it at another pair. *)

Definition keyed : Type := (pyval * pyval)%type.

Fixpoint insort (x : keyed) (sorted : list keyed) : outcome (list keyed) :=
  match sorted with
  | [] => Returned [x]
  | y :: rest =>
      match Py.lt (fst x) (fst y) with
      | None => Raised TypeError
      | Some true => Returned (x :: y :: rest)
      | Some false => do r <- insort x rest; Returned (y :: r)
      end
  end.

Fixpoint sort_from (sorted pending : list keyed) : outcome (list keyed) :=
  match pending with
  | [] => Returned sorted
  | x :: rest => do s <- insort x sorted; sort_from s rest
  end.

Definition with_key (key : pyval -> outcome pyval) (x : pyval) : outcome keyed :=
  do k <- key x; Returned (k, x).

Definition sort_reverse (key : pyval -> outcome pyval) (l : list pyval)
  : outcome (list pyval) :=
  do ks <- mapM (with_key key) l;
  do sorted <- sort_from [] (rev ks);
  Returned (map snd (rev sorted)).

(** [lambda x: x['match_score']] *)
Definition match_score (x : pyval) : outcome pyval := Py.getitem x "match_score".

(** *** evaluate_candidates *)

Definition candidate_name_of (cv_file : string) : string :=
  PyStr.replace "-" " " (PyStr.replace "_" " " (path_stem X cv_file)).

(** One turn of the loop over [cv_files] on the pair of [evaluations] and
    the world.  The [print] after [append] may raise on
    [evaluation['match_score']]; the handler swallows it and the appended
    evaluation stays. *)
Definition process_cv (job_title company department : string)
  (st : list pyval * world) (cv_file : string) : list pyval * world :=
  let (evaluations, w) := st in
  let candidate_name := candidate_name_of cv_file in
  match extract_text_from_pdf cv_file with
  | None => st
  | Some cv_text =>
      if String.eqb cv_text EmptyString then st
      else
        let prompt := create_evaluation_prompt
                        cv_text candidate_name job_title company department in
        match call_deepseek_api prompt 3 w with
        | (w1, Returned evaluation) =>
            if Py.truthy evaluation
            then ((evaluations ++ [evaluation])%list, w1)
            else (evaluations, w1)
        | (w1, Raised _) => (evaluations, w1)
        end
  end.

Definition assessment_method : string :=
  "This report provides an AI-assisted evaluation of candidates against the role requirements. It summarizes estimated role fit, highlights strengths and potential risks, and presents a structured match score to support HR and hiring manager decisions.".

Definition report_of (evaluations : list pyval) (overall_summary : string)
  (job_title company department location work_mode : string) : pyval :=
  PDict [
    ("report_header", PDict [
       ("role", PStr job_title);
       ("department", PStr department);
       ("company", PStr company);
       ("location", PStr location);
       ("work_mode", PStr work_mode);
       ("report_date", PStr (today X));
       ("assessment_method", PStr assessment_method) ]);
    ("candidates", PList evaluations);
    ("overall_summary", PStr overall_summary);
    ("total_candidates", PInt (Z.of_nat (List.length evaluations)))
  ].

Definition evaluate_candidates (cv_files : list string)
  (job_title company department location work_mode : string) (w : world)
  : world * outcome pyval :=
  let (evaluations, w1) :=
    fold_left (process_cv job_title company department) cv_files ([], w) in
  match sort_reverse match_score evaluations with
  | Raised e => (w1, Raised e)
  | Returned evaluations =>
      match generate_overall_summary evaluations job_title w1 with
      | (w2, Raised e) => (w2, Raised e)
      | (w2, Returned overall_summary) =>
          (w2, Returned (report_of evaluations overall_summary
                           job_title company department location work_mode))
      end
  end.

End Evaluator.

(** *** save_json_report

    The disk holds, for a file name, the JSON document last dumped to it
    (newest first).  [json.dump] writes the report as it is at the time of
    the call; opening and writing the file are taken to succeed. *)

Definition files : Type := list (string * pyval).

Definition read_json (fs : files) (name : string) : option pyval :=
  Py.lookup name fs.

Definition save_json_report (report_data : pyval) (output_file : string) (fs : files)
  : files * string :=
  ((output_file, report_data) :: fs, output_file).

(** ** pdf_generator.py *)

Section PDFReportGenerator.

Variable X : externals.

(** The assignments [candidate['candidate_number'] = idx] of the loop
    [for idx, candidate in enumerate(candidates, 1)]. *)
Fixpoint number_candidates (idx : Z) (candidates : list pyval) : outcome (list pyval) :=
  match candidates with
  | [] => Returned []
  | candidate :: rest =>
      do c <- Py.setitem candidate "candidate_number" (PInt idx);
      do cs <- number_candidates (idx + 1) rest;
      Returned (c :: cs)
  end.

(** [generate_pdf]: the candidates of [report_data] are numbered in place,
    so the caller's report changes with them; the layout and [doc.build]
    are reportlab's and stand behind [pdf_builds].  The result is the
    report as the caller sees it afterwards and the output file. *)
Definition generate_pdf (report_data : pyval) (output_file : string)
  : outcome (pyval * string) :=
  do candidates <- Py.get report_data "candidates" (PList []);
  do report1 <-
    match candidates, report_data with
    | PList cs, PDict d =>
        do numbered <- number_candidates 1 cs;
        Returned (match Py.lookup "candidates" d with
                  | Some _ => PDict (Py.store "candidates" (PList numbered) d)
                  | None => report_data
                  end)
    | PStr EmptyString, _ | PDict [], _ => Returned report_data
    | _, _ => Raised TypeError
    end;
  if pdf_builds X report1 then Returned (report1, output_file)
  else Raised RenderError.

End PDFReportGenerator.

(** ** main.py *)

(** The dictionary the GUI hands over.  The keys read with [.get] may be
    absent; [job_title], [company] and [resume_files] are always there. *)
Record form_data : Type := {
  form_api_key : option string;
  form_job_description_file : option string;
  form_resume_files : list string;
  form_job_title : string;
  form_company : string;
  form_department : option string;
  form_location : option string
}.

Record TalentMatcherApp : Type := {
  latest_report_data : option pyval;
  latest_report_file : option string;
  latest_pdf_file : option string
}.

Definition or_default (o : option string) (d : string) : string :=
  match o with Some s => s | None => d end.

Section App.

Variable X : externals.

Definition read_job_description (form : form_data) : option string :=
  match form_job_description_file form with
  | Some path => if String.eqb path EmptyString then None else read_text X path
  | None => None
  end.

(** [TalentMatcherApp.evaluate_candidates]: the state is the application
    object, the disk and the requests posted. *)
Definition app_evaluate_candidates (form : form_data)
  (app : TalentMatcherApp) (fs : files) (w : world)
  : TalentMatcherApp * files * world * outcome string :=
  let key := PyStr.strip (or_default (form_api_key form) EmptyString) in
  if String.eqb key EmptyString then (app, fs, w, Raised ValueError)
  else
    let evaluator := init key (read_job_description form) in
    match evaluate_candidates X evaluator
            (form_resume_files form) (form_job_title form) (form_company form)
            (or_default (form_department form) "Department")
            (or_default (form_location form) EmptyString)
            EmptyString w with
    | (w1, Raised e) => (app, fs, w1, Raised e)
    | (w1, Returned report_data) =>
        let (fs1, report_file) :=
          save_json_report report_data "evaluation_report.json" fs in
        let pdf_filename := "evaluation_report_" ++ timestamp X ++ ".pdf" in
        match generate_pdf X report_data pdf_filename with
        | Raised e => (app, fs1, w1, Raised e)
        | Returned (report_data1, pdf_path) =>
            ({| latest_report_data := Some report_data1;
                latest_report_file := Some report_file;
                latest_pdf_file := Some pdf_path |},
             fs1, w1, Returned report_file)
        end
    end.

End App.

(** ** A reference decoder for the externals of closed runs

    [RefJson.loads] follows [json.loads] (the scanner of [json.decoder] and
    [json.scanner]) on JSON texts whose numbers are integers and whose
    characters are code points below 256.  Texts with a fraction, an
    exponent, [NaN], [Infinity] or a [\u] escape of 256 and above denote
    values outside the embedding; the decoder has no answer for them and
    gives [None] as it does for a text that is not JSON. *)

Module RefJson.

Definition is_ws (c : ascii) : bool :=
  let n := N_of_ascii c in ((n =? 32) || (n =? 9) || (n =? 10) || (n =? 13))%N.

Fixpoint skip_ws (s : string) : string :=
  match s with
  | String c s' => if is_ws c then skip_ws s' else s
  | EmptyString => s
  end.

Definition is_digit (c : ascii) : bool :=
  let n := N_of_ascii c in ((48 <=? n) && (n <=? 57))%N.

Definition digit_val (c : ascii) : Z := Z.of_N (N_of_ascii c) - 48.

Fixpoint scan_digits (acc : Z) (s : string) : Z * string :=
  match s with
  | String c s' => if is_digit c then scan_digits (10 * acc + digit_val c) s' else (acc, s)
  | EmptyString => (acc, s)
  end.

Definition hex_val (c : ascii) : option N :=
  let n := N_of_ascii c in
  if ((48 <=? n) && (n <=? 57))%N then Some (n - 48)%N
  else if ((97 <=? n) && (n <=? 102))%N then Some (n - 87)%N
  else if ((65 <=? n) && (n <=? 70))%N then Some (n - 55)%N
  else None.

Definition hex4 (a b c d : ascii) : option N :=
  match hex_val a, hex_val b, hex_val c, hex_val d with
  | Some x, Some y, Some z, Some t => Some (((x * 16 + y) * 16 + z) * 16 + t)%N
  | _, _, _, _ => None
  end.

Definition simple_escape (e : ascii) : option ascii :=
  let n := N_of_ascii e in
  if (n =? 34)%N then Some "034"%char        (* quote *)
  else if (n =? 92)%N then Some "092"%char   (* backslash *)
  else if (n =? 47)%N then Some "/"%char
  else if (n =? 98)%N then Some "008"%char   (* b *)
  else if (n =? 102)%N then Some "012"%char  (* f *)
  else if (n =? 110)%N then Some "010"%char  (* n *)
  else if (n =? 114)%N then Some "013"%char  (* r *)
  else if (n =? 116)%N then Some "009"%char  (* t *)
  else None.

Definition push (c : ascii) (r : option (string * string)) : option (string * string) :=
  match r with
  | Some (body, rest) => Some (String c body, rest)
  | None => None
  end.

(** The characters after an opening quote, up to the closing one. *)
Fixpoint scan_string (s : string) : option (string * string) :=
  match s with
  | EmptyString => None
  | String c s' =>
      let n := N_of_ascii c in
      if (n =? 34)%N then Some (EmptyString, s')
      else if (n =? 92)%N then
        match s' with
        | String e s2 =>
            match simple_escape e with
            | Some x => push x (scan_string s2)
            | None =>
                if Ascii.eqb e "u" then
                  match s2 with
                  | String h1 (String h2 (String h3 (String h4 s3))) =>
                      match hex4 h1 h2 h3 h4 with
                      | Some u => if (u <? 256)%N then push (ascii_of_N u) (scan_string s3)
                                  else None
                      | None => None
                      end
                  | _ => None
                  end
                else None
            end
        | EmptyString => None
        end
      else if (n <? 32)%N then None
      else push c (scan_string s')
  end.

(** Whether a float continues the integer part just read. *)
Definition float_follows (s : string) : bool :=
  match s with
  | String c (String d s') =>
      (Ascii.eqb c "." && is_digit d)
      || ((Ascii.eqb c "e" || Ascii.eqb c "E")
          && (is_digit d
              || ((Ascii.eqb d "+" || Ascii.eqb d "-")
                  && match s' with String f _ => is_digit f | EmptyString => false end)))
  | _ => false
  end.

Definition scan_natural (s : string) : option (Z * string) :=
  match s with
  | String c s' =>
      if Ascii.eqb c "0" then Some (0, s')
      else if is_digit c then Some (scan_digits 0 s)
      else None
  | EmptyString => None
  end.

Definition scan_number (s : string) : option (pyval * string) :=
  let (neg, s1) := match s with
                   | String c s' => if Ascii.eqb c "-" then (true, s') else (false, s)
                   | EmptyString => (false, s)
                   end in
  match scan_natural s1 with
  | Some (z, rest) =>
      if float_follows rest then None
      else Some (PInt (if neg then - z else z), rest)
  | None => None
  end.

(** [dict(pairs)] *)
Definition dict_of (pairs : list (string * pyval)) : list (string * pyval) :=
  fold_left (fun d kv => Py.store (fst kv) (snd kv) d) pairs [].

Fixpoint scan_once (fuel : nat) (s : string) : option (pyval * string) :=
  match fuel with
  | O => None
  | S fuel' =>
      match s with
      | EmptyString => None
      | String c s' =>
          let n := N_of_ascii c in
          if (n =? 34)%N then
            match scan_string s' with
            | Some (body, rest) => Some (PStr body, rest)
            | None => None
            end
          else if Ascii.eqb c "{" then
            match skip_ws s' with
            | String d s2 =>
                if Ascii.eqb d "}" then Some (PDict [], s2)
                else if (N_of_ascii d =? 34)%N then
                  match members fuel' [] s2 with
                  | Some (pairs, rest) => Some (PDict (dict_of pairs), rest)
                  | None => None
                  end
                else None
            | EmptyString => None
            end
          else if Ascii.eqb c "[" then
            match skip_ws s' with
            | String d s2 =>
                if Ascii.eqb d "]" then Some (PList [], s2)
                else
                  match items fuel' [] (String d s2) with
                  | Some (values, rest) => Some (PList values, rest)
                  | None => None
                  end
            | EmptyString => None
            end
          else if String.prefix "null" s then Some (PNone, PyStr.drop 4 s)
          else if String.prefix "true" s then Some (PBool true, PyStr.drop 4 s)
          else if String.prefix "false" s then Some (PBool false, PyStr.drop 5 s)
          else scan_number s
      end
  end

(** The pairs of an object, from just behind the quote that opens a key. *)
with members (fuel : nat) (acc : list (string * pyval)) (s : string)
  : option (list (string * pyval) * string) :=
  match fuel with
  | O => None
  | S fuel' =>
      match scan_string s with
      | Some (key, rest) =>
          match skip_ws rest with
          | String c rest1 =>
              if Ascii.eqb c ":" then
                match scan_once fuel' (skip_ws rest1) with
                | Some (value, rest2) =>
                    let acc1 := (acc ++ [(key, value)])%list in
                    match skip_ws rest2 with
                    | String d rest3 =>
                        if Ascii.eqb d "}" then Some (acc1, rest3)
                        else if Ascii.eqb d "," then
                          match skip_ws rest3 with
                          | String q rest4 =>
                              if (N_of_ascii q =? 34)%N then members fuel' acc1 rest4
                              else None
                          | EmptyString => None
                          end
                        else None
                    | EmptyString => None
                    end
                | None => None
                end
              else None
          | EmptyString => None
          end
      | None => None
      end
  end

(** The values of an array, from the first character of a value. *)
with items (fuel : nat) (acc : list pyval) (s : string)
  : option (list pyval * string) :=
  match fuel with
  | O => None
  | S fuel' =>
      match scan_once fuel' s with
      | Some (value, rest) =>
          let acc1 := (acc ++ [value])%list in
          match skip_ws rest with
          | String d rest1 =>
              if Ascii.eqb d "]" then Some (acc1, rest1)
              else if Ascii.eqb d "," then items fuel' acc1 (skip_ws rest1)
              else None
          | EmptyString => None
          end
      | None => None
      end
  end.

(** [json.loads(s)] *)
Definition loads (s : string) : option pyval :=
  match scan_once (2 * String.length s + 2) (skip_ws s) with
  | Some (v, rest) =>
      match skip_ws rest with
      | EmptyString => Some v
      | String _ _ => None
      end
  | None => None
  end.

End RefJson.

(** ** Vocabulary of the properties *)

(** The scoring categories of the prompt and their points. *)
Definition scoring_categories : list (string * Z) :=
  [ ("Core Skills Match", 35);
    ("Experience Relevance", 25);
    ("Experience Level", 15);
    ("Education and Certifications", 5);
    ("Soft Skills and Competencies", 10);
    ("Bonus Fit Indicators", 10) ].

Definition category_phrase (c : string * Z) : string :=
  fst c ++ ": " ++ PyStr.of_Z (snd c) ++ " points".

Definition leniency_bands : list string :=
  [ "Most qualified candidates should score 65-85";
    "Only truly exceptional candidates score 90+";
    "Only severely mismatched candidates score below 50" ].

(** The body the endpoint sends when the model answers [content]. *)
Definition chat_response (content : pyval) : pyval :=
  PDict [("choices", PList [PDict [("message", PDict [("content", content)])]])].

(** The integer a match score stands for, where it is one (a boolean is). *)
Definition score_of (e : pyval) : option Z :=
  match match_score e with
  | Returned k => Py.num_of k
  | Raised _ => None
  end.

Definition score_z (e : pyval) : Z :=
  match score_of e with Some z => z | None => 0 end.

Definition has_score (z : Z) (e : pyval) : bool := score_z e =? z.

(** No candidate is followed by one with a greater score. *)
Definition descending : list pyval -> Prop :=
  StronglySorted (fun a b => score_z b <= score_z a).

(** An evaluation with the fields the summary reads: a name, an integer
    score and a rating summary that is a string. *)
Definition shaped (e : pyval) : Prop :=
  exists name score z summary,
    Py.getitem e "candidate_name" = Returned name
    /\ Py.getitem e "match_score" = Returned score
    /\ Py.num_of score = Some z
    /\ Py.getitem e "rating_summary" = Returned (PStr summary).

(** The keys of the header of a report, in order. *)
Definition header_keys : list string :=
  ["role"; "department"; "company"; "location"; "work_mode"; "report_date";
   "assessment_method"].

(** How the loop of [evaluate_candidates] leaves a candidate: its evaluation
    is appended, or the candidate is passed over because no text came out
    of the PDF ("Failed to extract text"), or because the call raised
    ("Error during evaluation") or returned a value that [if evaluation:]
    turns down, an empty or false one ("Failed to get evaluation"). *)
Inductive status : Type :=
| Recorded
| SkippedExtraction
| SkippedEvaluation.

Definition is_recorded (s : status) : bool :=
  match s with Recorded => true | _ => false end.

Section Statuses.

Variable X : externals.
Variable self : CVEvaluator.
Variables job_title company department : string.

Definition candidate_status (w : world) (cv_file : string) : status :=
  match extract_text_from_pdf X cv_file with
  | None => SkippedExtraction
  | Some cv_text =>
      if String.eqb cv_text EmptyString then SkippedExtraction
      else
        let prompt := create_evaluation_prompt self cv_text
                        (candidate_name_of X cv_file) job_title company department in
        match snd (call_deepseek_api X self prompt 3 w) with
        | Returned evaluation =>
            if Py.truthy evaluation then Recorded else SkippedEvaluation
        | Raised _ => SkippedEvaluation
        end
  end.

(** The statuses of the candidates of a run, in input order; each one is
    taken in the world its predecessors left. *)
Fixpoint statuses (w : world) (cv_files : list string) : list status :=
  match cv_files with
  | [] => []
  | cv_file :: rest =>
      candidate_status w cv_file
      :: statuses (snd (process_cv X self job_title company department
                          ([], w) cv_file)) rest
  end.

End Statuses.

(** ** Closed runs

    Externals for concrete runs: a disk of PDFs given by their page texts, a
    script of endpoint answers, and the reference decoder. *)

Module Run.

Definition lookup_pdf (disk : list (string * list string)) (path : string)
  : option (list string) :=
  match find (fun f => String.eqb (fst f) path) disk with
  | Some f => Some (snd f)
  | None => None
  end.

(** The stem of a name that ends in a four-character suffix such as [.pdf]. *)
Definition stem4 (path : string) : string := PyStr.drop_end 4 path.

Definition externals_of (disk : list (string * list string)) (script : list response)
  : externals :=
  {| read_pdf := lookup_pdf disk;
     path_stem := stem4;
     json_loads := RefJson.loads;
     endpoint := fun n => nth n script RequestFails;
     today := "03 November 2026";
     timestamp := "20261103_101500";
     read_text := fun _ => None;
     pdf_builds := fun _ => true |}.

Definition field (k v : string) : string := quoted k ++ ": " ++ v.

(** The JSON text of an evaluation with the five fields the prompt asks for. *)
Definition evaluation_text (name : string) (score : Z) : string :=
  "{" ++ field "candidate_name" (quoted name) ++ ", "
      ++ field "match_score" (PyStr.of_Z score) ++ ", "
      ++ field "rating_summary" (quoted "Solid match for the role.") ++ ", "
      ++ field "strengths" ("[" ++ quoted "s1" ++ ", " ++ quoted "s2" ++ ", "
                                ++ quoted "s3" ++ ", " ++ quoted "s4" ++ "]") ++ ", "
      ++ field "potential_gaps" ("[" ++ quoted "g1" ++ ", " ++ quoted "g2" ++ "]")
      ++ "}".

Definition evaluation_of (name : string) (score : Z) : pyval :=
  PDict [ ("candidate_name", PStr name);
          ("match_score", PInt score);
          ("rating_summary", PStr "Solid match for the role.");
          ("strengths", PList [PStr "s1"; PStr "s2"; PStr "s3"; PStr "s4"]);
          ("potential_gaps", PList [PStr "g1"; PStr "g2"]) ].

Definition answers (content : string) : response :=
  Body (chat_response (PStr content)).

Definition evaluator : CVEvaluator := init "sk-test" None.

(** [{"a":1}] and the same inside a json fence. *)
Definition a1_text : string := "{" ++ quoted "a" ++ ":1}".
Definition a1_fenced : string :=
  "```json" ++ PyStr.nl ++ a1_text ++ PyStr.nl ++ "```".
Definition a1 : pyval := PDict [("a", PInt 1)].

(** Three CVs on disk; [missing.pdf] is not there, [blank.pdf] holds one
    page of white space. *)
Definition ada_pdf : string := "ada_lovelace.pdf".
Definition bob_pdf : string := "bob-marley.pdf".
Definition cy_pdf : string := "cy_young.pdf".

Definition white : string := " " ++ PyStr.nl ++ " ".

Definition disk : list (string * list string) :=
  [ (ada_pdf, ["Ada Lovelace"; " - analyst"]);
    (bob_pdf, ["Bob Marley - engineer"]);
    (cy_pdf, ["Cy Young - pitcher"]);
    ("blank.pdf", [white]) ].

Definition ada : pyval := evaluation_of "ada lovelace" 88.
Definition bob : pyval := evaluation_of "bob marley" 91.
Definition cy : pyval := evaluation_of "cy young" 88.

Definition says (name : string) (score : Z) : response :=
  answers (evaluation_text name score).

(** Every CV is read and evaluated, then the endpoint writes the summary. *)
Definition all_evaluated : externals :=
  externals_of disk
    [ says "ada lovelace" 88; says "bob marley" 91; says "cy young" 88;
      answers "Bob Marley leads; Ada Lovelace and Cy Young follow." ].

(** The same CVs with an endpoint that is gone by the time of the summary. *)
Definition summary_down : externals :=
  externals_of disk
    [ says "ada lovelace" 88; says "bob marley" 91; says "cy young" 88 ].

(** The second of three sources cannot be read. *)
Definition second_unreadable : externals :=
  externals_of disk
    [ says "ada lovelace" 88; says "cy young" 88;
      answers "Ada Lovelace and Cy Young are level." ].

Definition blank_evaluated : externals :=
  externals_of disk [ says "blank" 70 ].

Definition form_of (resume_files : list string) : form_data :=
  {| form_api_key := Some " sk-test ";
     form_job_description_file := None;
     form_resume_files := resume_files;
     form_job_title := "Engineer";
     form_company := "Acme";
     form_department := Some "Department";
     form_location := Some "Cairo" |}.

Definition fresh_app : TalentMatcherApp :=
  {| latest_report_data := None;
     latest_report_file := None;
     latest_pdf_file := None |}.

Definition title : string := "Engineer".
Definition company : string := "Acme".
Definition department : string := "R&D".
Definition location : string := "Cairo".

Definition all_three : list string := [ada_pdf; bob_pdf; cy_pdf].
Definition with_unreadable : list string := [ada_pdf; "missing.pdf"; cy_pdf].

(** The minimal evaluation of the summary examples. *)
Definition ada_88 : pyval :=
  PDict [("candidate_name", PStr "Ada"); ("match_score", PInt 88)].

Definition fallback_for_bob : string :=
  "bob marley ranks highest with a score of 91/100, demonstrating the strongest alignment with role requirements across all evaluation criteria.".

(** The application run on the CV of Ada alone. *)
Definition solo_run : TalentMatcherApp * files * world * outcome string :=
  app_evaluate_candidates all_evaluated (form_of [ada_pdf]) fresh_app [] [].

Definition trio_run : TalentMatcherApp * files * world * outcome string :=
  app_evaluate_candidates all_evaluated (form_of all_three) fresh_app [] [].

End Run.

(** ** Further code and vocabulary *)

(** *** Attempts of call_deepseek_api *)

(** What the [try] of one attempt comes to, whatever [content] held before. *)
Definition attempt_outcome (X : externals) (resp : response) : outcome pyval :=
  snd (try_attempt X resp None).

(** Whether an attempt binds the local [content] to a string. *)
Definition binds_content (resp : response) : bool :=
  match resp with
  | Body result =>
      match message_content result with
      | Returned (PStr _) => true
      | _ => false
      end
  | _ => false
  end.

(** The failures the two handlers of the loop take up. *)
Definition retried (o : outcome pyval) : Prop :=
  o = Raised JSONDecodeError \/ o = Raised RequestException.

(** The exception that leaves the loop when its last attempt failed with
    [last] and [bound] tells whether [content] was ever bound. *)
Definition exhausted_with (last : outcome pyval) (bound : bool) : exn :=
  match last with
  | Raised RequestException => RequestException
  | _ => if bound then JSONDecodeError else UnboundLocalError
  end.

(** *** More of the strings *)

Fixpoint last_char (s : string) : option ascii :=
  match s with
  | EmptyString => None
  | String a EmptyString => Some a
  | String _ s' => last_char s'
  end.

(** *** int(s, 16) *)

Module PyInt.

(** The white space [int] passes over at either end of its argument. *)
Definition is_space (c : ascii) : bool :=
  let n := N_of_ascii c in
  ((9 <=? n) && (n <=? 13) || (n =? 32) || (n =? 133) || (n =? 160))%N.

Fixpoint skip_space (s : string) : string :=
  match s with
  | String c s' => if is_space c then skip_space s' else s
  | EmptyString => s
  end.

Fixpoint all_space (s : string) : bool :=
  match s with
  | String c s' => is_space c && all_space s'
  | EmptyString => true
  end.

Definition digit16 (c : ascii) : option Z :=
  let n := N_of_ascii c in
  if ((48 <=? n) && (n <=? 57))%N then Some (Z.of_N n - 48)
  else if ((97 <=? n) && (n <=? 102))%N then Some (Z.of_N n - 87)
  else if ((65 <=? n) && (n <=? 70))%N then Some (Z.of_N n - 55)
  else None.

(** An optional sign. *)
Definition sign_of (s : string) : Z * string :=
  match s with
  | String c s' =>
      if Ascii.eqb c "+" then (1, s')
      else if Ascii.eqb c "-" then (-1, s')
      else (1, s)
  | EmptyString => (1, s)
  end.

(** An optional [0x] or [0X], behind which one underscore may stand. *)
Definition skip_prefix (s : string) : string :=
  match s with
  | String z (String x s') =>
      if Ascii.eqb z "0" && (Ascii.eqb x "x" || Ascii.eqb x "X") then
        match s' with
        | String u s2 => if Ascii.eqb u "_" then s2 else s'
        | EmptyString => s'
        end
      else s
  | _ => s
  end.

(** The digits, with single underscores between them; [None] for two
    underscores in a row or one at the end. *)
Fixpoint digits16 (acc : Z) (after_underscore : bool) (s : string)
  : option (Z * string) :=
  match s with
  | String c s' =>
      if Ascii.eqb c "_" then
        if after_underscore then None else digits16 acc true s'
      else
        match digit16 c with
        | Some d => digits16 (16 * acc + d) false s'
        | None => if after_underscore then None else Some (acc, s)
        end
  | EmptyString => if after_underscore then None else Some (acc, s)
  end.

(** [int(s, 16)] *)
Definition int16 (s : string) : outcome Z :=
  let (sign, s1) := sign_of (skip_space s) in
  let s2 := skip_prefix s1 in
  match s2 with
  | String c _ =>
      match digit16 c with
      | None => Raised ValueError
      | Some _ =>
          match digits16 0 false s2 with
          | Some (v, rest) =>
              if all_space rest then Returned (sign * v) else Raised ValueError
          | None => Raised ValueError
          end
      end
  | EmptyString => Raised ValueError
  end.

End PyInt.

(** *** pdf_generator.py: hex_to_rgb *)

(** [s.lstrip('#')] *)
Fixpoint lstrip_hash (s : string) : string :=
  match s with
  | String c s' => if Ascii.eqb c "#" then lstrip_hash s' else s
  | EmptyString => s
  end.

(** [s[i:j]] for [0 <= i <= j] *)
Definition slice (i j : nat) (s : string) : string :=
  PyStr.take (j - i) (PyStr.drop i s).

Definition hex_to_rgb (hex_color : string) : outcome (Z * Z * Z) :=
  let hex_color := lstrip_hash hex_color in
  do r <- PyInt.int16 (slice 0 2 hex_color);
  do g <- PyInt.int16 (slice 2 4 hex_color);
  do b <- PyInt.int16 (slice 4 6 hex_color);
  Returned (r, g, b).

(** [k] times the character [#] *)
Definition hashes (k : nat) : string :=
  fold_right String EmptyString (repeat "#"%char k).

(** The brand blue of [PDFReportGenerator.__init__]. *)
Definition primary_blue : string := "#000435".

(** *** api_evaluator.py: generate_pdf_report

    [importable] tells whether [from pdf_generator import PDFReportGenerator]
    succeeds.  The method returns the path, or [None] after an ImportError
    or any other exception; with the path comes the report as the caller
    sees it afterwards. *)

Definition generate_pdf_report (X : externals) (importable : bool)
  (report_data : pyval) (output_file : string) : option (pyval * string) :=
  if importable then
    match generate_pdf X report_data output_file with
    | Returned (report1, pdf_path) => Some (report1, pdf_path)
    | Raised _ => None
    end
  else None.

(** *** Vocabulary of the further properties *)

(** Whether a candidate got as far as the evaluation call. *)
Definition was_called (s : status) : bool :=
  match s with SkippedExtraction => false | _ => true end.

(** A form without a job description file. *)
Definition without_job_description (form : form_data) : form_data :=
  {| form_api_key := form_api_key form;
     form_job_description_file := None;
     form_resume_files := form_resume_files form;
     form_job_title := form_job_title form;
     form_company := form_company form;
     form_department := form_department form;
     form_location := form_location form |}.

(** *** Requests of a run *)

(** The request that asks for the evaluation of one of [cv_files], a file
    whose PDF gave some text. *)
Definition asks_evaluation (X : externals) (self : CVEvaluator)
  (job_title company department : string) (cv_files : list string)
  (r : request) : Prop :=
  exists cv_file cv_text,
    In cv_file cv_files
    /\ extract_text_from_pdf X cv_file = Some cv_text
    /\ cv_text <> EmptyString
    /\ r = evaluation_payload self
             (create_evaluation_prompt self cv_text (candidate_name_of X cv_file)
                job_title company department).

(** The request that asks for the overall summary. *)
Definition asks_summary (self : CVEvaluator) (r : request) : Prop :=
  exists prompt, r = summary_payload self prompt.

(** A string of white space only, the empty string for one. *)
Fixpoint blank (s : string) : bool :=
  match s with
  | EmptyString => true
  | String c s' => PyStr.is_space c && blank s'
  end.

(** *** More closed runs *)

Module Trial.

(** A scan: two pages without text. *)
Definition scan_pdf : string := "scan.pdf".

Definition disk : list (string * list string) :=
  (scan_pdf, [EmptyString; EmptyString]) :: Run.disk.

Definition externals_of (script : list response) (renders : bool)
  (texts : list (string * string)) : externals :=
  {| read_pdf := Run.lookup_pdf disk;
     path_stem := Run.stem4;
     json_loads := RefJson.loads;
     endpoint := fun n => nth n script RequestFails;
     today := "03 November 2026";
     timestamp := "20261103_101500";
     read_text := fun path =>
       match find (fun f => String.eqb (fst f) path) texts with
       | Some f => Some (snd f)
       | None => None
       end;
     pdf_builds := fun _ => renders |}.

Definition three_answers : list response :=
  [ Run.says "ada lovelace" 88; Run.says "bob marley" 91; Run.says "cy young" 88;
    Run.answers "  Bob Marley leads.  " ].

(** An evaluation that has no match score. *)
Definition unscored_text : string :=
  "{" ++ Run.field "candidate_name" (quoted "bob marley") ++ "}".

(** The form of the closed runs with another key and job description file. *)
Definition form_with (key description_file : option string)
  (resume_files : list string) : form_data :=
  {| form_api_key := key;
     form_job_description_file := description_file;
     form_resume_files := resume_files;
     form_job_title := Run.title;
     form_company := Run.company;
     form_department := Some Run.department;
     form_location := Some Run.location |}.

End Trial.

(** * Properties *)

(** ** The built-ins on small inputs *)

Example strip_both_ends :
  PyStr.strip (PyStr.nl ++ "  a b " ++ PyStr.nl) = "a b".
Proof. reflexivity. Qed.

Example endswith_needs_room : PyStr.endswith "``" "```" = false.
Proof. reflexivity. Qed.

Example truthy_values :
  map Py.truthy [PNone; PBool false; PInt 0; PStr EmptyString; PList []; PDict [];
                 PInt 7; PStr "0"; PList [PNone]; PDict [("a", PNone)]]
  = [false; false; false; false; false; false; true; true; true; true].
Proof. reflexivity. Qed.

Example str_of_values :
  map Py.str [PStr "Ada"; PInt (-3); PBool true; PNone;
              PList [PInt 1; PStr "x"; PNone]; PDict [("a", PInt 1)]]
  = ["Ada"; "-3"; "True"; "None"; "[1, 'x', None]"; "{'a': 1}"].
Proof. reflexivity. Qed.

Example booleans_order_as_integers :
  Py.lt (PBool true) (PInt 2) = Some true
  /\ Py.lt (PInt 1) (PStr "2") = None
  /\ Py.lt (PList [PInt 1; PInt 2]) (PList [PInt 1; PInt 3]) = Some true.
Proof. repeat split. Qed.

Example clean_up_fences :
  clean_up "```json```" = EmptyString
  /\ clean_up ("```" ++ PyStr.nl ++ "[1]" ++ PyStr.nl ++ "```") = "[1]"
  /\ clean_up (" [1] " ++ PyStr.nl) = "[1]"
  /\ clean_up "json```[1]```" = "json```[1]".
Proof. repeat split. Qed.

Example loads_values :
  RefJson.loads (" [1, -20, true, null, {}, " ++ quoted "x" ++ "] ")
  = Some (PList [PInt 1; PInt (-20); PBool true; PNone; PDict []; PStr "x"])
  /\ RefJson.loads "[1,]" = None
  /\ RefJson.loads "01" = None
  /\ RefJson.loads EmptyString = None
  /\ RefJson.loads ("{" ++ quoted "a" ++ ": 1, " ++ quoted "a" ++ ": 2}")
     = Some (PDict [("a", PInt 2)]).
Proof. vm_compute. repeat split. Qed.

Example loads_evaluation_text :
  RefJson.loads (Run.evaluation_text "Ada" 88) = Some (Run.evaluation_of "Ada" 88).
Proof. vm_compute. reflexivity. Qed.

Example name_from_file_name :
  candidate_name_of Run.all_evaluated Run.ada_pdf = "ada lovelace"
  /\ candidate_name_of Run.all_evaluated Run.bob_pdf = "bob marley".
Proof. repeat split. Qed.

Example sort_keeps_ties_in_order :
  sort_reverse match_score [Run.ada; Run.bob; Run.cy]
  = Returned [Run.bob; Run.ada; Run.cy]
  /\ sort_reverse match_score [Run.cy; Run.ada] = Returned [Run.cy; Run.ada]
  /\ sort_reverse match_score [Run.ada; PDict []] = Raised KeyError
  /\ sort_reverse match_score [PList [PInt 1]] = Raised TypeError.
Proof. vm_compute. repeat split. Qed.

Example unreadable_second_source :
  statuses Run.second_unreadable Run.evaluator Run.title Run.company Run.department
    [] Run.with_unreadable
  = [Recorded; SkippedExtraction; Recorded].
Proof. vm_compute. reflexivity. Qed.

(** ** Strings *)

Section StringFacts.

Import PyStr.

Lemma append_nil_r (s : string) : s ++ EmptyString = s.
Proof. induction s as [|c s IH]; simpl; [reflexivity | now rewrite IH]. Qed.

Lemma append_assoc (s t u : string) : (s ++ t) ++ u = s ++ t ++ u.
Proof. induction s as [|c s IH]; simpl; [reflexivity | now rewrite IH]. Qed.

Lemma prefix_append (p s : string) :
  String.prefix p s = true -> exists post, s = p ++ post.
Proof.
  revert s; induction p as [|c p IH]; intros s H.
  - now exists s.
  - destruct s as [|d s]; simpl in H; [discriminate|].
    destruct (ascii_dec c d) as [->|]; [|discriminate].
    destruct (IH _ H) as [post ->]. now exists post.
Qed.

Lemma contains_refl (s : string) : contains s s.
Proof. exists EmptyString, EmptyString. simpl. now rewrite append_nil_r. Qed.

Lemma contains_trans (s t u : string) :
  contains s t -> contains t u -> contains s u.
Proof.
  intros (p1 & q1 & ->) (p2 & q2 & ->).
  exists (p1 ++ p2), (q2 ++ q1). now rewrite !append_assoc.
Qed.

Lemma contains_app_l (s t u : string) : contains s u -> contains (s ++ t) u.
Proof.
  intros (p & q & ->). exists p, (q ++ t). now rewrite !append_assoc.
Qed.

Lemma contains_app_r (s t u : string) : contains t u -> contains (s ++ t) u.
Proof.
  intros (p & q & ->). exists (s ++ p), q. now rewrite !append_assoc.
Qed.

Lemma isin_contains (p s : string) : isin p s = true -> contains s p.
Proof.
  induction s as [|c s IH]; simpl; intros H.
  - destruct p; [apply contains_refl | discriminate].
  - apply orb_true_iff in H as [H|H].
    + destruct (prefix_append p (String c s) H) as [post E].
      exists EmptyString, post. exact E.
    + destruct (IH H) as (pre & post & ->).
      now exists (String c pre), post.
Qed.

Lemma unlines_contains (ls : list string) (l : string) :
  In l ls -> contains (unlines ls) l.
Proof.
  induction ls as [|x ls IH]; [intros []|].
  change (unlines (x :: ls)) with (x ++ nl ++ unlines ls).
  intros [->|H].
  - apply contains_app_l, contains_refl.
  - apply contains_app_r, contains_app_r, IH, H.
Qed.

(** A piece of the [i]-th line of a text is a piece of the text. *)
Lemma unlines_line_contains (ls : list string) (i : nat) (line p : string) :
  nth_error ls i = Some line -> isin p line = true -> contains (unlines ls) p.
Proof.
  intros Hi Hp. apply contains_trans with line.
  - apply unlines_contains. eapply nth_error_In, Hi.
  - apply isin_contains, Hp.
Qed.

Lemma has_char_append (a : ascii) (s t : string) :
  has_char a (s ++ t) = has_char a s || has_char a t.
Proof.
  induction s as [|c s IH]; simpl; [reflexivity|].
  now rewrite IH, orb_assoc.
Qed.

End StringFacts.

(** ** The evaluation prompt *)

Ltac in_line n :=
  eapply (fun ls line p => unlines_line_contains ls n line p);
  [ reflexivity | vm_compute; reflexivity ].

(** C9.  Whatever the CV text, the candidate name and the job details, the
    evaluation prompt carries the six scoring categories with their points,
    35, 25, 15, 5, 10 and 10, which add up to the 100 of its heading, and
    the three leniency bands: 65-85 for most qualified candidates, 90+ for
    the exceptional ones, below 50 for the severely mismatched. *)
Theorem create_evaluation_prompt_scoring
  (self : CVEvaluator) (cv_text candidate_name job_title company department : string) :
  let prompt := create_evaluation_prompt self cv_text candidate_name
                  job_title company department in
  Forall (fun c => PyStr.contains prompt (category_phrase c)) scoring_categories
  /\ List.length scoring_categories = 6%nat
  /\ fold_right Z.add 0 (map snd scoring_categories) = 100
  /\ PyStr.contains prompt "SCORING SYSTEM (Total: 100 points)"
  /\ Forall (PyStr.contains prompt) leniency_bands.
Proof.
  intros prompt. subst prompt. unfold create_evaluation_prompt.
  repeat split.
  - repeat constructor.
    + in_line 15%nat.
    + in_line 16%nat.
    + in_line 17%nat.
    + in_line 18%nat.
    + in_line 19%nat.
    + in_line 20%nat.
  - in_line 14%nat.
  - repeat constructor; in_line 22%nat.
Qed.

(** ** The retry loop of call_deepseek_api *)

Section RetryLoop.

Variable X : externals.
Variable self : CVEvaluator.
Variable prompt : string.
Variable max_retries : Z.

Let payload : request := evaluation_payload self prompt.
Let loop := retry_loop X self prompt max_retries.

(** An attempt returns only what [json.loads] made of the cleaned content. *)
Lemma try_attempt_returned resp content content1 v :
  try_attempt X resp content = (content1, Returned v) ->
  exists result c,
    resp = Body result
    /\ message_content result = Returned (PStr c)
    /\ json_loads X (clean_up c) = Some v.
Proof.
  unfold try_attempt. destruct resp as [| |result]; try discriminate.
  destruct (message_content result) as [[| | |c| |]|e] eqn:M; try discriminate.
  destruct (json_loads X (clean_up c)) as [ev|] eqn:E; try discriminate.
  intros [= _ <-]. now exists result, c.
Qed.

Lemma world_step (w : world) (n : nat) :
  ((w ++ [payload]) ++ repeat payload n = w ++ repeat payload (S n))%list.
Proof. now rewrite <- app_assoc. Qed.

(** Every turn of the loop posts the same payload once. *)
Lemma retry_loop_posts attempts content w w1 o :
  loop attempts content w = (w1, o) ->
  exists j, (j <= List.length attempts)%nat
            /\ w1 = (w ++ repeat payload j)%list
            /\ (attempts <> [] -> (1 <= j)%nat).
Proof.
  subst loop. revert content w.
  induction attempts as [|a rest IH]; intros content w; simpl.
  - intros [= <- _]. exists 0%nat. simpl. rewrite app_nil_r. repeat split; [lia | congruence].
  - unfold post. fold payload.
    assert (Hstop : forall o1, (w ++ [payload], o1)%list = (w1, o) ->
              exists j, (j <= S (List.length rest))%nat
                        /\ w1 = (w ++ repeat payload j)%list
                        /\ (a :: rest <> [] -> (1 <= j)%nat)).
    { intros o1 [= <- _]. exists 1%nat. simpl. repeat split; lia. }
    assert (Hgo : forall c1, retry_loop X self prompt max_retries rest c1
                               (w ++ [payload])%list = (w1, o) ->
              exists j, (j <= S (List.length rest))%nat
                        /\ w1 = (w ++ repeat payload j)%list
                        /\ (a :: rest <> [] -> (1 <= j)%nat)).
    { intros c1 H. destruct (IH _ _ H) as (j & Hj & -> & _).
      exists (S j). rewrite world_step. repeat split; lia. }
    destruct (try_attempt X (endpoint X (List.length w)) content) as [c1 [v|e]];
      [apply Hstop|].
    destruct e; try apply Hstop;
      destruct (Z.of_nat a =? max_retries - 1); try apply Hgo;
      try destruct c1; apply Hstop.
Qed.

(** One turn of the loop. *)
Lemma retry_loop_turn a rest content w :
  loop (a :: rest) content w
  = let w1 := (w ++ [payload])%list in
    let last := Z.of_nat a =? max_retries - 1 in
    match try_attempt X (endpoint X (List.length w)) content with
    | (_, Returned evaluation) => (w1, Some (Returned evaluation))
    | (content1, Raised JSONDecodeError) =>
        if last then
          match content1 with
          | Some _ => (w1, Some (Raised JSONDecodeError))
          | None => (w1, Some (Raised UnboundLocalError))
          end
        else loop rest content1 w1
    | (content1, Raised RequestException) =>
        if last then (w1, Some (Raised RequestException))
        else loop rest content1 w1
    | (_, Raised e) => (w1, Some (Raised e))
    end.
Proof. reflexivity. Qed.

(** With at least one attempt ahead and the last one numbered
    [max_retries - 1], the loop leaves by [return] or [raise]. *)
Lemma retry_loop_leaves n k content w :
  Z.of_nat (k + S n) = max_retries ->
  snd (loop (seq k (S n)) content w) <> None.
Proof.
  revert k content w.
  induction n as [|n IH]; intros k content w Hk;
    rewrite <- cons_seq, retry_loop_turn; cbv zeta;
    destruct (try_attempt X (endpoint X (List.length w)) content) as [c1 [v|e]];
    try (simpl; discriminate).
  - replace (Z.of_nat k =? max_retries - 1) with true
      by (symmetry; apply Z.eqb_eq; lia).
    destruct e; simpl; try discriminate; destruct c1; simpl; discriminate.
  - replace (Z.of_nat k =? max_retries - 1) with false
      by (symmetry; apply Z.eqb_neq; lia).
    destruct e; try (simpl; discriminate); apply IH; lia.
Qed.

(** What the loop returns was decoded from the answer to its last POST. *)
Lemma retry_loop_returned attempts content w w1 v :
  loop attempts content w = (w1, Some (Returned v)) ->
  exists j result c,
    w1 = (w ++ repeat payload (S j))%list
    /\ (S j <= List.length attempts)%nat
    /\ endpoint X (List.length w + j) = Body result
    /\ message_content result = Returned (PStr c)
    /\ json_loads X (clean_up c) = Some v.
Proof.
  subst loop. revert content w.
  induction attempts as [|a rest IH]; intros content w; simpl; [discriminate|].
  unfold post. fold payload.
  assert (Hgo : forall c1, retry_loop X self prompt max_retries rest c1
                             (w ++ [payload])%list = (w1, Some (Returned v)) ->
            exists j result c,
              w1 = (w ++ repeat payload (S j))%list
              /\ (S j <= S (List.length rest))%nat
              /\ endpoint X (List.length w + j) = Body result
              /\ message_content result = Returned (PStr c)
              /\ json_loads X (clean_up c) = Some v).
  { intros c1 H. destruct (IH _ _ H) as (j & result & c & -> & Hj & He & Hm & Hl).
    exists (S j), result, c. rewrite world_step. repeat split; try assumption; try lia.
    rewrite <- He. f_equal. rewrite length_app. simpl. lia. }
  destruct (try_attempt X (endpoint X (List.length w)) content) as [c1 [ev|e]] eqn:T.
  - intros [= <- <-].
    destruct (try_attempt_returned _ _ _ _ T) as (result & c & He & Hm & Hl).
    exists 0%nat, result, c. rewrite Nat.add_0_r. repeat split; try assumption.
    simpl. lia.
  - destruct e; try discriminate;
      destruct (Z.of_nat a =? max_retries - 1); try apply Hgo;
      try destruct c1; discriminate.
Qed.

(** When every attempt is a failed request, the loop uses them all. *)
Lemma retry_loop_all_requests_fail n k content w :
  Z.of_nat (k + S n) = max_retries ->
  (forall i, (i <= n)%nat -> endpoint X (List.length w + i) = RequestFails) ->
  loop (seq k (S n)) content w
  = ((w ++ repeat payload (S n))%list, Some (Raised RequestException)).
Proof.
  revert k content w.
  induction n as [|n IH]; intros k content w Hk Hfail;
    rewrite <- cons_seq, retry_loop_turn; cbv zeta;
    rewrite <- (Nat.add_0_r (List.length w)), (Hfail 0%nat) by lia;
    cbn [try_attempt].
  - replace (Z.of_nat k =? max_retries - 1) with true
      by (symmetry; apply Z.eqb_eq; lia).
    reflexivity.
  - replace (Z.of_nat k =? max_retries - 1) with false
      by (symmetry; apply Z.eqb_neq; lia).
    rewrite IH, world_step; [reflexivity | lia |].
    intros i Hi. rewrite length_app. simpl.
    replace (List.length w + 1 + i)%nat with (List.length w + S i)%nat by lia.
    apply Hfail. lia.
Qed.

End RetryLoop.

(** C2.  When every attempt is a failed request, [call_deepseek_api] posts
    exactly [max_retries] times and then lets the RequestException out; when
    the first attempt fails in a way the loop retries and the second answer
    decodes, the call returns the decoded value after exactly two posts.
    This holds for every retry budget that leaves room for the attempts
    named, the default 3 among them. *)
Theorem call_deepseek_api_retries
  (X : externals) (self : CVEvaluator) (prompt : string) (max_retries : Z) (w : world) :
  let payload := evaluation_payload self prompt in
  (1 <= max_retries ->
   (forall i, (i < Z.to_nat max_retries)%nat ->
              endpoint X (List.length w + i) = RequestFails) ->
   call_deepseek_api X self prompt max_retries w
   = ((w ++ repeat payload (Z.to_nat max_retries))%list, Raised RequestException))
  /\
  (2 <= max_retries ->
   forall e result content evaluation,
     snd (try_attempt X (endpoint X (List.length w)) None) = Raised e ->
     e = RequestException \/ e = JSONDecodeError ->
     endpoint X (S (List.length w)) = Body result ->
     message_content result = Returned (PStr content) ->
     json_loads X (clean_up content) = Some evaluation ->
     call_deepseek_api X self prompt max_retries w
     = ((w ++ [payload; payload])%list, Returned evaluation)).
Proof.
  intros payload. split.
  - intros Hn Hfail. unfold call_deepseek_api.
    destruct (Z.to_nat max_retries) as [|n] eqn:En; [lia|].
    rewrite (retry_loop_all_requests_fail X self prompt max_retries n 0 None w);
      [reflexivity | lia |].
    intros i Hi. apply Hfail. lia.
  - intros Hn e result content evaluation H1 He H2 Hm Hl.
    unfold call_deepseek_api.
    destruct (Z.to_nat max_retries) as [|[|n]] eqn:En; try lia.
    rewrite <- cons_seq, retry_loop_turn. cbv zeta.
    destruct (try_attempt X (endpoint X (List.length w)) None) as [c1 o1].
    simpl in H1. subst o1.
    replace (Z.of_nat 0 =? max_retries - 1) with false
      by (symmetry; apply Z.eqb_neq; lia).
    assert (Hsecond : retry_loop X self prompt max_retries (seq 1 (S n)) c1
                        (w ++ [payload])%list
                      = ((w ++ [payload; payload])%list, Some (Returned evaluation))).
    { rewrite <- cons_seq, retry_loop_turn. cbv zeta.
      rewrite length_app. simpl List.length. rewrite Nat.add_1_r, H2.
      unfold try_attempt. rewrite Hm, Hl. fold payload.
      now rewrite <- app_assoc. }
    fold payload. destruct He as [-> | ->]; cbv beta iota; now rewrite Hsecond.
Qed.

Lemma call_deepseek_api_retries_witness :
  call_deepseek_api (Run.externals_of [] []) Run.evaluator "prompt" 3 []
  = (repeat (evaluation_payload Run.evaluator "prompt") 3, Raised RequestException)
  /\ call_deepseek_api
       (Run.externals_of [] [RequestFails; Run.answers (Run.evaluation_text "Ada" 88)])
       Run.evaluator "prompt" 3 []
     = (repeat (evaluation_payload Run.evaluator "prompt") 2,
        Returned (Run.evaluation_of "Ada" 88)).
Proof.
  split.
  - apply (proj1 (call_deepseek_api_retries
                    (Run.externals_of [] []) Run.evaluator "prompt" 3 [])).
    + lia.
    + intros i _. simpl. now destruct i as [|[|[|i]]].
  - apply (proj2 (call_deepseek_api_retries
                    (Run.externals_of [] [RequestFails;
                                          Run.answers (Run.evaluation_text "Ada" 88)])
                    Run.evaluator "prompt" 3 []))
      with (e := RequestException)
           (result := chat_response (PStr (Run.evaluation_text "Ada" 88)))
           (content := Run.evaluation_text "Ada" 88).
    + lia.
    + reflexivity.
    + now left.
    + reflexivity.
    + reflexivity.
    + vm_compute. reflexivity.
Defined.

(** C8.  The clean-up turns the fenced body into the bare object text, so
    with a decoder that reads that text as the object, a first answer that
    is the json fence around the text makes the call return the object. *)
Theorem call_deepseek_api_strips_fence
  (X : externals) (self : CVEvaluator) (prompt : string) (w : world) :
  json_loads X Run.a1_text = Some Run.a1 ->
  endpoint X (List.length w) = Body (chat_response (PStr Run.a1_fenced)) ->
  clean_up Run.a1_fenced = Run.a1_text
  /\ call_deepseek_api X self prompt 3 w
     = ((w ++ [evaluation_payload self prompt])%list, Returned Run.a1).
Proof.
  intros Hl He.
  assert (Hc : clean_up Run.a1_fenced = Run.a1_text) by (vm_compute; reflexivity).
  split; [exact Hc|].
  unfold call_deepseek_api.
  change (seq 0 (Z.to_nat 3)) with (0 :: seq 1 2)%nat.
  rewrite retry_loop_turn. cbv zeta. rewrite He.
  unfold try_attempt.
  change (message_content (chat_response (PStr Run.a1_fenced)))
    with (Returned (PStr Run.a1_fenced)).
  cbv beta iota zeta. now rewrite Hc, Hl.
Qed.

Lemma call_deepseek_api_strips_fence_witness :
  clean_up Run.a1_fenced = Run.a1_text
  /\ call_deepseek_api (Run.externals_of [] [Run.answers Run.a1_fenced])
       Run.evaluator "prompt" 3 []
     = ([evaluation_payload Run.evaluator "prompt"], Returned Run.a1).
Proof.
  apply (call_deepseek_api_strips_fence
           (Run.externals_of [] [Run.answers Run.a1_fenced]) Run.evaluator "prompt" []).
  - vm_compute. reflexivity.
  - reflexivity.
Defined.

(** C10, as the code has it.  With [max_retries >= 1] the loop never runs to
    its end, so the [return None] behind it is not reached: the call raises,
    or it returns the value [json.loads] made of the cleaned content of the
    answer to its last POST.  That value is [None] when the content is the
    JSON text [null]. *)
Theorem call_deepseek_api_returns_decoded_or_raises
  (X : externals) (self : CVEvaluator) (prompt : string) (max_retries : Z) (w : world) :
  1 <= max_retries ->
  snd (retry_loop X self prompt max_retries (seq 0 (Z.to_nat max_retries)) None w) <> None
  /\ match call_deepseek_api X self prompt max_retries w with
     | (w1, Raised _) => True
     | (w1, Returned v) =>
         exists j result content,
           w1 = (w ++ repeat (evaluation_payload self prompt) (S j))%list
           /\ (S j <= Z.to_nat max_retries)%nat
           /\ endpoint X (List.length w + j) = Body result
           /\ message_content result = Returned (PStr content)
           /\ json_loads X (clean_up content) = Some v
     end.
Proof.
  intros Hn.
  destruct (Z.to_nat max_retries) as [|n] eqn:En; [lia|].
  pose proof (retry_loop_leaves X self prompt max_retries n 0 None w) as Hleave.
  split; [apply Hleave; lia|].
  unfold call_deepseek_api. rewrite En.
  destruct (retry_loop X self prompt max_retries (seq 0 (S n)) None w)
    as [w1 [[v|e]|]] eqn:E.
  - destruct (retry_loop_returned _ _ _ _ _ _ _ _ _ E)
      as (j & result & c & -> & Hj & He & Hm & Hl).
    exists j, result, c. rewrite length_seq in Hj. now repeat split.
  - exact I.
  - exfalso. apply Hleave; [lia | reflexivity].
Qed.

Lemma call_deepseek_api_returns_decoded_or_raises_witness :
  1 <= 3
  /\ snd (retry_loop (Run.externals_of [] [BodyNotJson; BodyNotJson; BodyNotJson])
            Run.evaluator "prompt" 3 (seq 0 (Z.to_nat 3)) None []) <> None
  /\ snd (call_deepseek_api (Run.externals_of [] [BodyNotJson; BodyNotJson; BodyNotJson])
            Run.evaluator "prompt" 3 []) = Raised UnboundLocalError.
Proof.
  split; [lia|]. split.
  - apply (call_deepseek_api_returns_decoded_or_raises
             (Run.externals_of [] [BodyNotJson; BodyNotJson; BodyNotJson])
             Run.evaluator "prompt" 3 []).
    lia.
  - vm_compute. reflexivity.
Defined.

(** C10 as stated fails: the answer [null] decodes to [None], which the call
    returns. *)
Lemma call_deepseek_api_returns_None :
  1 <= 3
  /\ call_deepseek_api (Run.externals_of [] [Run.answers "null"])
       Run.evaluator "prompt" 3 []
     = ([evaluation_payload Run.evaluator "prompt"], Returned PNone).
Proof. split; [lia | vm_compute; reflexivity]. Qed.

(** ** The sort of the evaluations *)

Section SortFacts.

Variable key : pyval -> outcome pyval.

Let knum (kx : keyed) : Z :=
  match Py.num_of (fst kx) with Some z => z | None => 0 end.
Let numeric (kx : keyed) : Prop := exists z, Py.num_of (fst kx) = Some z.
Let ascending : list keyed -> Prop := StronglySorted (fun a b => knum a <= knum b).
Let at_key (z : Z) (kx : keyed) : bool := knum kx =? z.

Lemma lt_numeric (a b : pyval) (x y : Z) :
  Py.num_of a = Some x -> Py.num_of b = Some y -> Py.lt a b = Some (x <? y).
Proof.
  intros Ha Hb.
  destruct a as [|[|]|za| | |]; try discriminate;
    destruct b as [|[|]|zb| | |]; try discriminate;
    simpl in *; injection Ha as <-; injection Hb as <-; reflexivity.
Qed.

Lemma insort_perm (x : keyed) (sorted r : list keyed) :
  insort x sorted = Returned r -> Permutation (x :: sorted) r.
Proof.
  revert r. induction sorted as [|y rest IH]; simpl; intros r.
  - intros [= <-]. apply Permutation_refl.
  - destruct (Py.lt (fst x) (fst y)) as [[|]|]; try discriminate.
    + intros [= <-]. apply Permutation_refl.
    + destruct (insort x rest) as [r1|e]; simpl; try discriminate.
      intros [= <-]. rewrite perm_swap. apply perm_skip, IH. reflexivity.
Qed.

Lemma sort_from_perm (sorted pending r : list keyed) :
  sort_from sorted pending = Returned r -> Permutation (sorted ++ pending) r.
Proof.
  revert sorted r. induction pending as [|x rest IH]; simpl; intros sorted r.
  - intros [= <-]. now rewrite app_nil_r.
  - destruct (insort x sorted) as [s1|e] eqn:E; simpl; try discriminate.
    intros H. apply IH in H. rewrite <- H.
    rewrite <- Permutation_middle.
    apply (Permutation_app_tail rest (l := x :: sorted)), insort_perm, E.
Qed.

Lemma mapM_with_key (l : list pyval) (ks : list keyed) :
  mapM (with_key key) l = Returned ks ->
  map snd ks = l /\ Forall (fun kx => key (snd kx) = Returned (fst kx)) ks.
Proof.
  revert ks. induction l as [|x l IH]; simpl; intros ks.
  - intros [= <-]. now split.
  - unfold with_key at 1. destruct (key x) as [k|e] eqn:K; simpl; try discriminate.
    destruct (mapM (with_key key) l) as [ks1|e]; simpl; try discriminate.
    intros [= <-]. destruct (IH _ eq_refl) as [Hm Hf]. simpl. split.
    + now rewrite Hm.
    + constructor; [exact K | exact Hf].
Qed.

Lemma mapM_with_key_total (l : list pyval) :
  Forall (fun x => exists k, key x = Returned k) l ->
  exists ks, mapM (with_key key) l = Returned ks.
Proof.
  induction 1 as [|x l [k K] _ [ks IH]]; simpl.
  - now exists [].
  - unfold with_key at 1. rewrite K. simpl. rewrite IH. simpl. now eexists.
Qed.

(** Whatever the keys, a sort that returns returns a rearrangement. *)
Lemma sort_reverse_perm (l r : list pyval) :
  sort_reverse key l = Returned r -> Permutation l r.
Proof.
  unfold sort_reverse.
  destruct (mapM (with_key key) l) as [ks|e] eqn:K; simpl; try discriminate.
  destruct (sort_from [] (rev ks)) as [sorted|e] eqn:S; simpl; try discriminate.
  intros [= <-]. destruct (mapM_with_key _ _ K) as [<- _].
  apply Permutation_map. apply sort_from_perm in S. simpl in S.
  now rewrite <- Permutation_rev, <- S, <- Permutation_rev.
Qed.

Lemma ascending_above (z : Z) (l : list keyed) :
  Forall (fun kx => z < knum kx) l -> filter (at_key z) l = [].
Proof.
  induction 1 as [|y l Hy _ IH]; simpl; [reflexivity|].
  unfold at_key at 1. destruct (Z.eqb_spec (knum y) z); [lia | exact IH].
Qed.

(** Inserting among numeric keys succeeds, keeps the order and puts the new
    element behind the elements of its own key. *)
Lemma insort_numeric (x : keyed) (sorted : list keyed) :
  numeric x -> Forall numeric sorted -> ascending sorted ->
  exists r, insort x sorted = Returned r
            /\ ascending r
            /\ forall z, filter (at_key z) r
                         = (filter (at_key z) sorted ++ filter (at_key z) [x])%list.
Proof.
  intros [zx Hx] Hnum Hasc. induction sorted as [|y rest IH]; simpl.
  - exists [x]. repeat split.
    + repeat constructor.
  - inversion Hnum as [|? ? [zy Hy] Hnum1]; subst.
    apply StronglySorted_inv in Hasc as [Hasc1 Hall].
    rewrite (lt_numeric _ _ _ _ Hx Hy).
    assert (Kx : knum x = zx) by (unfold knum; now rewrite Hx).
    assert (Ky : knum y = zy) by (unfold knum; now rewrite Hy).
    destruct (Z.ltb_spec zx zy) as [Hlt|Hge].
    + exists (x :: y :: rest). repeat split.
      * constructor; [now constructor|].
        constructor; [lia|]. eapply Forall_impl; [|exact Hall].
        intros kx Hk. simpl in Hk. lia.
      * intros z. simpl.
        destruct (at_key z x) eqn:Ex; [|now rewrite app_nil_r].
        apply Z.eqb_eq in Ex.
        destruct (at_key z y) eqn:Ey; [apply Z.eqb_eq in Ey; lia|].
        rewrite ascending_above; [reflexivity|].
        eapply Forall_impl; [|exact Hall]. intros kx Hk. simpl in Hk. lia.
    + destruct (IH Hnum1 Hasc1) as (r & Er & Hr & Hf). rewrite Er. simpl.
      exists (y :: r). repeat split.
      * constructor; [exact Hr|].
        eapply Permutation_Forall; [exact (insort_perm _ _ _ Er)|].
        constructor; [lia | exact Hall].
      * intros z. simpl. rewrite Hf. simpl.
        now destruct (at_key z y).
Qed.

Lemma sort_from_numeric (pending sorted : list keyed) :
  Forall numeric sorted -> Forall numeric pending -> ascending sorted ->
  exists r, sort_from sorted pending = Returned r
            /\ ascending r
            /\ forall z, filter (at_key z) r
                         = (filter (at_key z) sorted ++ filter (at_key z) pending)%list.
Proof.
  revert sorted. induction pending as [|x rest IH]; intros sorted Hs Hp Hasc; simpl.
  - exists sorted. repeat split; [exact Hasc|]. intros z. now rewrite app_nil_r.
  - inversion Hp as [|? ? Hx Hrest]; subst.
    destruct (insort_numeric x sorted Hx Hs Hasc) as (s1 & E & Hasc1 & Hf1).
    rewrite E. simpl.
    assert (Hs1 : Forall numeric s1).
    { eapply Permutation_Forall; [exact (insort_perm _ _ _ E)|]. now constructor. }
    destruct (IH s1 Hs1 Hrest Hasc1) as (r & Er & Hr & Hf).
    exists r. repeat split; try assumption.
    intros z. rewrite Hf, Hf1, <- app_assoc. simpl.
    now destruct (at_key z x).
Qed.

Lemma StronglySorted_snoc {A : Type} (R : A -> A -> Prop) (l : list A) (a : A) :
  StronglySorted R l -> Forall (fun x => R x a) l -> StronglySorted R (l ++ [a]).
Proof.
  induction 1 as [|b l Hl IH Hb]; intros Ha; simpl.
  - repeat constructor.
  - inversion Ha; subst. constructor; [now apply IH|].
    apply Forall_app. split; [exact Hb | now repeat constructor].
Qed.

Lemma StronglySorted_rev {A : Type} (R : A -> A -> Prop) (l : list A) :
  StronglySorted R l -> StronglySorted (fun a b => R b a) (rev l).
Proof.
  induction 1 as [|a l Hl IH Ha]; simpl; [constructor|].
  apply StronglySorted_snoc; [exact IH | now apply Forall_rev].
Qed.

Lemma StronglySorted_map_in {A B : Type} (R : A -> A -> Prop) (R' : B -> B -> Prop)
  (f : A -> B) (l : list A) :
  (forall a b, In a l -> In b l -> R a b -> R' (f a) (f b)) ->
  StronglySorted R l -> StronglySorted R' (map f l).
Proof.
  intros Hf. induction 1 as [|a l Hl IH Ha]; simpl; [constructor|].
  constructor.
  - apply IH. intros x y Hx Hy. apply Hf; now right.
  - apply Forall_map. apply Forall_forall. intros b Hb.
    apply Hf; [now left | now right |].
    rewrite Forall_forall in Ha. now apply Ha.
Qed.

Let vnum (e : pyval) : Z :=
  match match key e with
        | Returned k => Py.num_of k
        | Raised _ => None
        end with
  | Some z => z
  | None => 0
  end.

(** On evaluations whose keys are numbers the sort returns, and what it
    returns is a rearrangement in descending order of key in which the
    evaluations of one key keep the order they came in. *)
Lemma sort_reverse_numeric (l : list pyval) :
  Forall (fun e => exists k z, key e = Returned k /\ Py.num_of k = Some z) l ->
  exists r, sort_reverse key l = Returned r
            /\ Permutation l r
            /\ StronglySorted (fun a b => vnum b <= vnum a) r
            /\ forall z, filter (fun e => vnum e =? z) r
                         = filter (fun e => vnum e =? z) l.
Proof.
  intros Hl.
  destruct (mapM_with_key_total l) as [ks K].
  { eapply Forall_impl; [|exact Hl]. intros e (k & _ & Hk & _). now exists k. }
  destruct (mapM_with_key _ _ K) as [Hm Hkeys].
  assert (Hv : forall kx, In kx ks -> vnum (snd kx) = knum kx).
  { intros kx Hin. rewrite Forall_forall in Hkeys.
    unfold vnum, knum. now rewrite (Hkeys _ Hin). }
  assert (Hnum : Forall numeric ks).
  { apply Forall_forall. intros kx Hin.
    rewrite Forall_forall in Hl, Hkeys.
    destruct (Hl (snd kx)) as (k & z & Hk & Hz).
    - rewrite <- Hm. now apply in_map.
    - exists z. rewrite (Hkeys _ Hin) in Hk. now injection Hk as ->. }
  destruct (sort_from_numeric (rev ks) [] (Forall_nil _) (Forall_rev Hnum))
    as (r0 & S & Hasc & Hf); [constructor|].
  assert (Hperm : Permutation (rev ks) r0) by exact (sort_from_perm _ _ _ S).
  assert (Hv0 : forall kx, In kx (rev r0) -> vnum (snd kx) = knum kx).
  { intros kx Hin. apply Hv. apply in_rev.
    eapply Permutation_in; [symmetry; exact Hperm|]. now apply in_rev. }
  assert (E : sort_reverse key l = Returned (map snd (rev r0))).
  { unfold sort_reverse. rewrite K. simpl. rewrite S. reflexivity. }
  exists (map snd (rev r0)). repeat split.
  - exact E.
  - exact (sort_reverse_perm _ _ E).
  - apply StronglySorted_map_in with (R := fun a b => knum b <= knum a).
    + intros a b Ha Hb Hab. now rewrite (Hv0 _ Ha), (Hv0 _ Hb).
    + now apply StronglySorted_rev.
  - intros z. rewrite filter_map_swap.
    rewrite (filter_ext_in (fun kx => vnum (snd kx) =? z) (at_key z)).
    + rewrite filter_rev, Hf. simpl. rewrite filter_rev, rev_involutive.
      rewrite <- Hm, filter_map_swap. f_equal.
      apply filter_ext_in. intros kx Hin. unfold at_key. now rewrite (Hv _ Hin).
    + intros kx Hin. unfold at_key. now rewrite (Hv0 _ Hin).
Qed.

End SortFacts.

(** What the sort gives for [match_score] keys, in the words of the report. *)
Lemma sort_by_match_score (evaluations : list pyval) :
  Forall (fun e => exists z, score_of e = Some z) evaluations ->
  exists sorted,
    sort_reverse match_score evaluations = Returned sorted
    /\ Permutation evaluations sorted
    /\ descending sorted
    /\ forall z, filter (has_score z) sorted = filter (has_score z) evaluations.
Proof.
  intros H. apply (sort_reverse_numeric match_score).
  eapply Forall_impl; [|exact H]. intros e [z Hz]. unfold score_of in Hz.
  destruct (match_score e) as [k|]; [|discriminate]. now exists k, z.
Qed.

(** ** The loop over the CV files *)

Section Orchestrator.

Variable X : externals.
Variable self : CVEvaluator.
Variables job_title company department location work_mode : string.

Let step := process_cv X self job_title company department.
Let evaluation_request (cv_file cv_text : string) : request :=
  evaluation_payload self
    (create_evaluation_prompt self cv_text (candidate_name_of X cv_file)
       job_title company department).

(** The call posts its payload between once and [max_retries] times. *)
Lemma call_deepseek_api_posts (prompt : string) (w w1 : world) (o : outcome pyval) :
  call_deepseek_api X self prompt 3 w = (w1, o) ->
  exists j, (1 <= j <= 3)%nat
            /\ w1 = (w ++ repeat (evaluation_payload self prompt) j)%list.
Proof.
  unfold call_deepseek_api.
  destruct (retry_loop X self prompt 3 (seq 0 (Z.to_nat 3)) None w) as [w2 o2] eqn:E.
  destruct (retry_loop_posts _ _ _ _ _ _ _ _ _ E) as (j & Hj & -> & H1).
  intros H. exists j. split.
  - split; [apply H1; discriminate | exact Hj].
  - destruct o2; now injection H as <- _.
Qed.

(** A turn of the loop does not look at the evaluations gathered so far: it
    appends one evaluation exactly when the candidate is recorded. *)
Lemma process_cv_status (evaluations : list pyval) (w : world) (cv_file : string) :
  let turn := step ([], w) cv_file in
  step (evaluations, w) cv_file = ((evaluations ++ fst turn)%list, snd turn)
  /\ List.length (fst turn)
     = (if is_recorded (candidate_status X self job_title company department w cv_file)
        then 1 else 0)%nat.
Proof.
  subst step. unfold process_cv, candidate_status. cbv zeta.
  destruct (extract_text_from_pdf X cv_file) as [cv_text|]; simpl;
    [|now rewrite app_nil_r].
  destruct (String.eqb cv_text EmptyString); simpl; [now rewrite app_nil_r|].
  destruct (call_deepseek_api X self _ 3 w) as [w1 [evaluation|e]]; simpl;
    [|now rewrite app_nil_r].
  destruct (Py.truthy evaluation); simpl; [now split | now rewrite app_nil_r].
Qed.

Lemma fold_process_cv (cv_files : list string) (evaluations : list pyval) (w : world) :
  let run := fold_left step cv_files ([], w) in
  fold_left step cv_files (evaluations, w) = ((evaluations ++ fst run)%list, snd run)
  /\ List.length (fst run)
     = List.length (filter is_recorded
                      (statuses X self job_title company department w cv_files))
  /\ List.length (statuses X self job_title company department w cv_files)
     = List.length cv_files.
Proof.
  revert evaluations w. induction cv_files as [|f rest IH]; intros evaluations w.
  - simpl. now rewrite app_nil_r.
  - cbn [fold_left statuses].
    destruct (process_cv_status [] w f) as [_ Hlen].
    destruct (process_cv_status evaluations w f) as [Hstep _].
    rewrite Hstep.
    destruct (step ([], w) f) as [new w1] eqn:T. cbn [fst snd] in *.
    fold step. rewrite T. cbn [snd].
    destruct (IH new w1) as (Hnew & Hcount & Hsts).
    destruct (IH (evaluations ++ new)%list w1) as (Hall & _ & _).
    rewrite Hall, Hnew. cbn [fst snd filter]. repeat split.
    + now rewrite app_assoc.
    + rewrite length_app, Hcount.
      destruct (is_recorded (candidate_status X self job_title company department w f));
        simpl in *; lia.
    + simpl. now rewrite Hsts.
Qed.

(** The pieces of a report that [evaluate_candidates] returns. *)
Lemma evaluate_candidates_returned (cv_files : list string) (w w2 : world) (report : pyval) :
  evaluate_candidates X self cv_files job_title company department location work_mode w
  = (w2, Returned report) ->
  exists sorted summary,
    sort_reverse match_score (fst (fold_left step cv_files ([], w))) = Returned sorted
    /\ generate_overall_summary X self sorted job_title
         (snd (fold_left step cv_files ([], w))) = (w2, Returned summary)
    /\ report = report_of X sorted summary job_title company department
                  location work_mode.
Proof.
  unfold evaluate_candidates. fold step.
  destruct (fold_left step cv_files ([], w)) as [evaluations w1]. cbn [fst snd].
  destruct (sort_reverse match_score evaluations) as [sorted|e]; [|discriminate].
  destruct (generate_overall_summary X self sorted job_title w1)
    as [w3 [summary|e]] eqn:G; [|discriminate].
  intros [= <- <-]. now exists sorted, summary.
Qed.

(** C1.  In the report [evaluate_candidates] returns, [total_candidates] is
    the number of candidates the loop recorded, those whose PDF gave text
    and whose evaluation call gave a result, and it is the length of
    [candidates].  It is never above the number of input files and is below
    it as soon as one candidate was passed over. *)
Theorem total_candidates_counts_recorded
  (cv_files : list string) (w w2 : world) (report : pyval) :
  evaluate_candidates X self cv_files job_title company department location work_mode w
  = (w2, Returned report) ->
  let sts := statuses X self job_title company department w cv_files in
  let n := List.length (filter is_recorded sts) in
  Py.getitem report "total_candidates" = Returned (PInt (Z.of_nat n))
  /\ (exists candidates,
        Py.getitem report "candidates" = Returned (PList candidates)
        /\ List.length candidates = n)
  /\ (n <= List.length cv_files)%nat
  /\ (Exists (fun s => is_recorded s = false) sts -> (n < List.length cv_files)%nat).
Proof.
  intros H sts n.
  destruct (evaluate_candidates_returned _ _ _ _ H) as (sorted & summary & Hs & _ & ->).
  destruct (fold_process_cv cv_files [] w) as (_ & Hcount & Hsts).
  fold sts in Hcount, Hsts. fold n in Hcount.
  assert (Hlen : List.length sorted = n).
  { rewrite <- Hcount. symmetry. apply Permutation_length, (sort_reverse_perm _ _ _ Hs). }
  repeat split.
  - simpl. now rewrite Hlen.
  - exists sorted. now split.
  - subst n. rewrite <- Hsts. apply filter_length_le.
  - intros Hex. subst n. rewrite <- Hsts.
    clear - Hex. induction Hex as [s l Hs|s l _ IH]; simpl.
    + rewrite Hs. pose proof (filter_length_le is_recorded l). lia.
    + destruct (is_recorded s); simpl; [lia|].
      pose proof (filter_length_le is_recorded l). lia.
Qed.

(** C3.  When the match scores of the evaluations gathered are integers, the
    sort succeeds and every report returned has for [candidates] the
    evaluations in descending order of match score, those of equal score in
    the order in which they were gathered. *)
Theorem candidates_sorted_stable (cv_files : list string) (w : world) :
  let evaluations := fst (fold_left step cv_files ([], w)) in
  Forall (fun e => exists z, score_of e = Some z) evaluations ->
  exists sorted,
    sort_reverse match_score evaluations = Returned sorted
    /\ Permutation evaluations sorted
    /\ descending sorted
    /\ (forall z, filter (has_score z) sorted = filter (has_score z) evaluations)
    /\ forall w2 report,
         evaluate_candidates X self cv_files job_title company department
           location work_mode w = (w2, Returned report) ->
         Py.getitem report "candidates" = Returned (PList sorted).
Proof.
  intros evaluations Hnum.
  destruct (sort_by_match_score evaluations Hnum) as (sorted & Hs & Hp & Hd & Hf).
  exists sorted. repeat split; try assumption.
  intros w2 report H.
  destruct (evaluate_candidates_returned _ _ _ _ H) as (sorted' & summary & Hs' & _ & ->).
  fold evaluations in Hs'. rewrite Hs in Hs'. now injection Hs' as <-.
Qed.

(** C5, as the code has it.  A CV whose extraction raises or gives the empty
    text is passed over: the turn builds no prompt, posts nothing and
    appends nothing.  Any other text, white space included, is put in a
    prompt that is posted at least once. *)
Theorem empty_text_is_skipped
  (evaluations : list pyval) (w : world) (cv_file : string) :
  (extract_text_from_pdf X cv_file = None
   \/ extract_text_from_pdf X cv_file = Some EmptyString ->
   step (evaluations, w) cv_file = (evaluations, w))
  /\ (forall cv_text,
        extract_text_from_pdf X cv_file = Some cv_text ->
        cv_text <> EmptyString ->
        exists j, (1 <= j <= 3)%nat
                  /\ snd (step (evaluations, w) cv_file)
                     = (w ++ repeat (evaluation_request cv_file cv_text) j)%list).
Proof.
  subst step. unfold process_cv. split.
  - intros [-> | ->]; reflexivity.
  - intros cv_text -> Hne.
    destruct (String.eqb_spec cv_text EmptyString) as [|_]; [contradiction|].
    destruct (call_deepseek_api X self _ 3 w) as [w1 o] eqn:E.
    destruct (call_deepseek_api_posts _ _ _ _ E) as (j & Hj & ->).
    exists j. split; [exact Hj|].
    destruct o as [evaluation|e]; [destruct (Py.truthy evaluation)|]; reflexivity.
Qed.

End Orchestrator.

(** ** The overall summary *)

Section Summary.

Variable X : externals.
Variable self : CVEvaluator.

Lemma candidate_info_fields (e : pyval) (info : string) :
  candidate_info e = Returned info ->
  exists name score,
    Py.getitem e "candidate_name" = Returned name
    /\ Py.getitem e "match_score" = Returned score.
Proof.
  unfold candidate_info.
  destruct (Py.getitem e "candidate_name") as [name|]; [|discriminate].
  destruct (Py.getitem e "match_score") as [score|]; [|discriminate].
  intros _. now exists name, score.
Qed.

(** C6.  With no evaluation the summary is the fixed sentence; with exactly
    one evaluation that has a name and a score it is the one sentence made
    of the two, which holds a line break only where the name or the score
    does.  In both cases nothing is posted: the world comes back as it
    went in, and the text depends on the candidate alone. *)
Theorem generate_overall_summary_without_call (job_title : string) (w : world) :
  generate_overall_summary X self [] job_title w
  = (w, Returned "No candidates were evaluated.")
  /\ forall candidate name score,
       Py.getitem candidate "candidate_name" = Returned name ->
       Py.getitem candidate "match_score" = Returned score ->
       let text := Py.str name
                   ++ " is the only candidate evaluated with a match score of "
                   ++ Py.str score ++ "/100." in
       generate_overall_summary X self [candidate] job_title w = (w, Returned text)
       /\ PyStr.contains text (Py.str name)
       /\ PyStr.contains text (Py.str score)
       /\ PyStr.has_char "010" text
          = PyStr.has_char "010" (Py.str name) || PyStr.has_char "010" (Py.str score).
Proof.
  split; [reflexivity|].
  intros candidate name score Hn Hs text. repeat split.
  - simpl. unfold sole_candidate_summary. now rewrite Hn, Hs.
  - apply contains_app_l, contains_refl.
  - apply contains_app_r, contains_app_r, contains_app_l, contains_refl.
  - subst text. rewrite !has_char_append. simpl. now rewrite !orb_false_r.
Qed.

Variables job_title company department location work_mode : string.

(** C7.  In a run that gathers two or more evaluations and builds the
    summary prompt, a summary call that fails in any way makes
    [generate_overall_summary] return the fallback sentence with the name
    and the score of the first of the sorted evaluations; the run goes on to
    return its report with that sentence.  When the scores are integers no
    evaluation has a greater score than the one named. *)
Theorem summary_failure_falls_back
  (cv_files : list string) (w : world) (sorted : list pyval) (infos : list string) :
  let run := fold_left (process_cv X self job_title company department)
               cv_files ([], w) in
  sort_reverse match_score (fst run) = Returned sorted ->
  (2 <= List.length sorted)%nat ->
  mapM candidate_info sorted = Returned infos ->
  (forall summary, try_summary (endpoint X (List.length (snd run))) <> Returned summary) ->
  exists top rest name score,
    sorted = top :: rest
    /\ Py.getitem top "candidate_name" = Returned name
    /\ Py.getitem top "match_score" = Returned score
    /\ let text := Py.str name ++ " ranks highest with a score of " ++ Py.str score
                   ++ "/100, demonstrating the strongest alignment with role requirements across all evaluation criteria." in
       let w2 := (snd run
                  ++ [summary_payload self
                        (summary_prompt (PyStr.join PyStr.nl infos) job_title)])%list in
       generate_overall_summary X self sorted job_title (snd run) = (w2, Returned text)
       /\ evaluate_candidates X self cv_files job_title company department
            location work_mode w
          = (w2, Returned (report_of X sorted text job_title company department
                             location work_mode))
       /\ (Forall (fun e => exists z, score_of e = Some z) sorted ->
           Forall (fun e => score_z e <= score_z top) sorted).
Proof.
  intros run Hsort Hlen Hinfos Hfail.
  destruct sorted as [|top [|second rest]]; simpl in Hlen; try lia.
  assert (Htop : exists info, candidate_info top = Returned info).
  { simpl in Hinfos. destruct (candidate_info top) as [info|]; [|discriminate].
    now exists info. }
  destruct Htop as [info Htop].
  destruct (candidate_info_fields _ _ Htop) as (name & score & Hn & Hs).
  exists top, (second :: rest), name, score. repeat split; try assumption.
  - unfold generate_overall_summary. rewrite Hinfos. unfold post.
    destruct (try_summary (endpoint X (List.length (snd run)))) as [summary|e] eqn:T.
    + now destruct (Hfail summary).
    + unfold fallback_summary. now rewrite Hn, Hs.
  - unfold evaluate_candidates. fold run.
    destruct run as [evaluations w1] eqn:R. cbn [fst snd] in *.
    rewrite Hsort. unfold generate_overall_summary. rewrite Hinfos. unfold post.
    destruct (try_summary (endpoint X (List.length w1))) as [summary|e] eqn:T.
    + now destruct (Hfail summary).
    + unfold fallback_summary. now rewrite Hn, Hs.
  - intros Hnum.
    assert (Hgathered : Forall (fun e => exists z, score_of e = Some z) (fst run)).
    { eapply Permutation_Forall; [|exact Hnum].
      symmetry. exact (sort_reverse_perm _ _ _ Hsort). }
    destruct (sort_by_match_score _ Hgathered) as (sorted' & Hs' & _ & Hd & _).
    rewrite Hsort in Hs'. injection Hs' as <-.
    apply StronglySorted_inv in Hd as [_ Hall].
    constructor; [lia | exact Hall].
Qed.

Lemma shaped_score (e : pyval) : shaped e -> exists z, score_of e = Some z.
Proof.
  intros (name & score & z & summary & _ & Hs & Hz & _).
  exists z. unfold score_of, match_score. now rewrite Hs.
Qed.

Lemma mapM_candidate_info (l : list pyval) :
  Forall shaped l -> exists infos, mapM candidate_info l = Returned infos.
Proof.
  induction 1 as [|e l (name & score & z & summary & Hn & Hs & _ & Hr) _ [infos IH]].
  - now exists [].
  - simpl. unfold candidate_info at 1. rewrite Hn, Hs, Hr. simpl. rewrite IH.
    simpl. now eexists.
Qed.

(** When the evaluations gathered have the fields the summary reads,
    [evaluate_candidates] returns a report. *)
Lemma evaluate_candidates_returns (cv_files : list string) (w : world) :
  Forall shaped
    (fst (fold_left (process_cv X self job_title company department)
            cv_files ([], w))) ->
  exists w2 report,
    evaluate_candidates X self cv_files job_title company department
      location work_mode w = (w2, Returned report).
Proof.
  intros Hshape. unfold evaluate_candidates.
  destruct (fold_left _ cv_files ([], w)) as [evaluations w1]. cbn [fst] in Hshape.
  destruct (sort_by_match_score evaluations) as (sorted & Hs & Hp & _).
  { eapply Forall_impl; [|exact Hshape]. exact shaped_score. }
  rewrite Hs.
  assert (Hsorted : Forall shaped sorted) by (eapply Permutation_Forall; eassumption).
  destruct sorted as [|top [|second rest]].
  - simpl. now do 2 eexists.
  - inversion Hsorted as [|? ? (name & score & z & summary & Hn & Hsc & _) _]; subst.
    simpl. unfold sole_candidate_summary. rewrite Hn, Hsc. simpl. now do 2 eexists.
  - destruct (mapM_candidate_info _ Hsorted) as [infos Hi].
    inversion Hsorted as [|? ? (name & score & z & summary & Hn & Hsc & _) _]; subst.
    unfold generate_overall_summary. rewrite Hi. unfold post.
    destruct (try_summary _) as [text|e].
    + now do 2 eexists.
    + unfold fallback_summary. rewrite Hn, Hsc. simpl. now do 2 eexists.
Qed.

End Summary.

(** ** The persisted report *)

Lemma lookup_store_same (k : string) (v : pyval) (d : list (string * pyval)) :
  Py.lookup k (Py.store k v d) = Some v.
Proof.
  induction d as [|[k' v'] d IH]; simpl.
  - now rewrite String.eqb_refl.
  - destruct (String.eqb k k') eqn:E; simpl; now rewrite E.
Qed.

Lemma getitem_dict (e : pyval) (k : string) (v : pyval) :
  Py.getitem e k = Returned v -> exists d, e = PDict d.
Proof. destruct e; try discriminate. intros _. now eexists. Qed.

(** What the sort returns has answered the key function, so for the
    [match_score] key it holds dictionaries only. *)
Lemma sort_reverse_dicts (l r : list pyval) :
  sort_reverse match_score l = Returned r ->
  Forall (fun e => exists d, e = PDict d) r.
Proof.
  intros H. eapply Permutation_Forall; [exact (sort_reverse_perm _ _ _ H)|].
  unfold sort_reverse in H.
  destruct (mapM (with_key match_score) l) as [ks|] eqn:K; [|discriminate].
  destruct (mapM_with_key _ _ _ K) as [<- Hk].
  apply Forall_map. eapply Forall_impl; [|exact Hk].
  intros kx Hkx. exact (getitem_dict _ _ _ Hkx).
Qed.

Lemma number_candidates_dicts (l : list pyval) (idx : Z) :
  Forall (fun e => exists d, e = PDict d) l ->
  exists numbered,
    number_candidates idx l = Returned numbered
    /\ List.length numbered = List.length l
    /\ forall i e, nth_error l i = Some e ->
         exists d, e = PDict d
                   /\ nth_error numbered i
                      = Some (PDict (Py.store "candidate_number"
                                       (PInt (idx + Z.of_nat i)) d)).
Proof.
  intros H. revert idx. induction H as [|e l [d ->] _ IH]; intros idx.
  - exists []. repeat split. intros [|i] e; discriminate.
  - destruct (IH (idx + 1)) as (numbered & E & Hlen & Hnth).
    cbn [number_candidates Py.setitem bind]. rewrite E. cbn [bind].
    eexists. repeat split.
    + simpl. now rewrite Hlen.
    + intros [|i] e Hi.
      * injection Hi as <-. exists d. rewrite Z.add_0_r. now split.
      * destruct (Hnth i e Hi) as (d' & -> & Hn). exists d'. split; [reflexivity|].
        cbn [nth_error].
        replace (idx + Z.of_nat (S i)) with (idx + 1 + Z.of_nat i) by lia.
        exact Hn.
Qed.

(** C4, as the code has it.  A run of the application either raises before
    anything is written, or writes to [evaluation_report.json] the report
    [evaluate_candidates] returned: the four top-level keys, the seven of
    the header, and for [candidates] the sorted evaluations as decoded, with
    nothing added to them.  [generate_pdf] numbers the candidates from 1
    afterwards, in the report the application keeps in memory when the run
    returns. *)
Theorem persisted_report_shape
  (X : externals) (form : form_data) (app app1 : TalentMatcherApp)
  (fs fs1 : files) (w w1 : world) (o : outcome string) :
  app_evaluate_candidates X form app fs w = (app1, fs1, w1, o) ->
  (fs1 = fs /\ exists e, o = Raised e)
  \/ exists header evaluations summary,
       let document (candidates : list pyval) :=
         PDict [ ("report_header", PDict header);
                 ("candidates", PList candidates);
                 ("overall_summary", PStr summary);
                 ("total_candidates", PInt (Z.of_nat (List.length evaluations))) ] in
       fs1 = ("evaluation_report.json", document evaluations) :: fs
       /\ read_json fs1 "evaluation_report.json" = Some (document evaluations)
       /\ Py.keys header = header_keys
       /\ evaluate_candidates X
            (init (PyStr.strip (or_default (form_api_key form) EmptyString))
               (read_job_description X form))
            (form_resume_files form) (form_job_title form) (form_company form)
            (or_default (form_department form) "Department")
            (or_default (form_location form) EmptyString) EmptyString w
          = (w1, Returned (document evaluations))
       /\ forall report_file, o = Returned report_file ->
            report_file = "evaluation_report.json"
            /\ exists numbered,
                 latest_report_data app1 = Some (document numbered)
                 /\ List.length numbered = List.length evaluations
                 /\ forall i e, nth_error evaluations i = Some e ->
                      exists d, e = PDict d
                                /\ nth_error numbered i
                                   = Some (PDict (Py.store "candidate_number"
                                                    (PInt (1 + Z.of_nat i)) d)).
Proof.
  unfold app_evaluate_candidates.
  destruct (String.eqb _ EmptyString).
  { intros [= <- <- <- <-]. left. split; [reflexivity | now eexists]. }
  destruct (evaluate_candidates X _ _ _ _ _ _ _ w) as [w2 [report|e]] eqn:E.
  2: { intros [= <- <- <- <-]. left. split; [reflexivity | now eexists]. }
  destruct (evaluate_candidates_returned _ _ _ _ _ _ _ _ _ _ _ E)
    as (sorted & summary & Hsort & _ & ->).
  destruct (number_candidates_dicts sorted 1 (sort_reverse_dicts _ _ Hsort))
    as (numbered & N & Hlen & Hnth).
  unfold save_json_report, generate_pdf, report_of.
  cbn [Py.get Py.lookup String.eqb Ascii.eqb Bool.eqb bind].
  rewrite N. cbn [bind Py.store String.eqb Ascii.eqb Bool.eqb].
  destruct (pdf_builds X _); intros [= <- <- <- <-]; right;
    eexists _, sorted, summary; cbv zeta;
    (do 4 (split; [reflexivity|])); intros file [= <-].
  split; [reflexivity|]. exists numbered. now repeat split.
Qed.

(** ** Closed runs of the orchestrator *)

Lemma total_candidates_counts_recorded_witness :
  statuses Run.second_unreadable Run.evaluator Run.title Run.company Run.department
    [] Run.with_unreadable = [Recorded; SkippedExtraction; Recorded]
  /\ exists w2 report,
       evaluate_candidates Run.second_unreadable Run.evaluator Run.with_unreadable
         Run.title Run.company Run.department Run.location EmptyString []
       = (w2, Returned report)
       /\ Py.getitem report "total_candidates" = Returned (PInt 2)
       /\ Py.getitem report "candidates" = Returned (PList [Run.ada; Run.cy]).
Proof.
  split; [vm_compute; reflexivity|].
  eexists. eexists.
  assert (E : evaluate_candidates Run.second_unreadable Run.evaluator Run.with_unreadable
                Run.title Run.company Run.department Run.location EmptyString []
              = (fst (evaluate_candidates Run.second_unreadable Run.evaluator
                        Run.with_unreadable Run.title Run.company Run.department
                        Run.location EmptyString []),
                 Returned (report_of Run.second_unreadable [Run.ada; Run.cy]
                             "Ada Lovelace and Cy Young are level."
                             Run.title Run.company Run.department Run.location
                             EmptyString)))
    by (vm_compute; reflexivity).
  split; [exact E|].
  destruct (total_candidates_counts_recorded _ _ _ _ _ _ _ _ _ _ _ E) as (T & _).
  split; [vm_compute in T; vm_compute; exact T | reflexivity].
Defined.

Lemma candidates_sorted_stable_witness :
  fst (fold_left (process_cv Run.all_evaluated Run.evaluator
                    Run.title Run.company Run.department) Run.all_three (@pair (list pyval) world [] []))
  = [Run.ada; Run.bob; Run.cy]
  /\ sort_reverse match_score [Run.ada; Run.bob; Run.cy]
     = Returned [Run.bob; Run.ada; Run.cy]
  /\ exists sorted,
       sort_reverse match_score [Run.ada; Run.bob; Run.cy] = Returned sorted
       /\ Permutation [Run.ada; Run.bob; Run.cy] sorted
       /\ descending sorted
       /\ forall z, filter (has_score z) sorted
                    = filter (has_score z) [Run.ada; Run.bob; Run.cy].
Proof.
  assert (G : fst (fold_left (process_cv Run.all_evaluated Run.evaluator
                                Run.title Run.company Run.department)
                     Run.all_three (@pair (list pyval) world [] []))
              = [Run.ada; Run.bob; Run.cy]) by (vm_compute; reflexivity).
  split; [exact G|]. split; [vm_compute; reflexivity|].
  pose proof (candidates_sorted_stable Run.all_evaluated Run.evaluator
                Run.title Run.company Run.department Run.location EmptyString
                Run.all_three []) as T.
  cbv zeta in T. rewrite G in T.
  destruct T as (sorted & H1 & H2 & H3 & H4 & _).
  - repeat constructor; eexists; reflexivity.
  - exists sorted. now repeat split.
Defined.

Lemma empty_text_is_skipped_witness :
  process_cv Run.all_evaluated Run.evaluator Run.title Run.company Run.department
    ([Run.ada], []) "missing.pdf" = ([Run.ada], [])
  /\ exists j, (1 <= j <= 3)%nat
       /\ snd (process_cv Run.blank_evaluated Run.evaluator
                 Run.title Run.company Run.department ([], []) "blank.pdf")
          = ([] ++ repeat (evaluation_payload Run.evaluator
                             (create_evaluation_prompt Run.evaluator Run.white
                                (candidate_name_of Run.blank_evaluated "blank.pdf")
                                Run.title Run.company Run.department)) j)%list.
Proof.
  split.
  - apply (proj1 (empty_text_is_skipped Run.all_evaluated Run.evaluator
                    Run.title Run.company Run.department [Run.ada] [] "missing.pdf")).
    left. reflexivity.
  - apply (proj2 (empty_text_is_skipped Run.blank_evaluated Run.evaluator
                    Run.title Run.company Run.department [] [] "blank.pdf")).
    + reflexivity.
    + discriminate.
Defined.

(** C5 as stated fails: a text of white space alone is put in a prompt, the
    prompt is posted, and the candidate is in the report. *)
Lemma whitespace_text_is_evaluated :
  extract_text_from_pdf Run.blank_evaluated "blank.pdf" = Some Run.white
  /\ PyStr.strip Run.white = EmptyString
  /\ evaluate_candidates Run.blank_evaluated Run.evaluator ["blank.pdf"]
       Run.title Run.company Run.department Run.location EmptyString []
     = ([evaluation_payload Run.evaluator
           (create_evaluation_prompt Run.evaluator Run.white "blank"
              Run.title Run.company Run.department)],
        Returned (report_of Run.blank_evaluated [Run.evaluation_of "blank" 70]
                    "blank is the only candidate evaluated with a match score of 70/100."
                    Run.title Run.company Run.department Run.location EmptyString)).
Proof. vm_compute. repeat split. Qed.

Lemma generate_overall_summary_without_call_witness :
  generate_overall_summary Run.all_evaluated Run.evaluator [Run.ada_88] Run.title []
  = ([], Returned "Ada is the only candidate evaluated with a match score of 88/100.")
  /\ PyStr.contains "Ada is the only candidate evaluated with a match score of 88/100." "Ada"
  /\ PyStr.contains "Ada is the only candidate evaluated with a match score of 88/100." "88".
Proof.
  destruct (proj2 (generate_overall_summary_without_call
                     Run.all_evaluated Run.evaluator Run.title [])
              Run.ada_88 (PStr "Ada") (PInt 88) eq_refl eq_refl)
    as (T1 & T2 & T3 & _).
  repeat split; assumption.
Defined.

Lemma summary_failure_falls_back_witness :
  exists w2,
    evaluate_candidates Run.summary_down Run.evaluator Run.all_three
      Run.title Run.company Run.department Run.location EmptyString []
    = (w2, Returned (report_of Run.summary_down [Run.bob; Run.ada; Run.cy]
                       Run.fallback_for_bob
                       Run.title Run.company Run.department Run.location
                       EmptyString)).
Proof.
  edestruct (summary_failure_falls_back Run.summary_down Run.evaluator
               Run.title Run.company Run.department Run.location EmptyString
               Run.all_three [] [Run.bob; Run.ada; Run.cy])
    as (top & rest & name & score & Hs & Hn & Hsc & _ & He & _).
  - vm_compute. reflexivity.
  - simpl. lia.
  - vm_compute. reflexivity.
  - intros summary. vm_compute. discriminate.
  - injection Hs as <- <-.
    vm_compute in Hn. injection Hn as <-.
    vm_compute in Hsc. injection Hsc as <-.
    eexists. exact He.
Defined.

Lemma persisted_report_shape_witness :
  exists document entries,
    read_json (snd (fst (fst Run.trio_run))) "evaluation_report.json" = Some document
    /\ document = PDict entries
    /\ Py.keys entries
       = ["report_header"; "candidates"; "overall_summary"; "total_candidates"].
Proof.
  destruct (persisted_report_shape Run.all_evaluated (Run.form_of Run.all_three)
              Run.fresh_app (fst (fst (fst Run.trio_run))) [] (snd (fst (fst Run.trio_run)))
              [] (snd (fst Run.trio_run)) (snd Run.trio_run))
    as [[_ [e He]] | (header & evaluations & summary & T)].
  - vm_compute. reflexivity.
  - vm_compute in He. discriminate.
  - cbv zeta in T. destruct T as (_ & T & _).
    do 2 eexists. split; [exact T|]. split; reflexivity.
Defined.

(** C4 as stated fails: the candidate persisted has no [candidate_number];
    the number is in the report kept in memory. *)
Lemma persisted_candidate_has_no_number :
  exists app1 fs1 w1 document candidate kept numbered,
    Run.solo_run = (app1, fs1, w1, Returned "evaluation_report.json")
    /\ read_json fs1 "evaluation_report.json" = Some document
    /\ Py.getitem document "candidates" = Returned (PList [candidate])
    /\ Py.getitem candidate "candidate_number" = Raised KeyError
    /\ latest_report_data app1 = Some kept
    /\ Py.getitem kept "candidates" = Returned (PList [numbered])
    /\ Py.getitem numbered "candidate_number" = Returned (PInt 1).
Proof. vm_compute. repeat eexists. Qed.

(** * Further properties *)

(** ** Every way out of call_deepseek_api *)

Section Attempts.

Variable X : externals.
Variable self : CVEvaluator.
Variable prompt : string.
Variable max_retries : Z.

Let payload : request := evaluation_payload self prompt.
Let loop := retry_loop X self prompt max_retries.
Let answer (w : world) (i : nat) : response := endpoint X (List.length w + i).

Lemma try_attempt_outcome (resp : response) (content : option string) :
  snd (try_attempt X resp content) = attempt_outcome X resp.
Proof.
  unfold attempt_outcome, try_attempt. destruct resp as [| |result]; try reflexivity.
  destruct (message_content result) as [[| | |c| |]|e]; reflexivity.
Qed.

Lemma try_attempt_content (resp : response) (content : option string) :
  fst (try_attempt X resp content) <> None
  <-> content <> None \/ binds_content resp = true.
Proof.
  unfold try_attempt, binds_content. destruct resp as [| |result]; simpl.
  1,2: split; [now left | now intros [H|H]].
  destruct (message_content result) as [[| | |c| |]|e]; simpl;
    try (split; [now left | now intros [H|H]]).
  split; [now right | discriminate].
Qed.

Lemma answer_shift (w : world) (i : nat) :
  answer (w ++ [payload])%list i = answer w (S i).
Proof. unfold answer. rewrite length_app. simpl. f_equal. lia. Qed.

Lemma world_grows (w : world) (n : nat) :
  ((w ++ [payload]) ++ repeat payload n = w ++ repeat payload (S n))%list.
Proof. now rewrite <- app_assoc. Qed.

(** The attempts that fail in a way the loop takes up are passed, one POST
    each, as long as none of them is the last. *)
Lemma retry_loop_passes (m : nat) :
  forall k rest content w,
    Z.of_nat (k + m) < max_retries ->
    (forall i, (i < m)%nat -> retried (attempt_outcome X (answer w i))) ->
    exists content1,
      loop (seq k m ++ rest)%list content w
      = loop rest content1 (w ++ repeat payload m)%list
      /\ (content1 <> None
          <-> content <> None
              \/ exists i, (i < m)%nat /\ binds_content (answer w i) = true).
Proof.
  induction m as [|m IH]; intros k rest content w Hk Hretry.
  - exists content. simpl. rewrite app_nil_r. split; [reflexivity|].
    split; [now left | intros [H|(i & Hi & _)]; [exact H | lia]].
  - destruct (IH (S k) rest (fst (try_attempt X (answer w 0%nat) content))
                (w ++ [payload])%list) as (content1 & Hloop & Hbound).
    + lia.
    + intros i Hi. rewrite answer_shift. apply Hretry. lia.
    + exists content1. split.
      * rewrite world_grows in Hloop. rewrite <- Hloop.
        change (seq k (S m) ++ rest)%list with (k :: (seq (S k) m ++ rest))%list.
        unfold loop. rewrite retry_loop_turn. cbv zeta.
        replace (Z.of_nat k =? max_retries - 1) with false
          by (symmetry; apply Z.eqb_neq; lia).
        pose proof (try_attempt_outcome (answer w 0%nat) content) as Ho.
        pose proof (Hretry 0%nat ltac:(lia)) as Hr.
        unfold answer in *. rewrite Nat.add_0_r in *.
        destruct (try_attempt X (endpoint X (List.length w)) content) as [c1 o].
        cbn [fst snd] in *. rewrite <- Ho in Hr.
        destruct Hr as [-> | ->]; reflexivity.
      * rewrite Hbound, try_attempt_content. split.
        -- intros [[H|H]|(i & Hi & H)].
           ++ now left.
           ++ right. exists 0%nat. split; [lia | exact H].
           ++ right. exists (S i). split; [lia|]. now rewrite <- answer_shift.
        -- intros [H|(i & Hi & H)]; [now left; left|].
           destruct i as [|i]; [now left; right|].
           right. exists i. split; [lia|]. now rewrite answer_shift.
Qed.

Lemma repeat_snoc (r : request) (n : nat) :
  (repeat r n ++ [r] = repeat r (S n))%list.
Proof. induction n as [|n IH]; simpl; [reflexivity | now rewrite IH]. Qed.

Lemma seq_split_at (k n : nat) :
  (k < n)%nat -> seq 0 n = (seq 0 k ++ k :: seq (S k) (n - S k))%list.
Proof.
  intros H. replace n with (k + S (n - S k))%nat at 1 by lia.
  now rewrite seq_app.
Qed.

Lemma call_settles (k : nat) (w : world) (o : outcome pyval) :
  (k < Z.to_nat max_retries)%nat ->
  (forall i, (i < k)%nat -> retried (attempt_outcome X (answer w i))) ->
  attempt_outcome X (answer w k) = o ->
  ~ retried o ->
  call_deepseek_api X self prompt max_retries w
  = ((w ++ repeat payload (S k))%list, o).
Proof.
  intros Hk Hretry Ho Hsettled. unfold call_deepseek_api.
  rewrite (seq_split_at k _ Hk).
  destruct (retry_loop_passes k 0 (k :: seq (S k) (Z.to_nat max_retries - S k)) None w)
    as (content1 & Hp & _); [lia | exact Hretry |].
  unfold loop in Hp. rewrite Hp, retry_loop_turn. cbv zeta.
  rewrite length_app, repeat_length.
  pose proof (try_attempt_outcome (answer w k) content1) as Hsnd.
  unfold answer in Hsnd, Ho.
  destruct (try_attempt X (endpoint X (List.length w + k)) content1) as [c1 o1].
  cbn [snd] in Hsnd. rewrite Ho in Hsnd. subst o1.
  rewrite <- app_assoc, repeat_snoc.
  destruct o as [v|e]; [reflexivity|].
  destruct e; try reflexivity; exfalso; apply Hsettled; [now left | now right].
Qed.

(** X1.  The call ends at the first attempt that neither fails with a
    request error nor with a decode error: it has posted once for each
    attempt up to that one and hands on what that attempt returned or
    raised.  Later answers are never asked for. *)
Theorem call_deepseek_api_ends_at_first_settled_attempt
  (k : nat) (w : world) (o : outcome pyval) :
  (k < Z.to_nat max_retries)%nat ->
  (forall i, (i < k)%nat -> retried (attempt_outcome X (answer w i))) ->
  attempt_outcome X (answer w k) = o ->
  ~ retried o ->
  call_deepseek_api X self prompt max_retries w
  = ((w ++ repeat payload (S k))%list, o).
Proof. exact (call_settles k w o). Qed.

(** X2.  A body that does not have the shape
    [result['choices'][0]['message']['content']], or whose content is not a
    string, is not retried: the call posts once and raises the KeyError,
    IndexError or TypeError of the subscript, or the AttributeError of
    [startswith]. *)
Theorem call_deepseek_api_does_not_retry_a_misshapen_body
  (w : world) (result : pyval) :
  1 <= max_retries ->
  endpoint X (List.length w) = Body result ->
  match message_content result with
  | Returned (PStr _) => True
  | Returned _ =>
      call_deepseek_api X self prompt max_retries w
      = ((w ++ [payload])%list, Raised AttributeError)
  | Raised e =>
      (e = KeyError \/ e = IndexError \/ e = TypeError)
      /\ call_deepseek_api X self prompt max_retries w
         = ((w ++ [payload])%list, Raised e)
  end.
Proof.
  intros Hn He.
  assert (Hcall : forall o, attempt_outcome X (Body result) = o -> ~ retried o ->
            call_deepseek_api X self prompt max_retries w = ((w ++ [payload])%list, o)).
  { intros o Ho Hs.
    apply (call_settles 0 w o); try assumption.
    - lia.
    - intros i Hi. lia.
    - unfold answer. now rewrite Nat.add_0_r, He. }
  assert (Hshape : forall e, message_content result = Raised e ->
            e = KeyError \/ e = IndexError \/ e = TypeError).
  { unfold message_content. intros e.
    destruct result as [| | | | |d]; simpl; try (intros [= <-]; tauto).
    destruct (Py.lookup "choices" d) as [choices|]; simpl; [|intros [= <-]; tauto].
    destruct choices as [| | |[|c s]|[|first l]|d1]; simpl; try (intros [= <-]; tauto).
    destruct first as [| | | | |d2]; simpl; try (intros [= <-]; tauto).
    destruct (Py.lookup "message" d2) as [[| | | | |d3]|]; simpl;
      try (intros [= <-]; tauto).
    destruct (Py.lookup "content" d3); simpl; [discriminate | intros [= <-]; tauto]. }
  unfold attempt_outcome, try_attempt in Hcall. cbn [snd] in Hcall.
  destruct (message_content result) as [c|e] eqn:M.
  - destruct c; try exact I; apply Hcall; try reflexivity;
      intros [H|H]; discriminate.
  - destruct (Hshape e eq_refl) as [-> | [-> | ->]];
      (split; [tauto | apply Hcall; [reflexivity | intros [H|H]; discriminate]]).
Qed.

Lemma existsb_seq_bound (f : nat -> bool) (n : nat) :
  existsb f (seq 0 n) = true <-> exists i, (i < n)%nat /\ f i = true.
Proof.
  rewrite existsb_exists. split.
  - intros (i & Hi & H). exists i. apply in_seq in Hi. split; [lia | exact H].
  - intros (i & Hi & H). exists i. split; [apply in_seq; lia | exact H].
Qed.

(** X3.  When every attempt fails with a request error or a decode error,
    the call posts [max_retries] times and raises: the RequestException of
    the last attempt, or after a last decode error the JSONDecodeError if
    some attempt had a string for content, and else the UnboundLocalError
    of the handler that prints the never bound [content]. *)
Theorem call_deepseek_api_exhausted (n : nat) (w : world) :
  Z.to_nat max_retries = S n ->
  (forall i, (i <= n)%nat -> retried (attempt_outcome X (answer w i))) ->
  call_deepseek_api X self prompt max_retries w
  = ((w ++ repeat payload (S n))%list,
     Raised (exhausted_with (attempt_outcome X (answer w n))
               (existsb (fun i => binds_content (answer w i)) (seq 0 (S n))))).
Proof.
  intros Hn Hretry. unfold call_deepseek_api. rewrite Hn.
  remember (existsb (fun i => binds_content (answer w i)) (seq 0 (S n))) as bound
    eqn:Ebound.
  rewrite (seq_split_at n (S n)) by lia.
  replace (S n - S n)%nat with 0%nat by lia. cbn [seq].
  destruct (retry_loop_passes n 0 [n] None w) as (content1 & Hp & Hbound);
    [lia | intros i Hi; apply Hretry; lia |].
  unfold loop in Hp. rewrite Hp, retry_loop_turn. cbv zeta. cbn [retry_loop].
  rewrite length_app, repeat_length.
  replace (Z.of_nat n =? max_retries - 1) with true
    by (symmetry; apply Z.eqb_eq; lia).
  pose proof (try_attempt_outcome (answer w n) content1) as Hsnd.
  pose proof (try_attempt_content (answer w n) content1) as Hfst.
  unfold answer in Hsnd, Hfst.
  destruct (try_attempt X (endpoint X (List.length w + n)) content1) as [c1 o1].
  cbn [fst snd] in Hsnd, Hfst. subst o1.
  rewrite <- app_assoc, repeat_snoc.
  destruct (Hretry n (le_n n)) as [Hlast|Hlast]; unfold answer in Hlast |- *;
    rewrite Hlast; cbn [exhausted_with]; [|reflexivity].
  assert (Hex : c1 <> None <-> bound = true).
  { subst bound. rewrite Hfst, Hbound, existsb_seq_bound. split.
    - intros [[H|(i & Hi & H)]|H]; [congruence | |].
      + exists i. split; [lia | exact H].
      + exists n. split; [lia | exact H].
    - intros (i & Hi & H). destruct (Nat.eq_dec i n) as [->|Hne]; [now right|].
      left. right. exists i. split; [lia | exact H]. }
  clear Ebound. destruct c1 as [c|]; destruct bound; try reflexivity.
  - assert (Some c <> None) as H by discriminate. apply Hex in H. discriminate.
  - exfalso. now apply Hex.
Qed.

(** X4.  With a retry budget of zero or less the loop body never runs: the
    call posts nothing and returns [None]. *)
Theorem call_deepseek_api_without_budget (w : world) :
  max_retries <= 0 ->
  call_deepseek_api X self prompt max_retries w = (w, Returned PNone).
Proof.
  intros H. unfold call_deepseek_api.
  replace (Z.to_nat max_retries) with 0%nat by lia. reflexivity.
Qed.

End Attempts.

Lemma call_deepseek_api_ends_at_first_settled_attempt_witness :
  call_deepseek_api
    (Run.externals_of [] [RequestFails; BodyNotJson; Run.says "Ada" 88; RequestFails])
    Run.evaluator "prompt" 5 []
  = (repeat (evaluation_payload Run.evaluator "prompt") 3,
     Returned (Run.evaluation_of "Ada" 88)).
Proof.
  apply (call_deepseek_api_ends_at_first_settled_attempt
           (Run.externals_of [] [RequestFails; BodyNotJson; Run.says "Ada" 88;
                                 RequestFails])
           Run.evaluator "prompt" 5 2 []).
  - simpl. lia.
  - intros [|[|i]] Hi; [now right | now left | lia].
  - vm_compute. reflexivity.
  - intros [H|H]; discriminate.
Defined.

Lemma call_deepseek_api_does_not_retry_a_misshapen_body_witness :
  call_deepseek_api (Run.externals_of [] [Body (PDict [("error", PStr "busy")])])
    Run.evaluator "prompt" 3 []
  = ([evaluation_payload Run.evaluator "prompt"], Raised KeyError)
  /\ call_deepseek_api (Run.externals_of [] [Body (chat_response PNone)])
       Run.evaluator "prompt" 3 []
     = ([evaluation_payload Run.evaluator "prompt"], Raised AttributeError).
Proof.
  split.
  - exact (proj2 (call_deepseek_api_does_not_retry_a_misshapen_body
                    (Run.externals_of [] [Body (PDict [("error", PStr "busy")])])
                    Run.evaluator "prompt" 3 [] (PDict [("error", PStr "busy")])
                    ltac:(lia) eq_refl)).
  - exact (call_deepseek_api_does_not_retry_a_misshapen_body
             (Run.externals_of [] [Body (chat_response PNone)])
             Run.evaluator "prompt" 3 [] (chat_response PNone)
             ltac:(lia) eq_refl).
Defined.

Lemma call_deepseek_api_exhausted_witness :
  call_deepseek_api (Run.externals_of [] [BodyNotJson; RequestFails; BodyNotJson])
    Run.evaluator "prompt" 3 []
  = (repeat (evaluation_payload Run.evaluator "prompt") 3, Raised UnboundLocalError)
  /\ call_deepseek_api
       (Run.externals_of [] [Run.answers "not json"; RequestFails; BodyNotJson])
       Run.evaluator "prompt" 3 []
     = (repeat (evaluation_payload Run.evaluator "prompt") 3, Raised JSONDecodeError).
Proof.
  split.
  - apply (call_deepseek_api_exhausted
             (Run.externals_of [] [BodyNotJson; RequestFails; BodyNotJson])
             Run.evaluator "prompt" 3 2 []).
    + reflexivity.
    + intros [|[|[|i]]] Hi; [now left | now right | now left | lia].
  - apply (call_deepseek_api_exhausted
             (Run.externals_of [] [Run.answers "not json"; RequestFails; BodyNotJson])
             Run.evaluator "prompt" 3 2 []).
    + reflexivity.
    + intros [|[|[|i]]] Hi; [left; vm_compute; reflexivity | now right | now left | lia].
Defined.

Lemma call_deepseek_api_without_budget_witness :
  call_deepseek_api (Run.externals_of [] [Run.says "Ada" 88]) Run.evaluator "prompt" 0 []
  = ([], Returned PNone).
Proof.
  apply (call_deepseek_api_without_budget
           (Run.externals_of [] [Run.says "Ada" 88]) Run.evaluator "prompt" 0 []).
  lia.
Defined.

(** ** The clean-up of the response *)

Section CleanUp.

Import PyStr.

Lemma lstrip_length (s : string) :
  (String.length (lstrip s) <= String.length s)%nat.
Proof.
  induction s as [|a s IH]; simpl; [lia|].
  destruct (is_space a); simpl; lia.
Qed.

Lemma lstrip_fixed_head (a : ascii) (s : string) :
  lstrip (String a s) = String a s -> is_space a = false.
Proof.
  simpl. destruct (is_space a); [|reflexivity].
  intros H. pose proof (lstrip_length s) as L. rewrite H in L. simpl in L. lia.
Qed.

Lemma lstrip_space (c : ascii) (s : string) :
  is_space c = true -> lstrip (String c s) = lstrip s.
Proof. intros H. simpl. now rewrite H. Qed.

Lemma lstrip_head (a : ascii) (s : string) :
  is_space a = false -> lstrip (String a s) = String a s.
Proof. intros H. simpl. now rewrite H. Qed.

Lemma rstrip_head (a : ascii) (s : string) :
  is_space a = false -> rstrip (String a s) = String a (rstrip s).
Proof. intros H. simpl. destruct (rstrip s); now rewrite ?H. Qed.

Lemma rstrip_trailing_space (s : string) (c : ascii) :
  is_space c = true -> rstrip (s ++ String c EmptyString) = rstrip s.
Proof.
  intros H. induction s as [|a s IH]; simpl.
  - now rewrite H.
  - now rewrite IH.
Qed.

Lemma strip_between_spaces (body : string) (c d : ascii) :
  is_space c = true -> is_space d = true ->
  lstrip body = body -> rstrip body = body ->
  strip (String c (body ++ String d EmptyString)) = body.
Proof.
  intros Hc Hd Hl Hr. unfold strip. simpl. rewrite Hc.
  destruct body as [|a r].
  - simpl. now rewrite Hd.
  - pose proof (lstrip_fixed_head _ _ Hl) as Ha.
    change (lstrip (String a r ++ String d EmptyString))
      with (if is_space a then lstrip (r ++ String d EmptyString)
            else String a (r ++ String d EmptyString)).
    rewrite Ha.
    change (String a (r ++ String d EmptyString))
      with (String a r ++ String d EmptyString).
    now rewrite rstrip_trailing_space.
Qed.

Lemma length_append (s t : string) :
  String.length (s ++ t) = (String.length s + String.length t)%nat.
Proof. induction s as [|a s IH]; simpl; [reflexivity | now rewrite IH]. Qed.

Lemma take_append (s t : string) : take (String.length s) (s ++ t) = s.
Proof. induction s as [|a s IH]; simpl; [now destruct t | now rewrite IH]. Qed.

Lemma take_append_more (s t : string) (n : nat) :
  take (String.length s + n) (s ++ t) = s ++ take n t.
Proof. induction s as [|a s IH]; simpl; [reflexivity | now rewrite IH]. Qed.

Lemma drop_append (s t : string) : drop (String.length s) (s ++ t) = t.
Proof. induction s as [|a s IH]; simpl; [reflexivity | exact IH]. Qed.

Lemma endswith_append (s p : string) : endswith (s ++ p) p = true.
Proof.
  unfold endswith. rewrite length_append.
  replace (String.length s + String.length p - String.length p)%nat
    with (String.length s) by lia.
  rewrite drop_append, String.eqb_refl.
  apply andb_true_iff. split; [apply Nat.leb_le; lia | reflexivity].
Qed.

Lemma drop_end_append (s p : string) : drop_end (String.length p) (s ++ p) = s.
Proof.
  unfold drop_end. rewrite length_append.
  replace (String.length s + String.length p - String.length p)%nat
    with (String.length s) by lia.
  apply take_append.
Qed.

Lemma prefix_append_same (p s : string) : String.prefix p (p ++ s) = true.
Proof.
  induction p as [|a p IH]; simpl; [now destruct s|].
  destruct (ascii_dec a a); [exact IH | contradiction].
Qed.

Lemma prefix_skip (p q s : string) :
  String.prefix (p ++ q) (p ++ s) = String.prefix q s.
Proof.
  induction p as [|a p IH]; simpl; [reflexivity|].
  destruct (ascii_dec a a); [exact IH | contradiction].
Qed.

Lemma prefix_head_differs (a c : ascii) (p s : string) :
  a <> c -> String.prefix (String a p) (String c s) = false.
Proof. intros H. simpl. destruct (ascii_dec a c); [contradiction | reflexivity]. Qed.

Lemma space_is_no_backtick (c : ascii) : is_space c = true -> "`"%char <> c.
Proof. intros H <-. discriminate. Qed.

(** The clean-up, one assignment after the other. *)
Lemma clean_up_steps (content c1 c2 c3 : string) :
  (if startswith content "```json" then drop 7 content else content) = c1 ->
  (if startswith c1 "```" then drop 3 c1 else c1) = c2 ->
  (if endswith c2 "```" then drop_end 3 c2 else c2) = c3 ->
  clean_up content = strip c3.
Proof. intros <- <- <-. reflexivity. Qed.

(** X5.  Unfencing gives back what was fenced: for a body that neither
    begins nor ends with white space, the clean-up of the body between a
    [```json] line and a [```] line, or between two [```] lines, is the
    body. *)
Theorem clean_up_recovers_fenced_body (body : string) :
  lstrip body = body -> rstrip body = body ->
  clean_up ("```json" ++ nl ++ body ++ nl ++ "```") = body
  /\ clean_up ("```" ++ nl ++ body ++ nl ++ "```") = body.
Proof.
  intros Hl Hr.
  set (inner := nl ++ body ++ nl ++ "```").
  set (bare := String "010" (body ++ nl)).
  assert (Hinner : inner = bare ++ "```").
  { subst inner bare. unfold nl. simpl. now rewrite !append_assoc. }
  assert (Hno : startswith inner "```" = false).
  { unfold inner, nl. cbn [append]. apply prefix_head_differs. discriminate. }
  assert (Hstrip : strip bare = body).
  { apply strip_between_spaces; auto. }
  assert (H3 : (if endswith inner "```" then drop_end 3 inner else inner) = bare).
  { rewrite Hinner, endswith_append. apply (drop_end_append bare "```"). }
  split; rewrite <- Hstrip.
  - apply (clean_up_steps _ inner inner bare).
    + unfold startswith. rewrite prefix_append_same.
      apply (drop_append "```json" inner).
    + now rewrite Hno.
    + exact H3.
  - apply (clean_up_steps _ ("```" ++ inner) inner bare).
    + unfold startswith.
      change "```json" with ("```" ++ "json").
      rewrite prefix_skip. unfold inner, nl. cbn [append].
      now rewrite prefix_head_differs by discriminate.
    + unfold startswith. rewrite prefix_append_same.
      apply (drop_append "```" inner).
    + exact H3.
Qed.

(** X6.  White space before the opening fence keeps the fence in place: the
    tests for the fence come before [strip], so the cleaned text still
    begins with the three backticks. *)
Theorem clean_up_keeps_fence_after_space (c : ascii) (rest : string) :
  is_space c = true ->
  startswith (clean_up (String c ("```json" ++ rest))) "```json" = true.
Proof.
  intros Hc.
  set (content := String c ("```json" ++ rest)).
  assert (Hhead : forall p, startswith content (String "`" p) = false).
  { intros p. apply prefix_head_differs, space_is_no_backtick, Hc. }
  assert (Hkept : forall t,
            startswith (strip (String c ("```json" ++ t))) "```json" = true).
  { intros t. unfold strip. rewrite (lstrip_space c _ Hc).
    cbn [append]. rewrite lstrip_head by reflexivity.
    rewrite !rstrip_head by reflexivity.
    apply (prefix_append_same "```json" (rstrip t)). }
  rewrite (clean_up_steps content content content
             (if endswith content "```" then drop_end 3 content else content));
    try reflexivity; try (now rewrite Hhead).
  destruct (endswith content "```") eqn:E; [|apply Hkept].
  assert (Hlen : (3 <= String.length rest)%nat).
  { destruct rest as [|x [|y [|z r]]]; try (cbv in E; discriminate). simpl. lia. }
  unfold drop_end, content.
  change (String c ("```json" ++ rest)) with (String c "```json" ++ rest).
  rewrite length_append.
  replace (String.length (String c "```json") + String.length rest - 3)%nat
    with (String.length (String c "```json") + (String.length rest - 3))%nat
    by (simpl; lia).
  rewrite take_append_more. apply Hkept.
Qed.

Lemma last_char_append (s : string) (a : ascii) :
  last_char (s ++ String a EmptyString) = Some a.
Proof.
  induction s as [|b s IH]; [reflexivity|].
  simpl. destruct (s ++ String a EmptyString) eqn:E; [|exact IH].
  destruct s; discriminate.
Qed.

Lemma take_drop (s : string) (n : nat) : take n s ++ drop n s = s.
Proof.
  revert n. induction s as [|a s IH]; intros [|n]; simpl; try reflexivity.
  now rewrite IH.
Qed.

Lemma endswith_last (s : string) (c : ascii) :
  "`"%char <> c -> endswith (s ++ String c EmptyString) "```" = false.
Proof.
  intros Hc. destruct (endswith _ _) eqn:E; [|reflexivity].
  unfold endswith in E. apply andb_true_iff in E as [_ E].
  apply String.eqb_eq in E.
  pose proof (take_drop (s ++ String c EmptyString)
                (String.length (s ++ String c EmptyString) - String.length "```")) as T.
  rewrite E in T. apply (f_equal last_char) in T.
  change "```" with ("``" ++ String "`" EmptyString) in T at 2.
  rewrite <- append_assoc, !last_char_append in T. congruence.
Qed.

Lemma lstrip_keeps_suffix (s q : string) (a : ascii) :
  is_space a = false ->
  exists t, lstrip (s ++ String a q) = t ++ String a q.
Proof.
  intros Ha. induction s as [|b s [t IH]].
  - exists EmptyString. simpl. now rewrite Ha.
  - cbn [append]. destruct (is_space b) eqn:Hb.
    + exists t. now rewrite lstrip_space.
    + exists (String b s). now rewrite lstrip_head.
Qed.

Lemma rstrip_keeps_end (t : string) (a : ascii) :
  is_space a = false ->
  rstrip (t ++ String a EmptyString) = t ++ String a EmptyString.
Proof.
  intros Ha. induction t as [|b t IH]; simpl.
  - now rewrite Ha.
  - rewrite IH. now destruct t.
Qed.

(** X7.  White space behind the closing fence keeps that fence in place:
    [endswith] is asked before [strip], so an answer whose last line is the
    fence followed by a line break is cleaned to a text that still ends
    with the three backticks. *)
Theorem clean_up_keeps_fence_before_space (c : ascii) (body : string) :
  is_space c = true ->
  endswith (clean_up ("```json" ++ nl ++ body ++ "```" ++ String c EmptyString))
    "```" = true.
Proof.
  intros Hc.
  set (inner := nl ++ body ++ "```" ++ String c EmptyString).
  assert (Hinner : inner = (nl ++ body) ++ String "`" ("``" ++ String c EmptyString)).
  { subst inner. now rewrite !append_assoc. }
  rewrite (clean_up_steps _ inner inner inner).
  - destruct (lstrip_keeps_suffix (nl ++ body) ("``" ++ String c EmptyString) "`"
                eq_refl) as [t Ht].
    unfold strip. rewrite Hinner, Ht.
    change (t ++ String "`" ("``" ++ String c EmptyString))
      with (t ++ (("``" ++ String "`" EmptyString) ++ String c EmptyString)).
    rewrite <- !append_assoc.
    rewrite (rstrip_trailing_space _ c Hc), rstrip_keeps_end by reflexivity.
    rewrite !append_assoc. apply (endswith_append t "```").
  - unfold startswith. rewrite prefix_append_same. apply (drop_append "```json" inner).
  - unfold inner, nl, startswith. cbn [append].
    now rewrite (prefix_head_differs "`" "010") by discriminate.
  - assert (Hlast : inner = (nl ++ body ++ "```") ++ String c EmptyString).
    { subst inner. now rewrite !append_assoc. }
    rewrite Hlast. now rewrite endswith_last by (apply space_is_no_backtick, Hc).
Qed.

End CleanUp.

Lemma clean_up_recovers_fenced_body_witness :
  clean_up ("```json" ++ PyStr.nl ++ "[88, 61]" ++ PyStr.nl ++ "```") = "[88, 61]"
  /\ clean_up ("```" ++ PyStr.nl ++ "[88, 61]" ++ PyStr.nl ++ "```") = "[88, 61]".
Proof.
  apply (clean_up_recovers_fenced_body "[88, 61]"); reflexivity.
Defined.

Lemma clean_up_keeps_fence_after_space_witness :
  PyStr.startswith (clean_up (String " " ("```json" ++ "[88]```"))) "```json" = true.
Proof.
  apply (clean_up_keeps_fence_after_space " " "[88]```"). reflexivity.
Defined.

Lemma clean_up_keeps_fence_before_space_witness :
  PyStr.endswith
    (clean_up ("```json" ++ PyStr.nl ++ "[88]" ++ "```" ++ String "010" EmptyString))
    "```" = true.
Proof.
  apply (clean_up_keeps_fence_before_space "010" "[88]"). reflexivity.
Defined.

(** ** hex_to_rgb *)

Section HexToRgb.

Import PyInt.

Lemma digit16_facts (a : ascii) (v : Z) :
  digit16 a = Some v ->
  0 <= v < 16
  /\ is_space a = false
  /\ Ascii.eqb a "+" = false /\ Ascii.eqb a "-" = false
  /\ Ascii.eqb a "_" = false /\ Ascii.eqb a "x" = false
  /\ Ascii.eqb a "X" = false /\ Ascii.eqb a "#" = false.
Proof.
  destruct a as [[] [] [] [] [] [] [] []]; cbv; intros H;
    try discriminate; injection H as <-; repeat split; discriminate.
Qed.

Lemma int16_pair (a b : ascii) (va vb : Z) :
  digit16 a = Some va -> digit16 b = Some vb ->
  int16 (String a (String b EmptyString)) = Returned (16 * va + vb).
Proof.
  intros Ha Hb.
  destruct (digit16_facts a va Ha) as (_ & Sa & Pa & Ma & Ua & _).
  destruct (digit16_facts b vb Hb) as (_ & _ & _ & _ & Ub & Xb & XXb & _).
  unfold int16. cbn [skip_space]. rewrite Sa. cbn [sign_of]. rewrite Pa, Ma.
  cbn [skip_prefix]. rewrite Xb, XXb, andb_false_r.
  rewrite Ha. cbn [digits16]. rewrite Ua, Ha, Ub, Hb. cbn [all_space].
  f_equal. lia.
Qed.

Lemma int16_raises (s : string) (e : exn) : int16 s = Raised e -> e = ValueError.
Proof.
  unfold int16. destruct (sign_of (skip_space s)) as [sign s1].
  destruct (skip_prefix s1) as [|c s2]; [now intros [= <-]|].
  destruct (digit16 c); [|now intros [= <-]].
  destruct (digits16 0 false (String c s2)) as [[v rest]|]; [|now intros [= <-]].
  destruct (all_space rest); [discriminate | now intros [= <-]].
Qed.

Lemma lstrip_hash_hashes (k : nat) (a : ascii) (s : string) :
  Ascii.eqb a "#" = false ->
  lstrip_hash (hashes k ++ String a s) = String a s.
Proof.
  intros H. induction k as [|k IH]; simpl; [now rewrite H | exact IH].
Qed.

(** X8.  For six hexadecimal digits, behind any number of [#] and before
    anything at all, [hex_to_rgb] returns the three bytes the digit pairs
    stand for, each from 0 to 255; what follows the sixth digit is not
    looked at. *)
Theorem hex_to_rgb_six_digits
  (k : nat) (r1 r2 g1 g2 b1 b2 : ascii) (vr1 vr2 vg1 vg2 vb1 vb2 : Z) (tail : string) :
  digit16 r1 = Some vr1 -> digit16 r2 = Some vr2 ->
  digit16 g1 = Some vg1 -> digit16 g2 = Some vg2 ->
  digit16 b1 = Some vb1 -> digit16 b2 = Some vb2 ->
  let r := 16 * vr1 + vr2 in
  let g := 16 * vg1 + vg2 in
  let b := 16 * vb1 + vb2 in
  hex_to_rgb (hashes k
              ++ String r1 (String r2 (String g1 (String g2 (String b1 (String b2 tail))))))
  = Returned (r, g, b)
  /\ 0 <= r <= 255 /\ 0 <= g <= 255 /\ 0 <= b <= 255.
Proof.
  intros Hr1 Hr2 Hg1 Hg2 Hb1 Hb2 r g b.
  destruct (digit16_facts _ _ Hr1) as (Br1 & _ & _ & _ & _ & _ & _ & Hh).
  destruct (digit16_facts _ _ Hr2) as (Br2 & _).
  destruct (digit16_facts _ _ Hg1) as (Bg1 & _).
  destruct (digit16_facts _ _ Hg2) as (Bg2 & _).
  destruct (digit16_facts _ _ Hb1) as (Bb1 & _).
  destruct (digit16_facts _ _ Hb2) as (Bb2 & _).
  split; [|subst r g b; lia].
  unfold hex_to_rgb. rewrite (lstrip_hash_hashes k r1 _ Hh).
  unfold slice. cbn [Nat.sub PyStr.drop PyStr.take].
  assert (Hcut : forall a c s, PyStr.take 2 (String a (String c s))
                               = String a (String c EmptyString)).
  { intros a c s. simpl. now destruct s. }
  rewrite ?Hcut.
  rewrite (int16_pair _ _ _ _ Hr1 Hr2), (int16_pair _ _ _ _ Hg1 Hg2).
  cbn [bind].
  replace (PyStr.take 2 (String b1 (String b2 tail)))
    with (String b1 (String b2 EmptyString)) by (now destruct tail).
  now rewrite (int16_pair _ _ _ _ Hb1 Hb2).
Qed.

Lemma hex_to_rgb_six_digits_witness :
  hex_to_rgb primary_blue = Returned (0, 4, 53)
  /\ hex_to_rgb "##FFa07a80" = Returned (255, 160, 122).
Proof.
  split.
  - exact (proj1 (hex_to_rgb_six_digits 1 "0" "0" "0" "4" "3" "5" 0 0 0 4 3 5
                    EmptyString eq_refl eq_refl eq_refl eq_refl eq_refl eq_refl)).
  - exact (proj1 (hex_to_rgb_six_digits 2 "F" "F" "a" "0" "7" "a" 15 15 10 0 7 10
                    "80" eq_refl eq_refl eq_refl eq_refl eq_refl eq_refl)).
Defined.

(** X9.  A colour with fewer than five characters behind its leading [#],
    the three-digit short form among them, makes [hex_to_rgb] raise
    ValueError: the slice for the blue byte is empty. *)
Theorem hex_to_rgb_short_colour (hex_color : string) :
  (String.length (lstrip_hash hex_color) <= 4)%nat ->
  hex_to_rgb hex_color = Raised ValueError.
Proof.
  intros Hlen. unfold hex_to_rgb.
  assert (Hblue : slice 4 6 (lstrip_hash hex_color) = EmptyString).
  { destruct (lstrip_hash hex_color) as [|a [|b [|c [|d [|e s]]]]];
      try reflexivity. simpl in Hlen. lia. }
  rewrite Hblue.
  destruct (int16 (slice 0 2 _)) as [r|e] eqn:R; cbn [bind].
  - destruct (int16 (slice 2 4 _)) as [g|e] eqn:G; cbn [bind].
    + reflexivity.
    + now rewrite (int16_raises _ _ G).
  - now rewrite (int16_raises _ _ R).
Qed.

Lemma hex_to_rgb_short_colour_witness :
  hex_to_rgb "#fff" = Raised ValueError /\ hex_to_rgb "#" = Raised ValueError.
Proof.
  split; apply hex_to_rgb_short_colour; simpl; lia.
Defined.

End HexToRgb.

(** ** More of the loop over the CV files *)

Section CandidateLoop.

Variable X : externals.
Variable self : CVEvaluator.
Variables job_title company department location work_mode : string.

Let step := process_cv X self job_title company department.
Let status_of := candidate_status X self job_title company department.
Let statuses_of := statuses X self job_title company department.

Lemma fold_empty_pages (pages : list string) (text : string) :
  Forall (fun page => page = EmptyString) pages ->
  fold_left (fun text page => text ++ page) pages text = text.
Proof.
  intros H. revert text. induction H as [|p pages -> _ IH]; intros text; simpl.
  - reflexivity.
  - now rewrite append_nil_r.
Qed.

(** X10.  A PDF that is read but has no text on any page, a scan for one,
    is passed over like a file that cannot be read: nothing is posted for
    it and nothing appended. *)
Theorem pages_without_text_are_skipped
  (pages : list string) (evaluations : list pyval) (w : world) (cv_file : string) :
  read_pdf X cv_file = Some pages ->
  Forall (fun page => page = EmptyString) pages ->
  extract_text_from_pdf X cv_file = Some EmptyString
  /\ step (evaluations, w) cv_file = (evaluations, w)
  /\ status_of w cv_file = SkippedExtraction.
Proof.
  intros Hread Hpages.
  assert (E : extract_text_from_pdf X cv_file = Some EmptyString).
  { unfold extract_text_from_pdf. now rewrite Hread, fold_empty_pages. }
  subst step status_of. unfold process_cv, candidate_status. now rewrite E.
Qed.

(** What one turn posts: nothing for a candidate without text, between one
    and three requests for any other. *)
Lemma process_cv_posts (evaluations : list pyval) (w : world) (cv_file : string) :
  exists posted,
    snd (step (evaluations, w) cv_file) = (w ++ posted)%list
    /\ if was_called (status_of w cv_file)
       then (1 <= List.length posted <= 3)%nat
       else posted = [].
Proof.
  subst step status_of. unfold process_cv, candidate_status.
  destruct (extract_text_from_pdf X cv_file) as [cv_text|];
    [|exists []; simpl; now rewrite app_nil_r].
  destruct (String.eqb cv_text EmptyString);
    [exists []; simpl; now rewrite app_nil_r|].
  destruct (call_deepseek_api X self _ 3 w) as [w1 o] eqn:E.
  destruct (call_deepseek_api_posts _ _ _ _ _ _ E) as (j & Hj & ->).
  exists (repeat (evaluation_payload self
                    (create_evaluation_prompt self cv_text (candidate_name_of X cv_file)
                       job_title company department)) j).
  rewrite repeat_length. cbn [snd].
  destruct o as [evaluation|e]; [destruct (Py.truthy evaluation)|]; now split.
Qed.

Lemma fold_posts (cv_files : list string) (evaluations : list pyval) (w : world) :
  exists posted,
    snd (fold_left step cv_files (evaluations, w)) = (w ++ posted)%list
    /\ (List.length (filter was_called (statuses_of w cv_files))
        <= List.length posted
        <= 3 * List.length (filter was_called (statuses_of w cv_files)))%nat.
Proof.
  revert evaluations w. induction cv_files as [|f rest IH]; intros evaluations w.
  - exists []. simpl. rewrite app_nil_r. split; [reflexivity | lia].
  - subst statuses_of. cbn [fold_left statuses filter].
    destruct (process_cv_status X self job_title company department evaluations w f)
      as [Hs _].
    cbv zeta in Hs. fold step in Hs |- *. rewrite Hs.
    destruct (process_cv_posts [] w f) as (p1 & H1 & B1).
    fold status_of. rewrite H1.
    destruct (IH (evaluations ++ fst (step ([], w) f))%list (w ++ p1)%list)
      as (p2 & H2 & B2).
    exists (p1 ++ p2)%list. rewrite H2, app_assoc, length_app. split; [reflexivity|].
    destruct (was_called (status_of w f)); simpl; [lia | subst p1; simpl; lia].
Qed.

Lemma generate_overall_summary_posts (evaluations : list pyval) (w : world) :
  exists posted,
    fst (generate_overall_summary X self evaluations job_title w) = (w ++ posted)%list
    /\ (List.length posted <= 1)%nat.
Proof.
  unfold generate_overall_summary.
  destruct evaluations as [|top [|second rest]];
    try (exists []; simpl; rewrite app_nil_r; split; [reflexivity | lia]).
  destruct (mapM candidate_info _) as [infos|e];
    [|exists []; simpl; rewrite app_nil_r; split; [reflexivity | lia]].
  unfold post. eexists [_]. destruct (try_summary _); simpl; split; try reflexivity; lia.
Qed.

(** X11.  A run only adds to the requests posted, and it adds at least one
    and at most three for every candidate whose PDF gave text, nothing for
    the others, and at most one more for the summary. *)
Theorem evaluate_candidates_posts (cv_files : list string) (w : world) :
  let called := List.length (filter was_called (statuses_of w cv_files)) in
  exists posted,
    fst (evaluate_candidates X self cv_files job_title company department
           location work_mode w) = (w ++ posted)%list
    /\ (called <= List.length posted <= 3 * called + 1)%nat
    /\ (called <= List.length cv_files)%nat.
Proof.
  intros called.
  assert (Hcalled : (called <= List.length cv_files)%nat).
  { subst called statuses_of.
    destruct (fold_process_cv X self job_title company department cv_files [] w)
      as (_ & _ & <-).
    apply filter_length_le. }
  destruct (fold_posts cv_files [] w) as (p1 & H1 & B1). fold called in B1.
  unfold evaluate_candidates. fold step.
  destruct (fold_left step cv_files ([], w)) as [evaluations w1]. cbn [snd] in H1.
  subst w1.
  destruct (sort_reverse match_score evaluations) as [sorted|e].
  - destruct (generate_overall_summary_posts sorted (w ++ p1)%list) as (p2 & H2 & B2).
    destruct (generate_overall_summary X self sorted job_title (w ++ p1)%list)
      as [w2 [summary|e]]; cbn [fst] in H2 |- *; subst w2;
      exists (p1 ++ p2)%list; rewrite app_assoc, length_app; repeat split; lia.
  - exists p1. cbn [fst]. repeat split; lia.
Qed.

(** X12.  When no CV gives any text, and so for an empty list of files, the
    run posts nothing and returns the report without candidates: a count of
    0 and the fixed summary. *)
Theorem evaluate_candidates_without_text (cv_files : list string) (w : world) :
  Forall (fun cv_file => extract_text_from_pdf X cv_file = None
                         \/ extract_text_from_pdf X cv_file = Some EmptyString)
    cv_files ->
  evaluate_candidates X self cv_files job_title company department
    location work_mode w
  = (w, Returned (report_of X [] "No candidates were evaluated."
                    job_title company department location work_mode)).
Proof.
  intros H. unfold evaluate_candidates. fold step.
  assert (Hfold : fold_left step cv_files ([], w) = ([], w)).
  { induction H as [|f rest Hf _ IH]; [reflexivity|].
    cbn [fold_left]. replace (step ([], w) f) with (@pair (list pyval) world [] w);
      [exact IH|].
    subst step. unfold process_cv. now destruct Hf as [-> | ->]. }
  now rewrite Hfold.
Qed.

End CandidateLoop.

Lemma pages_without_text_are_skipped_witness :
  extract_text_from_pdf (Trial.externals_of Trial.three_answers true []) Trial.scan_pdf
  = Some EmptyString
  /\ process_cv (Trial.externals_of Trial.three_answers true []) Run.evaluator
       Run.title Run.company Run.department ([Run.ada], []) Trial.scan_pdf
     = ([Run.ada], [])
  /\ candidate_status (Trial.externals_of Trial.three_answers true []) Run.evaluator
       Run.title Run.company Run.department [] Trial.scan_pdf
     = SkippedExtraction.
Proof.
  apply (pages_without_text_are_skipped
           (Trial.externals_of Trial.three_answers true []) Run.evaluator
           Run.title Run.company Run.department [EmptyString; EmptyString]).
  - reflexivity.
  - repeat constructor.
Defined.

Lemma evaluate_candidates_without_text_witness :
  evaluate_candidates (Trial.externals_of Trial.three_answers true []) Run.evaluator
    ["missing.pdf"; Trial.scan_pdf] Run.title Run.company Run.department
    Run.location EmptyString []
  = ([], Returned (report_of (Trial.externals_of Trial.three_answers true []) []
                     "No candidates were evaluated."
                     Run.title Run.company Run.department Run.location EmptyString)).
Proof.
  apply (evaluate_candidates_without_text
           (Trial.externals_of Trial.three_answers true []) Run.evaluator
           Run.title Run.company Run.department Run.location EmptyString).
  constructor; [left; reflexivity|].
  constructor; [right; reflexivity | constructor].
Defined.

(** ** What a run returns and when it does not *)

Section Reports.

Variable X : externals.
Variable self : CVEvaluator.
Variables job_title company department location work_mode : string.

Let gathered (cv_files : list string) (w : world) : list pyval :=
  fst (fold_left (process_cv X self job_title company department) cv_files ([], w)).
Let after_loop (cv_files : list string) (w : world) : world :=
  snd (fold_left (process_cv X self job_title company department) cv_files ([], w)).

Lemma mapM_raises {A B : Type} (f : A -> outcome B) (l : list A) (x : A) (e : exn) :
  In x l -> f x = Raised e ->
  exists y e', In y l /\ f y = Raised e' /\ mapM f l = Raised e'.
Proof.
  induction l as [|a l IH]; [intros []|].
  intros Hin Hx. simpl. destruct (f a) as [b|e0] eqn:Fa.
  - destruct Hin as [->|Hin]; [congruence|].
    destruct (IH Hin Hx) as (y & e' & Hy & Fy & ->).
    exists y, e'. simpl. repeat split; [now right | exact Fy].
  - exists a, e0. simpl. repeat split; [now left | exact Fa].
Qed.

Lemma match_score_raises (e : pyval) (err : exn) :
  match_score e = Raised err -> err = KeyError \/ err = TypeError.
Proof.
  unfold match_score, Py.getitem.
  destruct e as [| | | | |d]; try (intros [= <-]; now right).
  destruct (Py.lookup "match_score" d); [discriminate | intros [= <-]; now left].
Qed.

(** X13.  Every candidate of a returned report is a JSON object with a
    [match_score], and the candidates are the evaluations gathered, each of
    them once. *)
Theorem report_candidates_are_scored
  (cv_files : list string) (w w2 : world) (report : pyval) :
  evaluate_candidates X self cv_files job_title company department
    location work_mode w = (w2, Returned report) ->
  exists candidates,
    Py.getitem report "candidates" = Returned (PList candidates)
    /\ Permutation (gathered cv_files w) candidates
    /\ Forall (fun e => exists d score,
                 e = PDict d /\ Py.lookup "match_score" d = Some score)
         candidates.
Proof.
  intros H.
  destruct (evaluate_candidates_returned _ _ _ _ _ _ _ _ _ _ _ H)
    as (sorted & summary & Hsort & _ & ->).
  exists sorted. split; [reflexivity|]. fold (gathered cv_files w) in Hsort.
  pose proof (sort_reverse_perm _ _ _ Hsort) as Hperm.
  split; [exact Hperm|].
  eapply Permutation_Forall; [exact Hperm|].
  unfold sort_reverse in Hsort.
  destruct (mapM (with_key match_score) (gathered cv_files w)) as [ks|] eqn:K;
    [|discriminate].
  destruct (mapM_with_key _ _ _ K) as [<- Hk].
  apply Forall_map. eapply Forall_impl; [|exact Hk].
  intros [k e] Hke. cbn [fst snd] in *. unfold match_score, Py.getitem in Hke.
  destruct e as [| | | | |d]; try discriminate.
  destruct (Py.lookup "match_score" d) as [score|] eqn:L; [|discriminate].
  now exists d, score.
Qed.

(** X14.  One evaluation without a [match_score] among those gathered makes
    the whole run raise, a KeyError or a TypeError, once every evaluation
    call has been made: no report is returned and no summary is asked
    for. *)
Theorem unscored_evaluation_aborts_the_run
  (cv_files : list string) (w : world) (e : pyval) (err : exn) :
  In e (gathered cv_files w) ->
  match_score e = Raised err ->
  exists err',
    (err' = KeyError \/ err' = TypeError)
    /\ evaluate_candidates X self cv_files job_title company department
         location work_mode w = (after_loop cv_files w, Raised err').
Proof.
  intros Hin He.
  destruct (mapM_raises (with_key match_score) (gathered cv_files w) e err Hin)
    as (y & err' & _ & Hy & Hm).
  { unfold with_key. now rewrite He. }
  exists err'. split.
  - apply (match_score_raises y). unfold with_key in Hy.
    destruct (match_score y); [discriminate | simpl in Hy; now injection Hy as ->].
  - unfold evaluate_candidates, sort_reverse. subst gathered after_loop. cbv beta in *.
    destruct (fold_left _ cv_files ([], w)) as [evaluations w1]. cbn [fst snd] in *.
    now rewrite Hm.
Qed.

(** X15.  When every evaluation gathered has a name, an integer score and a
    string for rating summary, the run returns a report, whatever becomes
    of the summary call, and the report counts all of them. *)
Theorem shaped_evaluations_give_a_report (cv_files : list string) (w : world) :
  Forall shaped (gathered cv_files w) ->
  exists w2 report,
    evaluate_candidates X self cv_files job_title company department
      location work_mode w = (w2, Returned report)
    /\ Py.getitem report "total_candidates"
       = Returned (PInt (Z.of_nat (List.length (gathered cv_files w)))).
Proof.
  intros Hshape.
  destruct (evaluate_candidates_returns X self job_title company department
              location work_mode cv_files w Hshape) as (w2 & report & H).
  exists w2, report. split; [exact H|].
  destruct (evaluate_candidates_returned _ _ _ _ _ _ _ _ _ _ _ H)
    as (sorted & summary & Hsort & _ & ->).
  fold (gathered cv_files w) in Hsort.
  simpl. now rewrite (Permutation_length (sort_reverse_perm _ _ _ Hsort)).
Qed.

End Reports.

Lemma report_candidates_are_scored_witness :
  exists candidates,
    Py.getitem (report_of Run.all_evaluated [Run.bob; Run.ada; Run.cy]
                  "Bob Marley leads; Ada Lovelace and Cy Young follow."
                  Run.title Run.company Run.department Run.location EmptyString)
      "candidates" = Returned (PList candidates)
    /\ Permutation
         (fst (fold_left (process_cv Run.all_evaluated Run.evaluator
                            Run.title Run.company Run.department)
                 Run.all_three ([], [])))
         candidates
    /\ Forall (fun e => exists d score,
                 e = PDict d /\ Py.lookup "match_score" d = Some score)
         candidates.
Proof.
  apply (report_candidates_are_scored Run.all_evaluated Run.evaluator
           Run.title Run.company Run.department Run.location EmptyString
           Run.all_three []
           (fst (evaluate_candidates Run.all_evaluated Run.evaluator Run.all_three
                   Run.title Run.company Run.department Run.location EmptyString []))).
  vm_compute. reflexivity.
Defined.

Lemma unscored_evaluation_aborts_the_run_witness :
  exists w1,
    evaluate_candidates
      (Trial.externals_of
         [Run.says "ada lovelace" 88; Run.answers Trial.unscored_text;
          Run.says "cy young" 88] true [])
      Run.evaluator Run.all_three
      Run.title Run.company Run.department Run.location EmptyString []
    = (w1, Raised KeyError)
    /\ List.length w1 = 3%nat.
Proof.
  destruct (unscored_evaluation_aborts_the_run
              (Trial.externals_of
                 [Run.says "ada lovelace" 88; Run.answers Trial.unscored_text;
                  Run.says "cy young" 88] true [])
              Run.evaluator Run.title Run.company Run.department Run.location
              EmptyString Run.all_three []
              (PDict [("candidate_name", PStr "bob marley")]) KeyError)
    as (err' & _ & H).
  - vm_compute. right. left. reflexivity.
  - reflexivity.
  - eexists. split.
    + rewrite H. f_equal. vm_compute in H. now injection H as <-.
    + vm_compute. reflexivity.
Defined.

Lemma shaped_evaluations_give_a_report_witness :
  exists w2 report,
    evaluate_candidates Run.summary_down Run.evaluator Run.all_three
      Run.title Run.company Run.department Run.location EmptyString []
    = (w2, Returned report)
    /\ Py.getitem report "total_candidates" = Returned (PInt 3).
Proof.
  destruct (shaped_evaluations_give_a_report Run.summary_down Run.evaluator
              Run.title Run.company Run.department Run.location EmptyString
              Run.all_three [])
    as (w2 & report & H & T).
  - vm_compute. repeat constructor; do 4 eexists; repeat split; reflexivity.
  - exists w2, report. split; [exact H|].
    rewrite T. vm_compute. reflexivity.
Defined.

(** ** The sort, once more *)

Section SortAgain.

Let not_less (y x : keyed) : Prop := Py.lt (fst x) (fst y) = Some false.

Lemma insort_behind_all (x : keyed) (sorted : list keyed) :
  Forall (fun y => not_less y x) sorted ->
  insort x sorted = Returned (sorted ++ [x])%list.
Proof.
  induction 1 as [|y rest Hy _ IH]; simpl; [reflexivity|].
  unfold not_less in Hy. now rewrite Hy, IH.
Qed.

Lemma StronglySorted_before {A : Type} (R : A -> A -> Prop) (l1 l2 : list A) (x : A) :
  StronglySorted R (l1 ++ x :: l2) -> Forall (fun y => R y x) l1.
Proof.
  induction l1 as [|a l1 IH]; simpl; intros H; [constructor|].
  apply StronglySorted_inv in H as [H Ha].
  constructor; [|now apply IH].
  rewrite Forall_forall in Ha. apply Ha, in_elt.
Qed.

Lemma sort_from_in_order (pending sorted : list keyed) :
  StronglySorted not_less (sorted ++ pending) ->
  sort_from sorted pending = Returned (sorted ++ pending)%list.
Proof.
  revert sorted. induction pending as [|x rest IH]; intros sorted H; simpl.
  - now rewrite app_nil_r.
  - rewrite (insort_behind_all x sorted (StronglySorted_before _ _ _ _ H)). simpl.
    rewrite IH; rewrite <- app_assoc; [reflexivity | exact H].
Qed.

Lemma StronglySorted_unmap {A B : Type} (R : B -> B -> Prop) (f : A -> B) (l : list A) :
  StronglySorted R (map f l) -> StronglySorted (fun a b => R (f a) (f b)) l.
Proof.
  induction l as [|a l IH]; simpl; intros H; [constructor|].
  apply StronglySorted_inv in H as [H Ha].
  constructor; [now apply IH|].
  apply Forall_forall. intros b Hb. rewrite Forall_forall in Ha.
  apply Ha. now apply in_map.
Qed.

Lemma StronglySorted_among {A : Type} (R R' : A -> A -> Prop) (l : list A) :
  (forall a b, In a l -> In b l -> R a b -> R' a b) ->
  StronglySorted R l -> StronglySorted R' l.
Proof.
  intros H S. rewrite <- (map_id l).
  exact (StronglySorted_map_in R R' (fun a => a) l H S).
Qed.

Lemma descending_is_fixed (l : list pyval) :
  Forall (fun e => exists z, score_of e = Some z) l ->
  descending l ->
  sort_reverse match_score l = Returned l.
Proof.
  intros Hnum Hdesc.
  destruct (mapM_with_key_total match_score l) as [ks K].
  { eapply Forall_impl; [|exact Hnum]. intros e [z Hz]. unfold score_of in Hz.
    destruct (match_score e) as [k|]; [now exists k | discriminate]. }
  destruct (mapM_with_key _ _ _ K) as [Hm Hkeys].
  assert (Hz : forall kx, In kx ks ->
            exists z, Py.num_of (fst kx) = Some z /\ score_z (snd kx) = z).
  { intros kx Hin. rewrite Forall_forall in Hnum, Hkeys.
    destruct (Hnum (snd kx)) as [z Hs]; [rewrite <- Hm; now apply in_map|].
    exists z. unfold score_z. rewrite Hs. split; [|reflexivity].
    unfold score_of in Hs. now rewrite (Hkeys _ Hin) in Hs. }
  unfold sort_reverse. rewrite K. cbn [bind].
  rewrite (sort_from_in_order (rev ks) []).
  - cbn [bind app]. now rewrite rev_involutive, Hm.
  - cbn [app]. rewrite <- Hm in Hdesc. apply StronglySorted_unmap in Hdesc.
    apply StronglySorted_rev in Hdesc.
    eapply StronglySorted_among; [|exact Hdesc].
    intros a b Ha Hb Hab. cbv beta in Hab.
    destruct (Hz a) as (za & Na & Sa); [now apply in_rev|].
    destruct (Hz b) as (zb & Nb & Sb); [now apply in_rev|].
    unfold not_less. rewrite (lt_numeric _ _ _ _ Nb Na). f_equal.
    apply Z.ltb_ge. lia.
Qed.

(** X16.  Sorting again changes nothing: for evaluations with integer match
    scores, what the sort returns is returned unchanged when it is sorted
    once more. *)
Theorem sort_reverse_is_idempotent (l sorted : list pyval) :
  Forall (fun e => exists z, score_of e = Some z) l ->
  sort_reverse match_score l = Returned sorted ->
  sort_reverse match_score sorted = Returned sorted.
Proof.
  intros Hnum Hsort.
  destruct (sort_by_match_score l Hnum) as (s & Hs & Hperm & Hdesc & _).
  rewrite Hsort in Hs. injection Hs as <-.
  apply descending_is_fixed; [|exact Hdesc].
  eapply Permutation_Forall; eassumption.
Qed.

End SortAgain.

Lemma sort_reverse_is_idempotent_witness :
  sort_reverse match_score [Run.bob; Run.ada; Run.cy]
  = Returned [Run.bob; Run.ada; Run.cy].
Proof.
  apply (sort_reverse_is_idempotent [Run.ada; Run.bob; Run.cy]).
  - repeat constructor; eexists; reflexivity.
  - vm_compute. reflexivity.
Defined.

(** ** Names and prompts *)

Section Prompts.

Import PyStr.

Variable X : externals.
Variable self : CVEvaluator.

Lemma replace_length (a b : ascii) (s : string) :
  String.length (replace a b s) = String.length s.
Proof. induction s as [|c s IH]; simpl; [reflexivity | now rewrite IH]. Qed.

Lemma replace_removes (a b : ascii) (s : string) :
  Ascii.eqb b a = false -> has_char a (replace a b s) = false.
Proof.
  intros H. induction s as [|c s IH]; simpl; [reflexivity|].
  rewrite IH, orb_false_r. destruct (Ascii.eqb c a) eqn:E; [exact H | exact E].
Qed.

Lemma replace_brings_none (a b c : ascii) (s : string) :
  Ascii.eqb b a = false -> has_char a s = false -> has_char a (replace c b s) = false.
Proof.
  intros H. induction s as [|d s IH]; simpl; [reflexivity|].
  intros Hs. apply orb_false_iff in Hs as [Hd Hs].
  rewrite (IH Hs), orb_false_r. now destruct (Ascii.eqb d c).
Qed.

Lemma replace_absent (a b : ascii) (s : string) :
  has_char a s = false -> replace a b s = s.
Proof.
  induction s as [|c s IH]; simpl; [reflexivity|].
  intros H. apply orb_false_iff in H as [Hc Hs]. now rewrite Hc, IH.
Qed.

(** X17.  The candidate name is the stem of the file name with every
    underscore and every hyphen turned into a space: it holds neither of
    the two, is as long as the stem, and is the stem itself when the stem
    holds neither. *)
Theorem candidate_name_has_no_separators (cv_file : string) :
  let name := candidate_name_of X cv_file in
  has_char "_" name = false
  /\ has_char "-" name = false
  /\ String.length name = String.length (path_stem X cv_file)
  /\ (has_char "_" (path_stem X cv_file) = false ->
      has_char "-" (path_stem X cv_file) = false ->
      name = path_stem X cv_file).
Proof.
  unfold candidate_name_of. repeat split.
  - apply replace_brings_none; [reflexivity|]. now apply replace_removes.
  - now apply replace_removes.
  - now rewrite !replace_length.
  - intros H1 H2. now rewrite (replace_absent "_" " " _ H1), (replace_absent "-" " " _ H2).
Qed.

Lemma join_contains (sep : string) (parts : list string) (part : string) :
  In part parts -> contains (join sep parts) part.
Proof.
  unfold join. induction parts as [|x parts IH]; [intros []|].
  intros [->|Hin].
  - destruct parts; [apply contains_refl | apply contains_app_l, contains_refl].
  - destruct parts as [|y parts]; [destruct Hin|].
    change (String.concat sep (x :: y :: parts))
      with (x ++ sep ++ String.concat sep (y :: parts)).
    apply contains_app_r, contains_app_r, IH, Hin.
Qed.

(** X18.  The evaluation prompt carries what it was built from, unchanged:
    the whole CV text, the candidate name in the JSON template, the role,
    the company and the department, and the job description where the
    evaluator has a non-empty one. *)
Theorem create_evaluation_prompt_carries_inputs
  (cv_text candidate_name job_title company department : string) :
  let prompt := create_evaluation_prompt self cv_text candidate_name
                  job_title company department in
  contains prompt cv_text
  /\ contains prompt (quoted "candidate_name" ++ ": " ++ quoted candidate_name)
  /\ contains prompt ("- Role: " ++ job_title)
  /\ contains prompt ("- Company: " ++ company)
  /\ contains prompt ("- Department: " ++ department)
  /\ match job_description self with
     | Some description =>
         description <> EmptyString ->
         contains prompt ("- Job Description: " ++ description)
     | None => True
     end.
Proof.
  intros prompt. subst prompt. unfold create_evaluation_prompt.
  split; [apply unlines_contains; simpl; tauto|].
  split; [|split; [apply unlines_contains; simpl; tauto|]].
  { eapply contains_trans.
    - apply unlines_contains. do 26 right. left. reflexivity.
    - apply contains_app_r.
      rewrite <- !append_assoc. apply contains_app_l.
      rewrite !append_assoc. apply contains_refl. }
  split; [apply unlines_contains; simpl; tauto|].
  split; [apply unlines_contains; simpl; tauto|].
  destruct (job_description self) as [description|] eqn:J; [|exact I].
  intros Hne. eapply contains_trans.
  - apply unlines_contains. do 6 right. left. reflexivity.
  - unfold job_description_line. rewrite J.
    destruct (String.eqb_spec description EmptyString); [contradiction|].
    apply contains_refl.
Qed.

(** X19.  With two or more evaluations that have the fields the summary
    reads and an answer whose content is a string, the summary is that
    content stripped; exactly one request is posted for it, and its prompt
    holds one line for every evaluation. *)
Theorem generate_overall_summary_from_answer
  (job_title : string) (evaluations : list pyval) (infos : list string)
  (w : world) (result : pyval) (content : string) :
  (2 <= List.length evaluations)%nat ->
  mapM candidate_info evaluations = Returned infos ->
  endpoint X (List.length w) = Body result ->
  message_content result = Returned (PStr content) ->
  let prompt := summary_prompt (join nl infos) job_title in
  generate_overall_summary X self evaluations job_title w
  = ((w ++ [summary_payload self prompt])%list, Returned (strip content))
  /\ List.length infos = List.length evaluations
  /\ Forall (contains prompt) infos.
Proof.
  intros Hlen Hinfos He Hm prompt. repeat split.
  - destruct evaluations as [|top [|second rest]]; simpl in Hlen; try lia.
    unfold generate_overall_summary. rewrite Hinfos. unfold post, try_summary.
    rewrite He, Hm. reflexivity.
  - clear - Hinfos. revert infos Hinfos.
    induction evaluations as [|e l IH]; simpl; intros infos.
    + now intros [= <-].
    + destruct (candidate_info e); simpl; [|discriminate].
      destruct (mapM candidate_info l) as [rest|]; simpl; [|discriminate].
      intros [= <-]. simpl. now rewrite (IH rest eq_refl).
  - apply Forall_forall. intros info Hin. subst prompt. unfold summary_prompt.
    eapply contains_trans.
    + apply join_contains. do 3 right. left. reflexivity.
    + apply join_contains, Hin.
Qed.

End Prompts.

Lemma candidate_name_has_no_separators_witness :
  candidate_name_of Run.all_evaluated "report.pdf" = "report".
Proof.
  apply (candidate_name_has_no_separators Run.all_evaluated "report.pdf");
    reflexivity.
Defined.

Lemma create_evaluation_prompt_carries_inputs_witness :
  PyStr.contains
    (create_evaluation_prompt (init "sk-test" (Some "Builds compilers."))
       "Ada Lovelace - analyst" "ada lovelace" Run.title Run.company Run.department)
    "- Job Description: Builds compilers.".
Proof.
  apply (create_evaluation_prompt_carries_inputs
           (init "sk-test" (Some "Builds compilers."))
           "Ada Lovelace - analyst" "ada lovelace" Run.title Run.company Run.department).
  discriminate.
Defined.

Lemma generate_overall_summary_from_answer_witness :
  exists prompt,
    generate_overall_summary
      (Trial.externals_of [Run.answers "  Bob Marley leads.  "] true [])
      Run.evaluator [Run.bob; Run.ada; Run.cy] Run.title []
    = ([summary_payload Run.evaluator prompt], Returned "Bob Marley leads.").
Proof.
  eexists.
  refine (proj1 (generate_overall_summary_from_answer
                   (Trial.externals_of [Run.answers "  Bob Marley leads.  "] true [])
                   Run.evaluator Run.title [Run.bob; Run.ada; Run.cy] _ []
                   (chat_response (PStr "  Bob Marley leads.  "))
                   "  Bob Marley leads.  " _ _ eq_refl eq_refl)).
  - simpl. lia.
  - vm_compute. reflexivity.
Defined.

(** ** The requests of a run *)

Section Requests.

Variable X : externals.
Variable self : CVEvaluator.
Variables job_title company department location work_mode : string.

Let step := process_cv X self job_title company department.
Let asked := asks_evaluation X self job_title company department.

Lemma asked_later (cv_file : string) (cv_files : list string) (r : request) :
  asked cv_files r -> asked (cv_file :: cv_files) r.
Proof.
  intros (f & t & Hin & H). exists f, t. split; [now right | exact H].
Qed.

Lemma process_cv_requests (evaluations : list pyval) (w : world) (cv_file : string) :
  exists posted,
    snd (step (evaluations, w) cv_file) = (w ++ posted)%list
    /\ Forall (asked [cv_file]) posted.
Proof.
  subst step. unfold process_cv.
  destruct (extract_text_from_pdf X cv_file) as [cv_text|] eqn:T;
    [|exists []; simpl; now rewrite app_nil_r].
  destruct (String.eqb_spec cv_text EmptyString) as [|Hne];
    [exists []; simpl; now rewrite app_nil_r|].
  destruct (call_deepseek_api X self _ 3 w) as [w1 o] eqn:E.
  destruct (call_deepseek_api_posts _ _ _ _ _ _ E) as (j & _ & ->).
  eexists. split.
  - destruct o as [evaluation|e]; [destruct (Py.truthy evaluation)|]; reflexivity.
  - apply Forall_forall. intros r Hr. apply repeat_spec in Hr. subst r.
    exists cv_file, cv_text. repeat split; auto. now left.
Qed.

Lemma fold_requests (cv_files : list string) (evaluations : list pyval) (w : world) :
  exists posted,
    snd (fold_left step cv_files (evaluations, w)) = (w ++ posted)%list
    /\ Forall (asked cv_files) posted.
Proof.
  revert evaluations w. induction cv_files as [|f rest IH]; intros evaluations w.
  - exists []. simpl. now rewrite app_nil_r.
  - cbn [fold_left].
    destruct (process_cv_requests evaluations w f) as (p1 & H1 & A1).
    destruct (step (evaluations, w) f) as [evaluations1 w1]. cbn [snd] in H1. subst w1.
    destruct (IH evaluations1 (w ++ p1)%list) as (p2 & H2 & A2).
    exists (p1 ++ p2)%list. rewrite H2, app_assoc. split; [reflexivity|].
    apply Forall_app. split.
    + eapply Forall_impl; [|exact A1].
      intros r (f' & t & [<-|[]] & H). exists f, t. split; [now left | exact H].
    + eapply Forall_impl; [|exact A2]. intros r. apply asked_later.
Qed.

Lemma generate_overall_summary_requests (evaluations : list pyval) (w : world) :
  exists posted,
    fst (generate_overall_summary X self evaluations job_title w) = (w ++ posted)%list
    /\ Forall (asks_summary self) posted.
Proof.
  unfold generate_overall_summary.
  destruct evaluations as [|top [|second rest]];
    try (exists []; simpl; rewrite app_nil_r; split; [reflexivity | constructor]).
  destruct (mapM candidate_info _) as [infos|e];
    [|exists []; simpl; rewrite app_nil_r; split; [reflexivity | constructor]].
  unfold post. eexists [_]. destruct (try_summary _); simpl; split; try reflexivity;
    (constructor; [eexists; reflexivity | constructor]).
Qed.

Lemma evaluate_candidates_asks (cv_files : list string) (w : world) :
  exists posted,
    fst (evaluate_candidates X self cv_files job_title company department
           location work_mode w) = (w ++ posted)%list
    /\ Forall (fun r => asked cv_files r \/ asks_summary self r) posted.
Proof.
  destruct (fold_requests cv_files [] w) as (p1 & H1 & A1).
  unfold evaluate_candidates. fold step.
  destruct (fold_left step cv_files ([], w)) as [evaluations w1]. cbn [snd] in H1.
  subst w1.
  assert (A : Forall (fun r => asked cv_files r \/ asks_summary self r) p1).
  { eapply Forall_impl; [|exact A1]. now left. }
  destruct (sort_reverse match_score evaluations) as [sorted|e].
  - destruct (generate_overall_summary_requests sorted (w ++ p1)%list) as (p2 & H2 & A2).
    destruct (generate_overall_summary X self sorted job_title (w ++ p1)%list)
      as [w2 [summary|e]]; cbn [fst] in H2 |- *; subst w2;
      exists (p1 ++ p2)%list; rewrite app_assoc; (split; [reflexivity|]);
      (apply Forall_app; split; [exact A|]);
      (eapply Forall_impl; [|exact A2]; now right).
  - exists p1. cbn [fst]. now split.
Qed.

(** X20.  A run posts nothing but what it is there for: every request it
    adds either asks for the evaluation of one of the CV files given, with
    the prompt made of the text of that file, or asks for the overall
    summary; and each goes to the evaluator's URL under its key. *)
Theorem evaluate_candidates_requests (cv_files : list string) (w : world) :
  exists posted,
    fst (evaluate_candidates X self cv_files job_title company department
           location work_mode w) = (w ++ posted)%list
    /\ Forall (fun r => asked cv_files r \/ asks_summary self r) posted
    /\ Forall (fun r => req_url r = api_url self
                        /\ req_authorization r = "Bearer " ++ api_key self
                        /\ req_model r = "deepseek-chat"
                        /\ req_timeout r = 60) posted.
Proof.
  destruct (evaluate_candidates_asks cv_files w) as (posted & H & A).
  exists posted. repeat split; auto.
  eapply Forall_impl; [|exact A].
  intros r [(f & t & _ & _ & _ & ->) | (p & ->)]; now repeat split.
Qed.

End Requests.

(** ** The application *)

Section Application.

Import PyStr.

Variable X : externals.

Lemma lstrip_blank (s : string) : blank s = true -> lstrip s = EmptyString.
Proof.
  induction s as [|c s IH]; simpl; [reflexivity|].
  intros H. apply andb_true_iff in H as [-> H]. auto.
Qed.

Lemma lstrip_not_blank (s : string) :
  blank s = false -> exists c t, lstrip s = String c t /\ is_space c = false.
Proof.
  induction s as [|c s IH]; simpl; [discriminate|].
  destruct (is_space c) eqn:C; simpl; [exact IH|].
  intros _. now exists c, s.
Qed.

Lemma strip_blank (s : string) :
  String.eqb (strip s) EmptyString = blank s.
Proof.
  unfold strip. destruct (blank s) eqn:B.
  - now rewrite lstrip_blank.
  - destruct (lstrip_not_blank s B) as (c & t & -> & C). cbn [rstrip].
    rewrite C. now destruct (rstrip t).
Qed.

(** X21.  Without an API key, or with one of white space only, the
    application raises ValueError at once: nothing is read, posted, written
    or stored. *)
Theorem blank_api_key_is_refused
  (form : form_data) (app : TalentMatcherApp) (fs : files) (w : world) :
  blank (or_default (form_api_key form) EmptyString) = true ->
  app_evaluate_candidates X form app fs w = (app, fs, w, Raised ValueError).
Proof.
  intros H. unfold app_evaluate_candidates. now rewrite strip_blank, H.
Qed.

(** X22.  Whatever the application posts goes to the DeepSeek chat
    completions URL under the key of the form with the white space around
    it stripped, and such a key is never blank. *)
Theorem app_requests_carry_the_stripped_key
  (form : form_data) (app : TalentMatcherApp) (fs : files) (w : world) :
  let key := or_default (form_api_key form) EmptyString in
  exists posted,
    snd (fst (app_evaluate_candidates X form app fs w)) = (w ++ posted)%list
    /\ Forall (fun r => req_url r = "https://api.deepseek.com/v1/chat/completions"
                        /\ req_authorization r = "Bearer " ++ strip key
                        /\ blank key = false) posted.
Proof.
  intros key. unfold app_evaluate_candidates. fold key. rewrite strip_blank.
  destruct (blank key) eqn:B.
  { exists []. simpl. now rewrite app_nil_r. }
  destruct (evaluate_candidates_asks X (init (strip key) (read_job_description X form))
              (form_job_title form) (form_company form)
              (or_default (form_department form) "Department")
              (or_default (form_location form) EmptyString) EmptyString
              (form_resume_files form) w) as (posted & H & A).
  exists posted. split.
  - destruct (evaluate_candidates _ _ _ _ _ _ _ _ w) as [w1 [report|e]];
      cbn [fst] in H; subst w1; [|reflexivity].
    unfold save_json_report. now destruct (generate_pdf _ _ _) as [[? ?]|].
  - eapply Forall_impl; [|exact A].
    intros r [(f & t & _ & _ & _ & ->) | (p & ->)]; now repeat split.
Qed.

(** X23.  The job description is optional down to its content: a file that
    cannot be read and a file that is empty give the very run the form
    gives without any job description file. *)
Theorem job_description_file_is_optional
  (form : form_data) (app : TalentMatcherApp) (fs : files) (w : world) :
  read_job_description X form = None
  \/ read_job_description X form = Some EmptyString ->
  app_evaluate_candidates X form app fs w
  = app_evaluate_candidates X (without_job_description form) app fs w.
Proof.
  intros H. unfold app_evaluate_candidates.
  change (read_job_description X (without_job_description form)) with (@None string).
  cbn [without_job_description form_api_key form_resume_files form_job_title
       form_company form_department form_location].
  destruct H as [-> | ->]; reflexivity.
Qed.

(** X24.  When the evaluation returns a report and reportlab cannot build
    the document, the JSON report is on disk all the same, the requests
    stay posted, the application keeps what it stored from the run before,
    and the error of the build is raised. *)
Theorem pdf_failure_keeps_json
  (form : form_data) (app : TalentMatcherApp) (fs : files) (w w1 : world)
  (report : pyval) :
  let key := or_default (form_api_key form) EmptyString in
  blank key = false ->
  evaluate_candidates X (init (strip key) (read_job_description X form))
    (form_resume_files form) (form_job_title form) (form_company form)
    (or_default (form_department form) "Department")
    (or_default (form_location form) EmptyString) EmptyString w
  = (w1, Returned report) ->
  (forall document, pdf_builds X document = false) ->
  app_evaluate_candidates X form app fs w
  = (app, ("evaluation_report.json", report) :: fs, w1, Raised RenderError)
  /\ read_json (("evaluation_report.json", report) :: fs) "evaluation_report.json"
     = Some report.
Proof.
  intros key B E Hfail. split; [|reflexivity].
  unfold app_evaluate_candidates. fold key. rewrite strip_blank, B, E.
  destruct (evaluate_candidates_returned _ _ _ _ _ _ _ _ _ _ _ E)
    as (sorted & summary & Hsort & _ & ->).
  destruct (number_candidates_dicts sorted 1 (sort_reverse_dicts _ _ Hsort))
    as (numbered & N & _).
  unfold save_json_report, generate_pdf, report_of.
  cbn [Py.get Py.lookup String.eqb Ascii.eqb Bool.eqb bind].
  rewrite N. cbn [bind Py.store String.eqb Ascii.eqb Bool.eqb].
  now rewrite Hfail.
Qed.

End Application.

Lemma blank_api_key_is_refused_witness :
  app_evaluate_candidates Run.all_evaluated
    (Trial.form_with (Some "   ") None Run.all_three) Run.fresh_app [] []
  = (Run.fresh_app, [], [], Raised ValueError).
Proof.
  apply (blank_api_key_is_refused Run.all_evaluated
           (Trial.form_with (Some "   ") None Run.all_three)).
  reflexivity.
Defined.

Lemma job_description_file_is_optional_witness :
  let X := Trial.externals_of Trial.three_answers true [("job.txt", EmptyString)] in
  app_evaluate_candidates X
    (Trial.form_with (Some "sk-test") (Some "job.txt") Run.all_three)
    Run.fresh_app [] []
  = app_evaluate_candidates X
      (without_job_description
         (Trial.form_with (Some "sk-test") (Some "job.txt") Run.all_three))
      Run.fresh_app [] [].
Proof.
  apply (job_description_file_is_optional
           (Trial.externals_of Trial.three_answers true [("job.txt", EmptyString)])
           (Trial.form_with (Some "sk-test") (Some "job.txt") Run.all_three)).
  right. reflexivity.
Defined.

Lemma pdf_failure_keeps_json_witness :
  exists w1 report,
    app_evaluate_candidates (Trial.externals_of Trial.three_answers false [])
      (Trial.form_with (Some "sk-test") None Run.all_three) Run.fresh_app [] []
    = (Run.fresh_app, [("evaluation_report.json", report)], w1, Raised RenderError)
    /\ read_json [("evaluation_report.json", report)] "evaluation_report.json"
       = Some report.
Proof.
  eexists. eexists.
  apply (pdf_failure_keeps_json (Trial.externals_of Trial.three_answers false [])
           (Trial.form_with (Some "sk-test") None Run.all_three)).
  - reflexivity.
  - vm_compute. reflexivity.
  - reflexivity.
Defined.

(** ** generate_pdf *)

Section Numbering.

Variable X : externals.

Lemma lookup_store_other (k k' : string) (v : pyval) (d : list (string * pyval)) :
  k <> k' -> Py.lookup k (Py.store k' v d) = Py.lookup k d.
Proof.
  intros Hk. apply String.eqb_neq in Hk.
  induction d as [|[k0 v0] d IH]; simpl.
  - now rewrite Hk.
  - destruct (String.eqb k' k0) eqn:E; simpl.
    + apply String.eqb_eq in E. subst k0. now rewrite Hk.
    + now rewrite IH.
Qed.

Lemma store_store (k : string) (v v' : pyval) (d : list (string * pyval)) :
  Py.store k v (Py.store k v' d) = Py.store k v d.
Proof.
  induction d as [|[k0 v0] d IH]; simpl.
  - now rewrite String.eqb_refl.
  - destruct (String.eqb k k0) eqn:E; simpl; rewrite E; [reflexivity | now rewrite IH].
Qed.

Lemma number_candidates_returned (l numbered : list pyval) (idx : Z) :
  number_candidates idx l = Returned numbered ->
  Forall (fun e => exists d, e = PDict d) l.
Proof.
  revert idx numbered. induction l as [|e l IH]; intros idx numbered; [constructor|].
  cbn [number_candidates].
  destruct e; try discriminate. cbn [Py.setitem bind].
  destruct (number_candidates (idx + 1) l) as [rest|] eqn:R; [|discriminate].
  intros _. constructor; [now eexists | exact (IH _ _ R)].
Qed.

Lemma number_candidates_again (l numbered : list pyval) (idx : Z) :
  number_candidates idx l = Returned numbered ->
  number_candidates idx numbered = Returned numbered.
Proof.
  revert idx numbered. induction l as [|e l IH]; intros idx numbered.
  - now intros [= <-].
  - cbn [number_candidates].
    destruct e; try discriminate. cbn [Py.setitem bind].
    destruct (number_candidates (idx + 1) l) as [rest|] eqn:R; [|discriminate].
    intros [= <-]. cbn [number_candidates Py.setitem bind].
    now rewrite (IH _ _ R), store_store.
Qed.

(** What a call that returns has done to the report. *)
Lemma generate_pdf_returned (report_data report1 : pyval) (output_file pdf_path : string) :
  generate_pdf X report_data output_file = Returned (report1, pdf_path) ->
  pdf_path = output_file
  /\ pdf_builds X report1 = true
  /\ exists d, report_data = PDict d
       /\ ((report1 = report_data
            /\ match Py.lookup "candidates" d with
               | Some (PStr EmptyString) | Some (PDict []) | Some (PList []) | None => True
               | _ => False
               end)
           \/ exists cs numbered,
                Py.lookup "candidates" d = Some (PList cs)
                /\ number_candidates 1 cs = Returned numbered
                /\ report1 = PDict (Py.store "candidates" (PList numbered) d)).
Proof.
  unfold generate_pdf.
  destruct report_data as [| | | | |d]; try discriminate. cbn [Py.get bind].
  destruct (Py.lookup "candidates" d) as [candidates|] eqn:L.
  - destruct candidates as [| | |s|cs|c]; try discriminate.
    + destruct s; [|discriminate]. cbn [bind].
      destruct (pdf_builds X (PDict d)) eqn:B; [|discriminate].
      intros [= <- <-]. repeat split; auto. exists d. split; [reflexivity|].
      left. now rewrite L.
    + destruct (number_candidates 1 cs) as [numbered|] eqn:N; [|discriminate].
      cbn [bind].
      destruct (pdf_builds X _) eqn:B; [|discriminate].
      intros [= <- <-]. repeat split; auto. exists d. split; [reflexivity|].
      right. now exists cs, numbered.
    + destruct c; [|discriminate]. cbn [bind].
      destruct (pdf_builds X (PDict d)) eqn:B; [|discriminate].
      intros [= <- <-]. repeat split; auto. exists d. split; [reflexivity|].
      left. now rewrite L.
  - cbn [number_candidates bind].
    destruct (pdf_builds X (PDict d)) eqn:B; [|discriminate].
    intros [= <- <-]. repeat split; auto. exists d. split; [reflexivity|].
    left. now rewrite L.
Qed.

(** X25.  A call that returns gives back the path it was given and has
    changed nothing of the report but the candidates, and nothing of a
    candidate but its number: every other key of the report and every
    other field of every candidate reads as before, and the candidates are
    numbered from 1 in their order. *)
Theorem generate_pdf_only_numbers
  (report_data report1 : pyval) (output_file pdf_path : string) :
  generate_pdf X report_data output_file = Returned (report1, pdf_path) ->
  pdf_path = output_file
  /\ (forall k default, k <> "candidates" ->
        Py.get report1 k default = Py.get report_data k default)
  /\ forall cs, Py.getitem report_data "candidates" = Returned (PList cs) ->
       exists numbered,
         Py.getitem report1 "candidates" = Returned (PList numbered)
         /\ List.length numbered = List.length cs
         /\ forall i c, nth_error cs i = Some c ->
              exists c', nth_error numbered i = Some c'
                /\ Py.getitem c' "candidate_number" = Returned (PInt (1 + Z.of_nat i))
                /\ forall k, k <> "candidate_number" ->
                     Py.getitem c' k = Py.getitem c k.
Proof.
  intros H.
  destruct (generate_pdf_returned _ _ _ _ H) as (-> & _ & d & -> & Hd).
  split; [reflexivity|].
  destruct Hd as [[-> Hl] | (cs & numbered & L & N & ->)].
  - split; [reflexivity|].
    intros cs. cbn [Py.getitem].
    destruct (Py.lookup "candidates" d) as [v|]; [|discriminate].
    intros [= ->]. destruct cs; [|destruct Hl].
    exists []. repeat split. intros [|i] c; discriminate.
  - split.
    + intros k default Hk. cbn [Py.get]. now rewrite lookup_store_other.
    + intros cs'. cbn [Py.getitem]. rewrite L, lookup_store_same.
      intros [= <-].
      destruct (number_candidates_dicts cs 1 (number_candidates_returned _ _ _ N))
        as (numbered' & N' & Hlen & Hnth).
      rewrite N in N'. injection N' as <-.
      exists numbered. repeat split; auto.
      intros i c Hc. destruct (Hnth i c Hc) as (dc & -> & Hi).
      eexists. split; [exact Hi|]. cbn [Py.getitem]. split.
      * now rewrite lookup_store_same.
      * intros k Hk. now rewrite lookup_store_other.
Qed.

(** X26.  Numbering is settled after one call: on the report a call
    returned, a second call to the same file returns that report again,
    unchanged. *)
Theorem generate_pdf_again
  (report_data report1 : pyval) (output_file pdf_path : string) :
  generate_pdf X report_data output_file = Returned (report1, pdf_path) ->
  generate_pdf X report1 output_file = Returned (report1, pdf_path).
Proof.
  intros H.
  destruct (generate_pdf_returned _ _ _ _ H) as (-> & B & d & -> & Hd).
  destruct Hd as [[-> _] | (cs & numbered & L & N & ->)]; [exact H|].
  unfold generate_pdf. cbn [Py.get bind]. rewrite lookup_store_same.
  rewrite (number_candidates_again _ _ _ N). cbn [bind].
  now rewrite store_store, B.
Qed.

End Numbering.

Lemma generate_pdf_only_numbers_witness :
  let report_data :=
    PDict [("candidates", PList [PDict [("candidate_name", PStr "Bob")];
                                 PDict [("candidate_name", PStr "Ada")]]);
           ("overall_summary", PStr "Level.")] in
  let report1 :=
    PDict [("candidates",
            PList [PDict [("candidate_name", PStr "Bob"); ("candidate_number", PInt 1)];
                   PDict [("candidate_name", PStr "Ada"); ("candidate_number", PInt 2)]]);
           ("overall_summary", PStr "Level.")] in
  "report.pdf" = "report.pdf"
  /\ (forall k default, k <> "candidates" ->
        Py.get report1 k default = Py.get report_data k default)
  /\ forall cs, Py.getitem report_data "candidates" = Returned (PList cs) ->
       exists numbered,
         Py.getitem report1 "candidates" = Returned (PList numbered)
         /\ List.length numbered = List.length cs
         /\ forall i c, nth_error cs i = Some c ->
              exists c', nth_error numbered i = Some c'
                /\ Py.getitem c' "candidate_number" = Returned (PInt (1 + Z.of_nat i))
                /\ forall k, k <> "candidate_number" ->
                     Py.getitem c' k = Py.getitem c k.
Proof.
  intros report_data report1.
  apply (generate_pdf_only_numbers Run.all_evaluated report_data report1
           "report.pdf" "report.pdf").
  reflexivity.
Defined.

Lemma generate_pdf_again_witness :
  let report1 :=
    PDict [("candidates",
            PList [PDict [("candidate_name", PStr "Bob"); ("candidate_number", PInt 1)];
                   PDict [("candidate_name", PStr "Ada"); ("candidate_number", PInt 2)]]);
           ("overall_summary", PStr "Level.")] in
  generate_pdf Run.all_evaluated report1 "report.pdf" = Returned (report1, "report.pdf").
Proof.
  intros report1.
  apply (generate_pdf_again Run.all_evaluated
           (PDict [("candidates", PList [PDict [("candidate_name", PStr "Bob")];
                                         PDict [("candidate_name", PStr "Ada")]]);
                   ("overall_summary", PStr "Level.")])
           report1 "report.pdf" "report.pdf").
  reflexivity.
Defined.

(** ** generate_pdf_report *)

(** X27.  A report that [evaluate_candidates] returned can always be
    numbered, so [generate_pdf_report] gives the path it was given exactly
    when the generator can be imported and reportlab builds the numbered
    document, and [None] in every other case. *)
Theorem generate_pdf_report_of_evaluation
  (X : externals) (self : CVEvaluator) (cv_files : list string)
  (job_title company department location work_mode : string)
  (w w1 : world) (report : pyval) :
  evaluate_candidates X self cv_files job_title company department
    location work_mode w = (w1, Returned report) ->
  exists numbered,
    generate_pdf X report "evaluation_report.pdf"
    = (if pdf_builds X numbered then Returned (numbered, "evaluation_report.pdf")
       else Raised RenderError)
    /\ forall importable output_file,
         generate_pdf_report X importable report output_file
         = if importable && pdf_builds X numbered
           then Some (numbered, output_file) else None.
Proof.
  intros E.
  destruct (evaluate_candidates_returned _ _ _ _ _ _ _ _ _ _ _ E)
    as (sorted & summary & Hsort & _ & ->).
  destruct (number_candidates_dicts sorted 1 (sort_reverse_dicts _ _ Hsort))
    as (numbered & N & _).
  eexists. split.
  - unfold generate_pdf, report_of.
    cbn [Py.get Py.lookup String.eqb Ascii.eqb Bool.eqb bind].
    rewrite N. cbn [bind Py.store String.eqb Ascii.eqb Bool.eqb]. reflexivity.
  - intros importable output_file. unfold generate_pdf_report, generate_pdf, report_of.
    cbn [Py.get Py.lookup String.eqb Ascii.eqb Bool.eqb bind].
    rewrite N. cbn [bind Py.store String.eqb Ascii.eqb Bool.eqb].
    destruct importable; [|reflexivity]. cbn [andb].
    now destruct (pdf_builds X _).
Qed.

Lemma generate_pdf_report_of_evaluation_witness :
  let report :=
    report_of Run.all_evaluated [Run.bob; Run.ada; Run.cy]
      "Bob Marley leads; Ada Lovelace and Cy Young follow."
      Run.title Run.company Run.department Run.location EmptyString in
  exists numbered,
    generate_pdf Run.all_evaluated report "evaluation_report.pdf"
    = (if pdf_builds Run.all_evaluated numbered
       then Returned (numbered, "evaluation_report.pdf") else Raised RenderError)
    /\ forall importable output_file,
         generate_pdf_report Run.all_evaluated importable report output_file
         = if importable && pdf_builds Run.all_evaluated numbered
           then Some (numbered, output_file) else None.
Proof.
  intros report.
  apply (generate_pdf_report_of_evaluation Run.all_evaluated Run.evaluator Run.all_three
           Run.title Run.company Run.department Run.location EmptyString []
           (fst (evaluate_candidates Run.all_evaluated Run.evaluator Run.all_three
                   Run.title Run.company Run.department Run.location EmptyString []))
           report).
  vm_compute. reflexivity.
Defined.
